(** * Agent tool-orchestration loop of the FastMCP companion toolkit

    A shallow embedding of the client-side conversation loops
    ([fastmcp_netflix/client/main.py], [puppy_guide/client/main.py]), their
    elicitation and progress handlers, and the [add_to_favorites] tool of the
    Netflix server, followed by the properties the specification states
    about them.

    Conventions.
    - Python [str] is [string]; only ASCII characters are interpreted
      (whitespace, digits, case), so a statement that depends on how a typed
      line is read assumes the line is ASCII, and one that depends on
      [int(str)] assumes it is within the interpreter's limit of
      [INT_MAX_STR_DIGITS] characters.
    - Python [int] is [Z]; Python [float] is the kernel's binary64 [float].
    - The LLM backend, the MCP transport and [json.loads] are external: they
      are section variables, threaded through an abstract world state where
      they are stateful.
    - [while True] loops take a fuel argument; running out of fuel is the
      outcome [Diverges]. *)

From Stdlib Require Import ZArith List String Ascii Bool Lia DecimalString.
From Stdlib Require Import Floats.
From stdpp Require Import base option gmap strings.
Import ListNotations.

#[local] Open Scope string_scope.
#[local] Open Scope list_scope.
#[local] Open Scope Z_scope.

(** ** Python primitives used by the sources *)
Module Py.

(** An exception object: its class name and [str(e)]. *)
Record Exc : Type := mkExc { exc_type : string; exc_str : string }.

(** [str.isspace] on one ASCII character: TAB..CR, FS..US and space. *)
Definition is_space (c : ascii) : bool :=
  let n := nat_of_ascii c in
  ((9 <=? n)%nat && (n <=? 13)%nat) || ((28 <=? n)%nat && (n <=? 32)%nat).

Fixpoint lstrip (s : string) : string :=
  match s with
  | EmptyString => EmptyString
  | String c r => if is_space c then lstrip r else s
  end.

Fixpoint rstrip (s : string) : string :=
  match s with
  | EmptyString => EmptyString
  | String c r =>
      match rstrip r with
      | EmptyString => if is_space c then EmptyString else String c EmptyString
      | r' => String c r'
      end
  end.

(** [s.strip()], for a string of ASCII characters. *)
Definition strip (s : string) : string := rstrip (lstrip s).

Definition lower_char (c : ascii) : ascii :=
  let n := nat_of_ascii c in
  if ((65 <=? n)%nat && (n <=? 90)%nat) then ascii_of_nat (n + 32) else c.

(** [s.lower()], for a string of ASCII characters. *)
Fixpoint lower (s : string) : string :=
  match s with
  | EmptyString => EmptyString
  | String c r => String (lower_char c) (lower r)
  end.

(** [s.isascii()] *)
Fixpoint is_ascii (s : string) : bool :=
  match s with
  | EmptyString => true
  | String c r => (nat_of_ascii c <? 128)%nat && is_ascii r
  end.

(** [sys.int_info.default_max_str_digits]: longer literals make [int(str)]
    raise. *)
Definition INT_MAX_STR_DIGITS : nat := 4300.

(** [isinstance(e, KeyboardInterrupt)]; the class has no subclass here. *)
Definition is_keyboard_interrupt (e : Exc) : bool :=
  String.eqb (exc_type e) "KeyboardInterrupt".

(** Truthiness of a [str]: [not s] holds for the empty string. *)
Definition truthy_str (s : string) : bool :=
  match s with EmptyString => false | _ => true end.

(** Truthiness of an optional [str] ([None] and [""] are falsy). *)
Definition truthy_opt_str (s : option string) : bool :=
  match s with None => false | Some s => truthy_str s end.

(** Truthiness of an optional [int] ([None] and [0] are falsy). *)
Definition truthy_opt_int (n : option Z) : bool :=
  match n with None => false | Some n => negb (n =? 0) end.

(** Truthiness of an optional list ([None] and [[]] are falsy). *)
Definition truthy_opt_list {A} (l : option (list A)) : bool :=
  match l with None | Some [] => false | Some (_ :: _) => true end.

(** The line feed, ["\n"]. *)
Definition nl : string := String (ascii_of_nat 10) EmptyString.

(** [sep.join(items)] *)
Fixpoint join (sep : string) (items : list string) : string :=
  match items with
  | [] => EmptyString
  | [x] => x
  | x :: rest => x +:+ sep +:+ join sep rest
  end.

(** [str(n)] for an [int]. *)
Definition str_int (n : Z) : string := NilZero.string_of_int (Z.to_int n).

Definition is_digit (c : ascii) : bool :=
  let n := nat_of_ascii c in (48 <=? n)%nat && (n <=? 57)%nat.

Definition digit_val (c : ascii) : Z := Z.of_nat (nat_of_ascii c) - 48.

(** The digit part of an integer literal accepted by [int(str)]: decimal
    digits, single underscores allowed between two digits. [prev] tells
    whether the previous character was a digit. *)
Fixpoint int_digits (s : string) (acc : Z) (prev : bool) : option Z :=
  match s with
  | EmptyString => if prev then Some acc else None
  | String c r =>
      if is_digit c then int_digits r (10 * acc + digit_val c) true
      else if Ascii.eqb c "_" then
        if prev then int_digits r acc false else None
      else None
  end.

(** [int(s)] for a [str] of ASCII characters, at most [INT_MAX_STR_DIGITS]
    of them: [inl] is the [ValueError]. *)
Definition int_of_str (s : string) : Exc + Z :=
  let body :=
    match strip s with
    | String "-" r => Z.opp <$> int_digits r 0 false
    | String "+" r => int_digits r 0 false
    | t => int_digits t 0 false
    end in
  match body with
  | Some n => inr n
  | None => inl (mkExc "ValueError" ("invalid literal for int() with base 10: '" +:+ s +:+ "'"))
  end.

(** The integer nearest to [m * 2^e], ties to the even one: the rounding
    of [format(x, ".0f")]. *)
Definition round_half_even (m : positive) (e : Z) : Z :=
  if 0 <=? e then Z.pos m * 2 ^ e
  else
    let d := 2 ^ (- e) in
    let q := Z.pos m / d in
    let r := Z.pos m mod d in
    match 2 * r ?= d with
    | Lt => q
    | Gt => q + 1
    | Eq => if Z.even q then q else q + 1
    end.

(** [f"{x:.0f}"] for a [float]. *)
Definition format_0f (x : float) : string :=
  match Prim2SF x with
  | S754_zero s => if s then "-0" else "0"
  | S754_infinity s => if s then "-inf" else "inf"
  | S754_nan => "nan"
  | S754_finite s m e =>
      (if s then "-" else "") +:+ str_int (round_half_even m e)
  end.

(** [int(x)] for a [float]: truncation toward zero; infinities and NaN
    raise. *)
Definition int_of_float (x : float) : Exc + Z :=
  match Prim2SF x with
  | S754_zero _ => inr 0
  | S754_infinity _ =>
      inl (mkExc "OverflowError" "cannot convert float infinity to integer")
  | S754_nan => inl (mkExc "ValueError" "cannot convert float NaN to integer")
  | S754_finite s m e =>
      let a := if 0 <=? e then Z.pos m * 2 ^ e else Z.pos m / 2 ^ (- e) in
      inr (if s then - a else a)
  end.

End Py.


(** ** Conversation data model (OpenAI chat messages, MCP results) *)

(** A tool-call request of an assistant message: [tool_call.id],
    [tool_call.function.name], [tool_call.function.arguments] (JSON text). *)
Record ToolCall : Type := mkToolCall {
  tc_id : string;
  tc_name : string;
  tc_arguments : string
}.

(** [response.choices[0].message]: [content] and [tool_calls] may be [None]. *)
Record AssistantMessage : Type := mkAssistant {
  am_content : option string;
  am_tool_calls : option (list ToolCall)
}.

(** The elements of the [messages] list. *)
Inductive Message : Type :=
| SystemMsg (content : option string)
| UserMsg (content : string)
| AssistantMsg (m : AssistantMessage)
| ToolMsg (tool_call_id name content : string).

(** A content block of an MCP tool result; only [TextContent] has a [text]
    attribute. *)
Inductive ContentBlock : Type :=
| TextContent (text : string)
| ImageContent (data mimeType : string)
| AudioContent (data mimeType : string)
| ResourceLink (uri : string)
| EmbeddedResource (uri : string).

Record CallToolResult : Type := mkResult { content : list ContentBlock }.

(** How a call that may raise or loop ends. *)
Inductive Outcome (A : Type) : Type :=
| Returns (a : A)
| Raises (e : Py.Exc)
| Diverges.
Arguments Returns {A} a.
Arguments Raises {A} e.
Arguments Diverges {A}.

(** ** The conversation loop, shared by both clients

    [chat] in [fastmcp_netflix/client/main.py] and in
    [puppy_guide/client/main.py] differ only in how the text of a successful
    result is extracted; that step is the parameter [result_text]. *)
Module Loop.
Section Loop.

Context {World Json : Type}.

(** [openai_client.chat.completions.create(messages=messages, ...)] followed
  by [response.choices[0].message]; [inl] when the request raises. *)
Variable create : World -> list Message -> (Py.Exc + AssistantMessage) * World.
(** [json.loads]; [inl] is the [JSONDecodeError]. *)
Variable json_loads : string -> Py.Exc + Json.
(** [await mcp_client.call_tool(tool_name, tool_args)]; [inl] is an
  [Exception] raised by the call. *)
Variable call_tool : World -> string -> Json -> (Py.Exc + CallToolResult) * World.
(** The text taken from a successful result. *)
Variable result_text : CallToolResult -> string.

(** The result of running a block: [None] when it fell through, [Some e]
  when [e] propagated out of it. *)
Definition Flow := option Py.Exc.

(** [for tool_call in assistant_message.tool_calls: ...]: the messages
  appended by the loop, in order. *)
Fixpoint for_tool_calls (w : World) (tool_calls : list ToolCall)
: Flow * list Message * World :=
match tool_calls with
| [] => (None, [], w)
| tool_call :: rest =>
    let tool_name := tc_name tool_call in
    match json_loads (tc_arguments tool_call) with
    | inl e => (Some e, [], w)
    | inr tool_args =>
        let '(r, w1) := call_tool w tool_name tool_args in
        let text :=
          match r with
          | inr result => result_text result
          | inl e => "Error: " +:+ Py.exc_str e
          end in
        let m := ToolMsg (tc_id tool_call) tool_name text in
        let '(flow, ms, w2) := for_tool_calls w1 rest in
        (flow, m :: ms, w2)
    end
end.

(** The arguments of the request decode. *)
Definition decodes (c : ToolCall) : bool :=
  match json_loads (tc_arguments c) with inr _ => true | inl _ => false end.

(** What a run of the loop leaves behind: how it ended, the [messages]
  list, the world, and (ghost) the histories on which a completion was
  requested, oldest first. *)
Record Run : Type := mkRun {
outcome : Outcome string;
messages_after : list Message;
world_after : World;
requests : list (list Message)
}.

Definition requested (h : list Message) (r : Run) : Run :=
mkRun (outcome r) (messages_after r) (world_after r) (h :: requests r).

(** [while True: ...] of [chat]. *)
Fixpoint chat_loop (fuel : nat) (w : World) (messages : list Message) : Run :=
match fuel with
| O => mkRun Diverges messages w []
| S fuel' =>
    match create w messages with
    | (inl e, w1) => mkRun (Raises e) messages w1 [messages]
    | (inr assistant_message, w1) =>
        let messages1 := messages ++ [AssistantMsg assistant_message] in
        if negb (Py.truthy_opt_list (am_tool_calls assistant_message)) then
          mkRun (Returns (default "" (am_content assistant_message)))
                messages1 w1 [messages]
        else
          match for_tool_calls w1 (default [] (am_tool_calls assistant_message)) with
          | (None, ms, w2) =>
              requested messages (chat_loop fuel' w2 (messages1 ++ ms))
          | (Some e, ms, w2) =>
              mkRun (Raises e) (messages1 ++ ms) w2 [messages]
          end
    end
end.

(** [chat(user_question, openai_client, tools, messages)] *)
Definition chat (fuel : nat) (user_question : string) (w : World)
  (messages : list Message) : Run :=
chat_loop fuel w (messages ++ [UserMsg user_question]).

End Loop.
End Loop.

(** One line typed at a terminal prompt, or Ctrl-C while the prompt waits. *)
Inductive Typed : Type :=
| Line (s : string)
| Interrupt.

(** How one pass through the body of a REPL's [while True] ends. *)
Inductive Step (World : Type) : Type :=
| Continue (messages : list Message) (w : World)
| Break
| Propagates (e : Py.Exc)
| Hangs.
Arguments Continue {World} messages w.
Arguments Break {World}.
Arguments Propagates {World} e.
Arguments Hangs {World}.

(** Why a REPL run stopped. *)
Inductive Stop : Type :=
| AtPrompt
| Exited
| Crashed (e : Py.Exc)
| Hung.

(** [[messages[0]]]: indexing an empty list raises [IndexError]. *)
Definition keep_first (messages : list Message) : Py.Exc + list Message :=
  match messages with
  | m :: _ => inr [m]
  | [] => inl (Py.mkExc "IndexError" "list index out of range")
  end.

(** [if len(messages) > MAX_HISTORY + 1: messages = [messages[0]]] *)
Definition bound_history {World : Type} (MAX_HISTORY : Z)
    (messages : list Message) (w : World) : Step World :=
  if Z.of_nat (length messages) >? MAX_HISTORY + 1 then
    match keep_first messages with
    | inr ms => Continue ms w
    | inl e => Propagates e
    end
  else Continue messages w.

(** ** [fastmcp_netflix/client/main.py] *)
Module Netflix.

(** [hasattr(block, "text")] *)
Definition has_text (block : ContentBlock) : bool :=
  match block with TextContent _ => true | _ => false end.

(** [block.text], read only on blocks that have the attribute. *)
Definition text_of (block : ContentBlock) : string :=
  match block with TextContent t => t | _ => EmptyString end.

(** ["\n".join(block.text for block in result.content if hasattr(block, "text"))] *)
Definition result_text (result : CallToolResult) : string :=
  Py.join Py.nl (map text_of (List.filter has_text (content result))).

Definition system_message : Message :=
  SystemMsg (Some ("You are a helpful Netflix assistant. "
    +:+ "Use the available tools to answer questions about movies and manage favorites. "
    +:+ "For analysis tasks (trends, performance, comparisons), check list_prompts first - "
    +:+ "prompts provide structured templates that format the data for you.")).

Section Client.
Context {World Json : Type}.
Variable create : World -> list Message -> (Py.Exc + AssistantMessage) * World.
Variable json_loads : string -> Py.Exc + Json.
Variable call_tool : World -> string -> Json -> (Py.Exc + CallToolResult) * World.
Variable MAX_HISTORY : Z.

Definition chat : nat -> string -> World -> list Message -> Loop.Run :=
  Loop.chat create json_loads call_tool result_text.

(** One user turn, from [# Process the question] to the end of the [try]:
    the call of [chat], then the bound on [messages]. The enclosing
    [except KeyboardInterrupt] ends the loop; any other exception leaves it. *)
Definition turn (fuel : nat) (user_input : string)
    (messages : list Message) (w : World) : Step World :=
  let r := chat fuel user_input w messages in
  match Loop.outcome r with
  | Returns _ =>
      bound_history MAX_HISTORY (Loop.messages_after r) (Loop.world_after r)
  | Raises e => if Py.is_keyboard_interrupt e then Break else Propagates e
  | Diverges => Hangs
  end.

(** The body of the REPL's [while True] for one prompt. *)
Definition repl_iteration (fuel : nat) (typed : Typed)
    (messages : list Message) (w : World) : Step World :=
  match typed with
  | Interrupt => Break
  | Line l =>
      let user_input := Py.strip l in
      if negb (Py.truthy_str user_input) then Continue messages w
      else if existsb (String.eqb (Py.lower user_input)) ["quit"; "exit"; "q"]
      then Break
      else if String.eqb (Py.lower user_input) "clear" then
        match keep_first messages with
        | inr ms => Continue ms w
        | inl e => Propagates e
        end
      else turn fuel user_input messages w
  end.

(** The REPL over the lines typed so far: where it stands, with which
    [messages]. When it stops other than at a prompt, the list is the one
    of the last prompt. Printing is left out. *)
Fixpoint repl (fuel : nat) (typed : list Typed) (messages : list Message)
    (w : World) : Stop * list Message * World :=
  match typed with
  | [] => (AtPrompt, messages, w)
  | t :: rest =>
      match repl_iteration fuel t messages w with
      | Continue messages' w' => repl fuel rest messages' w'
      | Break => (Exited, messages, w)
      | Propagates e => (Crashed e, messages, w)
      | Hangs => (Hung, messages, w)
      end
  end.

Definition run_repl (fuel : nat) (typed : list Typed) (w : World)
  : Stop * list Message * World :=
  repl fuel typed [system_message] w.

End Client.
End Netflix.

(** ** [puppy_guide/client/main.py] *)
Module Puppy.

Section Client.
Context {World Json : Type}.
Variable create : World -> list Message -> (Py.Exc + AssistantMessage) * World.
Variable json_loads : string -> Py.Exc + Json.
Variable call_tool : World -> string -> Json -> (Py.Exc + CallToolResult) * World.
(** [str(result)], the printed form of the result object. *)
Variable str : CallToolResult -> string.
Variable MAX_HISTORY : Z.
Variable SYSTEM_PROMPT : option string.

Definition chat : nat -> string -> World -> list Message -> Loop.Run :=
  Loop.chat create json_loads call_tool str.

(** One user turn: the call of [chat], then the bound on [messages]. The
    enclosing [except KeyboardInterrupt] ends the loop; any other exception
    leaves it. *)
Definition turn (fuel : nat) (user_input : string)
    (messages : list Message) (w : World) : Step World :=
  let r := chat fuel user_input w messages in
  match Loop.outcome r with
  | Returns _ =>
      bound_history MAX_HISTORY (Loop.messages_after r) (Loop.world_after r)
  | Raises e => if Py.is_keyboard_interrupt e then Break else Propagates e
  | Diverges => Hangs
  end.

(** The body of the REPL's [while True] for one prompt: every line, blank
    ones too, is a question. *)
Definition repl_iteration (fuel : nat) (typed : Typed)
    (messages : list Message) (w : World) : Step World :=
  match typed with
  | Interrupt => Break
  | Line l => turn fuel (Py.strip l) messages w
  end.

Fixpoint repl (fuel : nat) (typed : list Typed) (messages : list Message)
    (w : World) : Stop * list Message * World :=
  match typed with
  | [] => (AtPrompt, messages, w)
  | t :: rest =>
      match repl_iteration fuel t messages w with
      | Continue messages' w' => repl fuel rest messages' w'
      | Break => (Exited, messages, w)
      | Propagates e => (Crashed e, messages, w)
      | Hangs => (Hung, messages, w)
      end
  end.

Definition run_repl (fuel : nat) (typed : list Typed) (w : World)
  : Stop * list Message * World :=
  repl fuel typed [SystemMsg SYSTEM_PROMPT] w.

End Client.
End Puppy.

(** ** Terminal input and output

    The handlers [print] and call [input]; a computation threads the lines
    still to be typed and the text written so far, and may raise. *)
Module Console.

Record State : Type := mkState {
  stdin : list string;      (* lines not yet read *)
  stdout : list string      (* chunks written, oldest first *)
}.

Definition IO (A : Type) : Type := State -> (Py.Exc + A) * State.

#[global] Instance IO_ret : MRet IO := fun A a c => (inr a, c).

#[global] Instance IO_bind : MBind IO := fun A B f m c =>
  match m c with
  | (inr a, c') => f a c'
  | (inl e, c') => (inl e, c')
  end.

Definition raise {A} (e : Py.Exc) : IO A := fun c => (inl e, c).

(** [print(s)] *)
Definition print (s : string) : IO unit := fun c =>
  (inr tt, mkState (stdin c) (stdout c ++ [s +:+ Py.nl])).

(** [input(prompt)]: writes the prompt, then takes one line; end of input
    raises [EOFError]. *)
Definition input (prompt : string) : IO string := fun c =>
  let out := stdout c ++ [prompt] in
  match stdin c with
  | l :: rest => (inr l, mkState rest out)
  | [] => (inl (Py.mkExc "EOFError" "EOF when reading a line"), mkState [] out)
  end.

(** [for x in xs: body(x)] *)
Fixpoint for_each {A} (xs : list A) (body : A -> IO unit) : IO unit :=
  match xs with
  | [] => mret tt
  | x :: rest => body x ≫= fun _ => for_each rest body
  end.

End Console.
Import Console.

(** ** Elicitation *)

Inductive Action : Type := accept | decline | cancel.

(** The answer shape a request expects; [response_type] is the dataclass
    FastMCP builds for it, [None] when no data is wanted. *)
Inductive Shape : Type :=
| BooleanShape
| IntegerShape
| StringShape
| EnumShape (members : list string).

(** What a handler returns: an [ElicitResult], or [response_type(value=v)],
    an instance of the dataclass holding the [str] it was given. *)
Inductive Answer : Type :=
| ElicitResult (action : Action)
| Instance (response_type : Shape) (value : string).

(** [enumerate(xs, start)] *)
Fixpoint enumerate {A} (xs : list A) (start : Z) : list (Z * A) :=
  match xs with
  | [] => []
  | x :: rest => (start, x) :: enumerate rest (start + 1)
  end.

(** [xs[i]], negative indices counting from the end. *)
Definition index {A} (xs : list A) (i : Z) : Py.Exc + A :=
  let n := Z.of_nat (length xs) in
  let j := if i <? 0 then i + n else i in
  if (0 <=? j) && (j <? n) then
    match nth_error xs (Z.to_nat j) with
    | Some x => inr x
    | None => inl (Py.mkExc "IndexError" "list index out of range")
    end
  else inl (Py.mkExc "IndexError" "list index out of range").

(** *** [fastmcp_netflix/client/handlers/elicitation.py] *)
Module NetflixElicitation.

Definition elicitation_handler (message : string)
    (response_type : option Shape) : IO Answer :=
  match response_type with
  | None => mret (ElicitResult accept)
  | Some rt =>
      _ ← print "";
      user_input ← input ("[Server asks]: " +:+ message +:+ Py.nl +:+ "> Your choice: ");
      if negb (Py.truthy_str (Py.strip user_input))
      then mret (ElicitResult decline)
      else mret (Instance rt (Py.strip user_input))
  end.

End NetflixElicitation.

(** *** [puppy_guide/client/handlers/elicitation.py] *)
Module PuppyElicitation.

(** One entry of [properties]: its ["const"] value, printed, if any. *)
Record Property : Type := mkProperty { const : option string }.

(** [params.requestedSchema]: the ["properties"] entry, in dict order. *)
Record Schema : Type := mkSchema {
  properties : option (list (string * Property))
}.

(** The menu entries: the [const] of every property that has one. The
    source reads them inside a [try] whose handler leaves no entry; with
    the typed schema above nothing in it can raise. *)
Definition options_of (requestedSchema : option Schema) : list string :=
  let props := default [] (requestedSchema ≫= properties) in
  omap (fun p => const (snd p)) props.

Definition elicitation_handler (message : string)
    (response_type : option Shape) (requestedSchema : option Schema)
    : IO Answer :=
  let options := options_of requestedSchema in
  let n := Z.of_nat (length options) in
  _ ← print "";
  _ ← print ("[Server asks]: " +:+ message);
  _ ← print "";
  _ ← print "Please enter the number of your choice:";
  _ ← for_each (enumerate options 1)
        (fun io => print ("  " +:+ Py.str_int (fst io) +:+ ". " +:+ snd io));
  _ ← print ("  " +:+ Py.str_int (n + 1) +:+ ". Abandon or quit");
  l ← input "> ";
  let raw := Py.strip l in
  match Py.int_of_str raw with
  | inl _ => mret (ElicitResult decline)
  | inr choice =>
      if (choice <? 1) || (choice =? n + 1) then mret (ElicitResult decline)
      else
        match response_type with
        | None => mret (ElicitResult accept)
        | Some rt =>
            match index options (choice - 1) with
            | inr v => mret (Instance rt v)
            | inl e => raise e
            end
        end
  end.

End PuppyElicitation.

(** ** Progress notifications *)

(** [percent_str] of both progress handlers. *)
Definition percent_str (progress : float) (total : option float) : IO string :=
  let raw_count : IO string :=
    match Py.int_of_float progress with
    | inr n => mret (Py.str_int n)
    | inl e => raise e
    end in
  match total with
  | Some total =>
      if PrimFloat.ltb 0%float total then
        let percentage := PrimFloat.mul (PrimFloat.div progress total) 100%float in
        mret (Py.format_0f percentage +:+ "%")
      else raw_count
  | None => raw_count
  end.

(** *** [fastmcp_netflix/client/handlers/progress.py] *)
Module NetflixProgress.

Definition progress_handler (progress : float) (total : option float)
    (message : option string) : IO unit :=
  s ← percent_str progress total;
  let msg_part :=
    if Py.truthy_opt_str message then " - " +:+ default "" message else "" in
  print ("[Progress] " +:+ s +:+ msg_part).

End NetflixProgress.

(** *** [puppy_guide/client/handlers/progress.py] *)
Module PuppyProgress.

Definition progress_handler (progress : float) (total : option float)
    (message : option string) : IO unit :=
  s ← percent_str progress total;
  let msg_part :=
    if Py.truthy_opt_str message then default "" message else "" in
  print ("[Progress] " +:+ s +:+ " - " +:+ msg_part).

End PuppyProgress.

(** ** [fastmcp_netflix/server/components/tools.py]: favorites *)
Module Server.

(** A row of the [movies] table, as far as the tool reads it. *)
Record Movie : Type := mkMovie { id : Z; title : string }.

(** An entry of the favorites list, [{"id": ..., "title": ...}]. *)
Record Favorite : Type := mkFavorite { fav_id : Z; fav_title : string }.

Definition ToolError (msg : string) : Py.Exc := Py.mkExc "ToolError" msg.

Section Tools.
(** [db.query(Movie).filter(Movie.id == movie_id).first()] *)
Variable by_id : Z -> option Movie.
(** [db.query(Movie).filter(Movie.title.ilike(title)).first()] *)
Variable by_title : string -> option Movie.

(** [add_to_favorites(title, movie_id)] over the session state, the map
    behind [ctx.get_state] and [ctx.set_state]. *)
Definition add_to_favorites (title : option string) (movie_id : option Z)
    (state : gmap string (list Favorite))
  : (Py.Exc + string) * gmap string (list Favorite) :=
  if negb (Py.truthy_opt_str title) && negb (Py.truthy_opt_int movie_id) then
    (inl (ToolError "Must provide either 'title' or 'movie_id'"), state)
  else
    let movie :=
      if Py.truthy_opt_int movie_id then by_id (default 0 movie_id)
      else by_title (default "" title) in
    match movie with
    | None =>
        (inl (ToolError "Movie not found. Use search_movies to find it first."),
         state)
    | Some movie =>
        let favorites := default [] (state !! "favorites") in
        if existsb (fun fav => fav_id fav =? id movie) favorites then
          (inr ("'" +:+ Server.title movie +:+ "' is already in your favorites"), state)
        else
          let favorites := favorites ++ [mkFavorite (id movie) (Server.title movie)] in
          (inr ("Added '" +:+ Server.title movie +:+ "' to favorites. You now have "
                +:+ Py.str_int (Z.of_nat (length favorites)) +:+ " favorite(s)."),
           <["favorites" := favorites]> state)
    end.

(** [get_favorites()]: the count and the list. *)
Definition get_favorites (state : gmap string (list Favorite))
  : Z * list Favorite :=
  let favorites := default [] (state !! "favorites") in
  (Z.of_nat (length favorites), favorites).

(** A session: the arguments of successive [add_to_favorites] calls on
    one connection, starting from the state [state]. *)
Fixpoint session (calls : list (option string * option Z))
    (state : gmap string (list Favorite)) : gmap string (list Favorite) :=
  match calls with
  | [] => state
  | (title, movie_id) :: rest =>
      session rest (snd (add_to_favorites title movie_id state))
  end.

End Tools.
End Server.

(** ** Vocabulary of the specification *)
Module Spec.

(** [m] is the ToolCallResult of request [c]: a [tool] message keyed by
    the request's id. *)
Definition result_of (c : ToolCall) (m : Message) : bool :=
  match m with
  | ToolMsg i _ _ => String.eqb i (tc_id c)
  | _ => false
  end.

(** [m] is the tool message the loop builds for request [c]. *)
Definition tool_message_of (c : ToolCall) (m : Message) : Prop :=
  exists text, m = ToolMsg (tc_id c) (tc_name c) text.

(** The messages that follow start with one result per request, in the
    order of the requests. *)
Fixpoint answered_by (calls : list ToolCall) (rest : list Message) : bool :=
  match calls, rest with
  | [], _ => true
  | c :: cs, m :: ms => result_of c m && answered_by cs ms
  | _ :: _, [] => false
  end.

(** No assistant message of the history has an unanswered tool call. *)
Fixpoint answered (h : list Message) : bool :=
  match h with
  | [] => true
  | AssistantMsg am :: rest =>
      answered_by (default [] (am_tool_calls am)) rest && answered rest
  | _ :: rest => answered rest
  end.

(** What is observed of [messages] at a prompt: it starts with the system
    message and is within the bound, or is the system message alone. *)
Definition bounded (MAX_HISTORY : Z) (sys : Message) (h : list Message) : Prop :=
  hd_error h = Some sys /\
  (Z.of_nat (length h) <= MAX_HISTORY + 1 \/ h = [sys]).

(** The text-bearing items of a content sequence, in order; the others
    are skipped. *)
Fixpoint text_items (blocks : list ContentBlock) : list string :=
  match blocks with
  | [] => []
  | TextContent t :: rest => t :: text_items rest
  | _ :: rest => text_items rest
  end.

(** A float that denotes a number (not an infinity, not NaN). *)
Definition is_number (x : float) : bool :=
  match Prim2SF x with
  | S754_zero _ | S754_finite _ _ _ => true
  | _ => false
  end.

(** What the puppy-guide handler writes before it reads: the question and
    the numbered menu, the last entry being the synthetic one. *)
Definition menu (message : string) (options : list string) : list string :=
  [EmptyString +:+ Py.nl;
   ("[Server asks]: " +:+ message) +:+ Py.nl;
   EmptyString +:+ Py.nl;
   "Please enter the number of your choice:" +:+ Py.nl]
  ++ map (fun io => ("  " +:+ Py.str_int (fst io) +:+ ". " +:+ snd io) +:+ Py.nl)
         (enumerate options 1)
  ++ [("  " +:+ Py.str_int (Z.of_nat (length options) + 1) +:+ ". Abandon or quit") +:+ Py.nl;
      "> "].

(** The movie [add_to_favorites] looks up for its arguments: by id when
    one is given, else by title. *)
Definition target (by_id : Z -> option Server.Movie)
    (by_title : string -> option Server.Movie)
    (title : option string) (movie_id : option Z) : option Server.Movie :=
  if Py.truthy_opt_int movie_id then by_id (default 0 movie_id)
  else by_title (default "" title).

(** The favorites of a session state. *)
Definition favorites_of (state : gmap string (list Server.Favorite))
  : list Server.Favorite :=
  default [] (state !! "favorites").

End Spec.

(** ** Concrete collaborators for the examples

    A scripted LLM (the world counts the completions served), a decoder
    that knows the empty JSON object only, and a tool host with the two
    tools of the specification's scenario. *)
Module Fixture.

Definition create (script : list AssistantMessage) (w : nat)
    (_ : list Message) : (Py.Exc + AssistantMessage) * nat :=
  match nth_error script w with
  | Some am => (inr am, S w)
  | None => (inl (Py.mkExc "APIConnectionError" "Connection error."), S w)
  end.

(** Agrees with [json.loads] on the empty object and on truncated text. *)
Definition json_loads (s : string) : Py.Exc + unit :=
  if String.eqb s "{}" then inr tt
  else inl (Py.mkExc "JSONDecodeError"
              "Expecting property name enclosed in double quotes: line 1 column 2 (char 1)").

Definition top_movies : CallToolResult :=
  mkResult [TextContent "1. Leave the World Behind";
            ImageContent "iVBORw0KGgo=" "image/png";
            TextContent "2. Extraction 2"].

Definition call_tool (w : nat) (tool_name : string) (_ : unit)
    : (Py.Exc + CallToolResult) * nat :=
  if String.eqb tool_name "get_top_movies" then (inr top_movies, w)
  else if String.eqb tool_name "add_to_favorites" then
    (inl (Server.ToolError "Movie not found. Use search_movies to find it first."), w)
  else (inl (Server.ToolError ("Unknown tool: " +:+ tool_name)), w).

(** The printed form of a result object, as the dataclass prints it. *)
Definition str_block (b : ContentBlock) : string :=
  match b with
  | TextContent t => "TextContent(type='text', text='" +:+ t +:+ "', annotations=None, meta=None)"
  | ImageContent d m => "ImageContent(type='image', data='" +:+ d +:+ "', mimeType='" +:+ m +:+ "', annotations=None, meta=None)"
  | AudioContent d m => "AudioContent(type='audio', data='" +:+ d +:+ "', mimeType='" +:+ m +:+ "', annotations=None, meta=None)"
  | ResourceLink u => "ResourceLink(type='resource_link', uri='" +:+ u +:+ "')"
  | EmbeddedResource u => "EmbeddedResource(type='resource', uri='" +:+ u +:+ "')"
  end.

Definition str_result (r : CallToolResult) : string :=
  "CallToolResult(content=[" +:+ Py.join ", " (map str_block (content r))
    +:+ "], structured_content=None, meta=None, data=None, is_error=False)".

(** The scenario of the specification: one assistant turn asks for
    [get_top_movies] (id a) and [add_to_favorites] (id b), then answers. *)
Definition two_calls : AssistantMessage :=
  mkAssistant None
    (Some [mkToolCall "a" "get_top_movies" "{}";
           mkToolCall "b" "add_to_favorites" "{}"]).

Definition final_answer : AssistantMessage :=
  mkAssistant (Some "Here are the top movies.") None.

(** A turn whose second request carries truncated arguments. *)
Definition truncated_arguments : AssistantMessage :=
  mkAssistant None
    (Some [mkToolCall "a" "get_top_movies" "{}";
           mkToolCall "b" "add_to_favorites" "{"]).

Definition plain (text : string) : AssistantMessage :=
  mkAssistant (Some text) None.

(** A movie table with two rows. *)
Definition by_id (i : Z) : option Server.Movie :=
  if i =? 1 then Some (Server.mkMovie 1 "Glass Onion")
  else if i =? 2 then Some (Server.mkMovie 2 "Extraction 2")
  else None.

Definition by_title (t : string) : option Server.Movie :=
  if String.eqb (Py.lower t) "glass onion" then Some (Server.mkMovie 1 "Glass Onion")
  else if String.eqb (Py.lower t) "extraction 2" then Some (Server.mkMovie 2 "Extraction 2")
  else None.

(** The enumerated set of the specification's scenario. *)
Definition breeds : option PuppyElicitation.Schema :=
  Some (PuppyElicitation.mkSchema
          (Some [("labrador", PuppyElicitation.mkProperty (Some "labrador"));
                 ("poodle", PuppyElicitation.mkProperty (Some "poodle"))])).

Definition typing (lines : list string) : Console.State :=
  Console.mkState lines [].

End Fixture.

(** ** The specification's two-call scenario, run on the Netflix client *)

Definition scenario_start : list Message :=
  [Netflix.system_message; UserMsg "Show the top movies and add Glass Onion"].

Definition scenario_chat_loop (script : list AssistantMessage) (fuel : nat)
    (w : nat) (messages : list Message) : Loop.Run :=
  Loop.chat_loop (Fixture.create script) Fixture.json_loads Fixture.call_tool
    Netflix.result_text fuel w messages.

Definition error_for_b : Message :=
  ToolMsg "b" "add_to_favorites"
    "Error: Movie not found. Use search_movies to find it first.".



(** [d.get(k)] on a dict written as its items in order. *)
Fixpoint dict_get {V : Type} (d : list (string * V)) (k : string) : option V :=
  match d with
  | [] => None
  | (k', v) :: rest => if String.eqb k' k then Some v else dict_get rest k
  end.

(** ** Further vocabulary and collaborators *)
Module More.

(** A message the loop itself appends after the user's question: an
    assistant message or a tool message. *)
Definition loop_message (m : Message) : bool :=
  match m with
  | AssistantMsg _ | ToolMsg _ _ _ => true
  | _ => false
  end.

(** An LLM that asks for the same two tools at every completion. *)
Definition insistent (w : nat) (_ : list Message)
    : (Py.Exc + AssistantMessage) * nat :=
  (inr Fixture.two_calls, S w).

End More.

(** ** The schema bridge: [get_tools_for_openai] *)
Module Bridge.
Section Bridge.

(** The JSON schema of a tool's input, passed through untouched. *)
Context {Schema : Type}.

(** A tool as [client.list_tools()] describes it. *)
Record Tool : Type := mkTool {
  name : string;
  description : option string;
  inputSchema : Schema
}.

Record FunctionSpec : Type := mkFunction {
  fn_name : string;
  fn_description : option string;
  fn_parameters : Schema
}.

(** [{"type": ..., "function": {...}}] *)
Record OpenAITool : Type := mkOpenAITool {
  type : string;
  function : FunctionSpec
}.

(** [for tool in mcp_tools: openai_tools.append({...})], both clients. *)
Definition get_tools_for_openai (mcp_tools : list Tool) : list OpenAITool :=
  fold_left
    (fun openai_tools tool =>
       openai_tools ++
         [mkOpenAITool "function"
            (mkFunction (name tool) (description tool) (inputSchema tool))])
    mcp_tools [].

(** The list comprehension of [mcp-client/client.py]. *)
Definition tools_of_comprehension (available_mcp_tools : list Tool) : list OpenAITool :=
  map
    (fun mcp_tool =>
       mkOpenAITool "function"
         (mkFunction (name mcp_tool) (description mcp_tool) (inputSchema mcp_tool)))
    available_mcp_tools.

End Bridge.
End Bridge.

(** ** The server-side context: state, progress reports, log texts, elicitation *)
Module Context.

(** One [ctx.report_progress(progress, total, message)]. *)
Record Report : Type := mkReport {
  progress : Z;
  total : Z;
  message : string
}.

(** What [ctx.elicit] gives back: [action] and, when accepted, [data]. *)
Inductive Elicited (A : Type) : Type :=
| Accepted (data : A)
| Declined
| Cancelled.
Arguments Accepted {A} data.
Arguments Declined {A}.
Arguments Cancelled {A}.

(** What the tool leaves on its context: the session state, the progress
    reports and the [ctx.info] texts sent, oldest first. *)
Record Ctx : Type := mkCtx {
  state : gmap string string;
  reports : list Report;
  infos : list string
}.

Definition set_state (key value : string) (c : Ctx) : Ctx :=
  mkCtx (<[key := value]> (state c)) (reports c) (infos c).

Definition report_progress (p t : Z) (m : string) (c : Ctx) : Ctx :=
  mkCtx (state c) (reports c ++ [mkReport p t m]) (infos c).

Definition info (m : string) (c : Ctx) : Ctx :=
  mkCtx (state c) (reports c) (infos c ++ [m]).

End Context.

(** ** [puppy_guide/server/main.py] *)
Module PuppyServer.
Import Context.

Definition BREED_MULTIPLIERS : list (string * Z) :=
  [("labrador", 7); ("chihuahua", 5); ("german shepherd", 8); ("bulldog", 6)].

Definition get_breed_multiplier (breed : string) : option Z :=
  dict_get BREED_MULTIPLIERS (Py.lower breed).

Section Tool.

Context {World : Type}.
(** [difflib.get_close_matches(word, possibilities, n=1, cutoff=0.6)] *)
Variable get_close_matches : string -> list string -> list string.
(** [await ctx.elicit(message, response_type=options)] *)
Variable elicit : World -> string -> list string -> Elicited string * World.
(** [await ctx.sample(messages=..., system_prompt=...)]: the [text] of the
    result, or the exception raised. *)
Variable sample : World -> string -> string -> (Py.Exc + option string) * World.
(** The printed form of a list of [str]. *)
Variable repr : list string -> string.

Definition system_prompt : string :=
  "You are a veterinary expert. Given a dog's breed and age, "
  +:+ "give one short, practical health or lifestyle tip for that life stage. "
  +:+ "One sentence only.".

(** The part of the tool that settles the breed and its multiplier. *)
Definition resolve_multiplier (breed : string) (c : Ctx) (w : World)
    : (Py.Exc + string * Z) * Ctx * World :=
  match get_breed_multiplier breed with
  | Some multiplier => (inr (breed, multiplier), c, w)
  | None =>
      let suggestions := get_close_matches (Py.lower breed) (map fst BREED_MULTIPLIERS) in
      match suggestions with
      | _ :: _ =>
          let c := info ("Breed '" +:+ breed +:+ "' not found, but found similar: "
                         +:+ repr suggestions) c in
          let '(result, w) :=
            elicit w ("Breed '" +:+ breed +:+ "' not found. Did you mean one of these: "
                      +:+ Py.join ", " suggestions +:+ "?") suggestions in
          match result with
          | Accepted data =>
              match dict_get BREED_MULTIPLIERS data with
              | Some multiplier => (inr (data, multiplier), c, w)
              | None => (inl (Py.mkExc "KeyError" ("'" +:+ data +:+ "'")), c, w)
              end
          | Declined =>
              (inl (Server.ToolError
                      ("Breed '" +:+ breed +:+ "' not found. User declined to select a suggestion.")),
               info ("User declined to select a similar breed for '" +:+ breed +:+ "'") c, w)
          | Cancelled =>
              (inl (Server.ToolError
                      ("Breed '" +:+ breed +:+ "' not found. Operation cancelled by user.")),
               info ("User cancelled the operation after breed '" +:+ breed +:+ "' was not found") c,
               w)
          end
      | [] =>
          (inl (Server.ToolError
                  ("Breed '" +:+ breed +:+ "' not found and no similar breeds found.")),
           c, w)
      end
  end.

(** [dog_to_human_age(age, breed, ctx, name)] *)
Definition dog_to_human_age (age : Z) (breed : string) (name : option string)
    (c : Ctx) (w : World) : (Py.Exc + string) * Ctx * World :=
  let total_steps := 4 in
  let '(name, c) :=
    if Py.truthy_opt_str name then (name, set_state "dog_name" (default "" name) c)
    else (state c !! "dog_name", c) in
  let c := report_progress 0 total_steps
             ("Looking up breed multiplier for '" +:+ breed +:+ "'") c in
  let c := info ("Looking up breed multiplier for '" +:+ breed +:+ "'") c in
  match resolve_multiplier breed c w with
  | (inl e, c, w) => (inl e, c, w)
  | (inr (breed, multiplier), c, w) =>
      let c := report_progress 1 total_steps "Multiplier resolved" c in
      let human_age := age * multiplier in
      let c := report_progress 2 total_steps "Generating life-stage tip" c in
      let '(tip, w) :=
        match sample w ("A " +:+ breed +:+ " dog is " +:+ Py.str_int age +:+ " years old")
                system_prompt with
        | (inr text, w) => (if Py.truthy_opt_str text then default "" text else "", w)
        | (inl _, w) => ("", w)
        end in
      let c := report_progress total_steps total_steps "Done" c in
      if Py.truthy_opt_str name then
        (inr (default "" name +:+ " is a " +:+ Py.str_int age +:+ "-year-old " +:+ breed
              +:+ " and is approximately " +:+ Py.str_int human_age
              +:+ " years old in human years. " +:+ "Health tip: " +:+ tip), c, w)
      else
        (inr ("A " +:+ Py.str_int age +:+ "-year-old " +:+ breed
              +:+ " is approximately " +:+ Py.str_int human_age
              +:+ " years old in human years. " +:+ "Health tip: " +:+ tip), c, w)
  end.

End Tool.
End PuppyServer.

(** What a progress report shows: how far, out of how much. *)
Definition shown (r : Context.Report) : Z * Z :=
  (Context.progress r, Context.total r).

(** Collaborators of the puppy-guide server for the examples: the world
    counts the requests made to the client. *)
Module PuppyFixture.

Definition get_close_matches (word : string) (_ : list string) : list string :=
  if String.eqb word "labrado" then ["labrador"] else [].

Definition elicit_accept (w : nat) (_ : string) (options : list string)
    : Context.Elicited string * nat :=
  match options with
  | o :: _ => (Context.Accepted o, S w)
  | [] => (Context.Declined, S w)
  end.

Definition elicit_decline (w : nat) (_ : string) (_ : list string)
    : Context.Elicited string * nat :=
  (Context.Declined, S w).

Definition sample (w : nat) (_ _ : string) : (Py.Exc + option string) * nat :=
  (inr (Some "Keep walks short and regular."), S w).

Definition sample_fails (w : nat) (_ _ : string) : (Py.Exc + option string) * nat :=
  (inl (Py.mkExc "McpError" "Client does not support sampling"), S w).

Definition repr (items : list string) : string :=
  "[" +:+ Py.join ", " (map (fun s => "'" +:+ s +:+ "'") items) +:+ "]".

Definition fresh : Context.Ctx := Context.mkCtx ∅ [] [].

End PuppyFixture.

(** ** [fastmcp_netflix/server/components/tools.py]: searching and ranking *)
Module NetflixTools.
Import Context.

(** A [datetime.date]. *)
Record Date : Type := mkDate { year : Z; month : Z; day : Z }.

(** ["%0<width>d" % n] for a non-negative [n]. *)
Definition zero_padded (width : nat) (n : Z) : string :=
  let digits := Py.str_int n in
  String.concat "" (repeat "0" (width - String.length digits)) +:+ digits.

(** [d.isoformat()] *)
Definition isoformat (d : Date) : string :=
  zero_padded 4 (year d) +:+ "-" +:+ zero_padded 2 (month d) +:+ "-"
  +:+ zero_padded 2 (day d).

(** A row of the [movie] table, as far as [search_movies] reads it. *)
Record Row : Type := mkRow {
  id : Z;
  title : string;
  release_date : option Date;
  runtime : option Z
}.

(** The dict [search_movies] returns. *)
Record Found : Type := mkFound {
  found_id : Z;
  found_title : string;
  found_release_date : option string;
  found_runtime : option Z
}.

Definition found_of (movie : Row) : Found :=
  mkFound (id movie) (title movie) (isoformat <$> release_date movie) (runtime movie).

(** [movie.release_date.year if movie.release_date else "Unknown year"],
    as the f-strings print it. *)
Definition year_text (movie : Row) : string :=
  match release_date movie with
  | Some d => Py.str_int (year d)
  | None => "Unknown year"
  end.

Definition cancelled : Py.Exc :=
  Server.ToolError "User cancelled the search. Do not retry.".

Section Search.

Context {World : Type}.
(** [db.query(Movie).filter(Movie.title.ilike(pattern)).limit(5).all()] *)
Variable query_ilike : string -> list Row.
(** [await ctx.elicit(message=..., response_type=bool)]; [inl] when the
    call raises, as it does on an answer that is not of the response type. *)
Variable elicit_bool : World -> string -> (Py.Exc + Elicited bool) * World.
(** [await ctx.elicit(message=..., response_type=int)] *)
Variable elicit_int : World -> string -> (Py.Exc + Elicited Z) * World.

(** The rows the tool works on: the exact matches, or the partial matches
    when there is no exact one. *)
Definition matches (title : string) : list Row :=
  match query_ilike title with
  | [] => query_ilike ("%" +:+ title +:+ "%")
  | results => results
  end.

(** [search_movies(title)] *)
Definition search_movies (title : string) (w : World) : (Py.Exc + Found) * World :=
  let results := matches title in
  match results with
  | [] => (inl (Server.ToolError ("No movies found matching '" +:+ title +:+ "'.")), w)
  | [movie] =>
      let '(confirm, w) :=
        elicit_bool w
          ("I found '" +:+ NetflixTools.title movie +:+ "' (" +:+ year_text movie
           +:+ "). Is this the movie you were looking for?" +:+ Py.nl
           +:+ "Type 'yes' to confirm, 'no' to try a different search, or press Enter to cancel.") in
      match confirm with
      | inl e => (inl e, w)
      | inr (Accepted true) => (inr (found_of movie), w)
      | inr _ => (inl cancelled, w)
      end
  | _ =>
      let options :=
        map (fun im => Py.str_int (fst im + 1) +:+ ". " +:+ NetflixTools.title (snd im)
                       +:+ " (" +:+ year_text (snd im) +:+ ") [ID: "
                       +:+ Py.str_int (id (snd im)) +:+ "]")
            (enumerate results 0) in
      let options_text := Py.join Py.nl options in
      let '(elicit_result, w) :=
        elicit_int w
          ("While searching for a movie matching '" +:+ title +:+ "', "
           +:+ "I found multiple matches. "
           +:+ "Please select the correct one by entering the number:" +:+ Py.nl
           +:+ options_text +:+ Py.nl
           +:+ "Press Enter without typing a number to cancel.") in
      match elicit_result with
      | inl e => (inl e, w)
      | inr (Accepted choice) =>
          if (1 <=? choice) && (choice <=? Z.of_nat (length results)) then
            match index results (choice - 1) with
            | inr movie => (inr (found_of movie), w)
            | inl e => (inl e, w)
            end
          else
            (inl (Server.ToolError
                    ("Invalid choice. Enter 1-" +:+ Py.str_int (Z.of_nat (length results)) +:+ ".")),
             w)
      | inr _ => (inl cancelled, w)
      end
  end.

End Search.

(** A row of the ranking query: a movie and the sum of the metric. *)
Record Ranked : Type := mkRanked {
  r_id : Z;
  r_title : string;
  r_release_date : option Date;
  r_total : option Z
}.

(** An entry of the list [get_top_movies] returns; the metric's name is the
    key of the last item. *)
Record Entry : Type := mkEntry {
  e_id : Z;
  e_title : string;
  e_release_date : option string;
  e_metric : string;
  e_value : option Z
}.

Section Ranking.

(** The ranking query on [hours_viewed] (true) or on [views], limited to
    [n] rows. *)
Variable query_top : bool -> Z -> list Ranked.

(** [get_top_movies(metric, n)] *)
Definition get_top_movies (metric : string) (n : Z) (c : Ctx) : list Entry * Ctx :=
  let c := report_progress 0 n
             ("Fetching top " +:+ Py.str_int n +:+ " by " +:+ metric +:+ "...") c in
  let all_results := query_top (String.eqb metric "hours_viewed") n in
  fold_left
    (fun acc ir =>
       let '(results, c) := acc in
       let '(i, r) := ir in
       let c := report_progress i n
                  ("Processing movie " +:+ Py.str_int i +:+ "/" +:+ Py.str_int n) c in
       (results ++ [mkEntry (r_id r) (r_title r) (isoformat <$> r_release_date r)
                      metric (r_total r)],
        c))
    (enumerate all_results 1) ([], c).

End Ranking.
End NetflixTools.

(** Collaborators of the Netflix tools for the examples. *)
Module NetflixFixture.
Import Context.

Definition glass_onion : NetflixTools.Row :=
  NetflixTools.mkRow 1 "Glass Onion" (Some (NetflixTools.mkDate 2022 12 23)) (Some 139).

Definition extraction : NetflixTools.Row :=
  NetflixTools.mkRow 7 "Extraction" (Some (NetflixTools.mkDate 2020 4 24)) (Some 116).

Definition extraction_2 : NetflixTools.Row :=
  NetflixTools.mkRow 2 "Extraction 2" None None.

Definition query_ilike (pattern : string) : list NetflixTools.Row :=
  if String.eqb (Py.lower pattern) "glass onion" then [glass_onion]
  else if String.eqb (Py.lower pattern) "%extraction%" then [extraction; extraction_2]
  else [].

Definition says (b : bool) (w : nat) (_ : string) : (Py.Exc + Elicited bool) * nat :=
  (inr (Accepted b), S w).

Definition picks (k : Z) (w : nat) (_ : string) : (Py.Exc + Elicited Z) * nat :=
  (inr (Accepted k), S w).

(** The answer was not of the response type: the call raises. *)
Definition not_a_number : Py.Exc :=
  Py.mkExc "ValidationError" "Input should be a valid integer".

Definition garbles {A} (w : nat) (_ : string) : (Py.Exc + Elicited A) * nat :=
  (inl not_a_number, S w).

Definition query_top (by_hours : bool) (n : Z) : list NetflixTools.Ranked :=
  firstn (Z.to_nat n)
    [NetflixTools.mkRanked 1 "Glass Onion" (Some (NetflixTools.mkDate 2022 12 23))
       (Some (if by_hours then 82190000 else 35000000));
     NetflixTools.mkRanked 2 "Extraction 2" None None].

End NetflixFixture.

(** ** Log handlers of the two clients *)
Module Logs.

(** [message.data]: a dict (its values printed), or a value of another
    type, given by the name of its type and its printed form. *)
Inductive LogData : Type :=
| DictData (entries : gmap string string)
| OtherData (type_name : string) (printed : string).

Record LogMessage : Type := mkLogMessage {
  level : string;
  data : LogData
}.

(** One [logger.log(level, text)]. *)
Record LogCall : Type := mkLogCall {
  levelno : Z;
  text : string
}.

Definition DEBUG : Z := 10.
Definition INFO : Z := 20.
Definition WARNING : Z := 30.
Definition ERROR : Z := 40.

Definition level_map : list (string * Z) :=
  [("debug", DEBUG); ("info", INFO); ("warning", WARNING); ("error", ERROR)].

(** [level_map.get(message.level.lower(), logging.INFO)] *)
Definition level_of (message : LogMessage) : Z :=
  default INFO (dict_get level_map (Py.lower (level message))).

(** [fastmcp_netflix/client/handlers/logging.py] *)
Definition netflix_log_handler (message : LogMessage) : Py.Exc + LogCall :=
  match data message with
  | DictData entries =>
      let msg := default "" (entries !! "msg") in
      inr (mkLogCall (level_of message) ("[SERVER] " +:+ msg))
  | OtherData type_name _ =>
      inl (Py.mkExc "AttributeError"
             ("'" +:+ type_name +:+ "' object has no attribute 'get'"))
  end.

(** [puppy_guide/client/handlers/logging.py] *)
Definition puppy_log_handler (message : LogMessage) : Py.Exc + LogCall :=
  let msg :=
    match data message with
    | DictData entries => default "" (entries !! "msg")
    | OtherData _ printed => printed
    end in
  inr (mkLogCall (level_of message) ("[Server Log] " +:+ msg)).

End Logs.

(** ** [langchain/langchain_agent_with_tools/agent.py]: approvals *)
Module Approvals.

(** An entry of [hitl_request["action_requests"]], as far as it is read. *)
Record ActionRequest : Type := mkActionRequest { name : string }.

(** [{"type": "approve"}] and the other decision types of the middleware;
    only the first is ever built here. *)
Inductive Decision : Type := approve | edit | reject.

(** [_approve_tool_calls(hitl_request)] *)
Definition _approve_tool_calls (action_requests : list ActionRequest)
    : IO (list Decision) :=
  _ ← for_each action_requests
        (fun tool_call =>
           _ ← print ("Tool requested: " +:+ name tool_call);
           _ ← input "Press Enter to approve... ";
           mret tt);
  mret (repeat approve (length action_requests)).

End Approvals.

(** ** [mcp-client/client.py] *)
Module McpClient.

(** The elements of its [messages] list: tool messages carry no name. *)
Inductive Msg : Type :=
| User (content : string)
| Assistant (m : AssistantMessage)
| Tool (tool_call_id content : string).

Section Main.

Context {World Json : Type}.
Variable create : World -> list Msg -> (Py.Exc + AssistantMessage) * World.
Variable json_loads : string -> Py.Exc + Json.
(** [await session.call_tool(tool_name, tool_args)] *)
Variable call_tool : World -> string -> Json -> (Py.Exc + CallToolResult) * World.
(** [str(result.content)], the printed form of the content list. *)
Variable str : list ContentBlock -> string.

(** [for tool_call in response.choices[0].message.tool_calls: ...]; nothing
    is caught. *)
Fixpoint for_tool_calls (w : World) (tool_calls : list ToolCall)
    : option Py.Exc * list Msg * World :=
  match tool_calls with
  | [] => (None, [], w)
  | tool_call :: rest =>
      match json_loads (tc_arguments tool_call) with
      | inl e => (Some e, [], w)
      | inr tool_args =>
          match call_tool w (tc_name tool_call) tool_args with
          | (inl e, w1) => (Some e, [], w1)
          | (inr result, w1) =>
              let m := Tool (tc_id tool_call) (str (content result)) in
              let '(flow, ms, w2) := for_tool_calls w1 rest in
              (flow, m :: ms, w2)
          end
      end
  end.

(** [while response.choices[0].message.tool_calls: ...], entered with the
    response to the last request; it returns the [content] printed. *)
Fixpoint tool_loop (fuel : nat) (w : World) (messages : list Msg)
    (response : AssistantMessage) : Outcome (option string) * list Msg * World :=
  match fuel with
  | O => (Diverges, messages, w)
  | S fuel' =>
      if Py.truthy_opt_list (am_tool_calls response) then
        let messages := messages ++ [Assistant response] in
        match for_tool_calls w (default [] (am_tool_calls response)) with
        | (Some e, ms, w1) => (Raises e, messages ++ ms, w1)
        | (None, ms, w1) =>
            let messages := messages ++ ms in
            match create w1 messages with
            | (inl e, w2) => (Raises e, messages, w2)
            | (inr response, w2) => tool_loop fuel' w2 messages response
            end
        end
      else (Returns (am_content response), messages, w)
  end.

(** The body of [main] once the session is open, for the question
    [query]. *)
Definition main (fuel : nat) (query : string) (w : World)
    : Outcome (option string) * list Msg * World :=
  let messages := [User query] in
  match create w messages with
  | (inl e, w1) => (Raises e, messages, w1)
  | (inr response, w1) => tool_loop fuel w1 messages response
  end.

End Main.
End McpClient.

(** Collaborators of [mcp-client] for the examples: a scripted LLM and the
    calculator server, whose printed content is given as it is. *)
Module McpFixture.

Definition create (script : list AssistantMessage) (w : nat)
    (_ : list McpClient.Msg) : (Py.Exc + AssistantMessage) * nat :=
  match nth_error script w with
  | Some am => (inr am, S w)
  | None => (inl (Py.mkExc "APIConnectionError" "Connection error."), S w)
  end.

Definition call_tool (w : nat) (tool_name : string) (_ : unit)
    : (Py.Exc + CallToolResult) * nat :=
  if String.eqb tool_name "sum" then (inr (mkResult [TextContent "8"]), w)
  else (inl (Py.mkExc "McpError" "Connection closed"), w).

Definition str (blocks : list ContentBlock) : string :=
  "[" +:+ Py.join ", " (map Fixture.str_block blocks) +:+ "]".

Definition asks_sum : AssistantMessage :=
  mkAssistant None (Some [mkToolCall "call_1" "sum" "{}"]).

Definition asks_two : AssistantMessage :=
  mkAssistant None
    (Some [mkToolCall "call_1" "sum" "{}"; mkToolCall "call_2" "product" "{}"]).

End McpFixture.

(** ** [mcp-server/calculator_server.py] *)
Module Calculator.

(** An argument as the JSON of a tool call carries it. *)
Inductive Arg : Type :=
| JNull
| JBool (b : bool)
| JInt (n : Z)
| JFloat (x : float)
| JString (s : string)
| JArray
| JObject.

(** [int(a)] *)
Definition int (a : Arg) : Py.Exc + Z :=
  match a with
  | JNull =>
      inl (Py.mkExc "TypeError"
             "int() argument must be a string, a bytes-like object or a real number, not 'NoneType'")
  | JBool b => inr (if b then 1 else 0)
  | JInt n => inr n
  | JFloat x => Py.int_of_float x
  | JString s => Py.int_of_str s
  | JArray =>
      inl (Py.mkExc "TypeError"
             "int() argument must be a string, a bytes-like object or a real number, not 'list'")
  | JObject =>
      inl (Py.mkExc "TypeError"
             "int() argument must be a string, a bytes-like object or a real number, not 'dict'")
  end.

(** [sum(a, b)]: [int(a) + int(b)], the left conversion first. *)
Definition sum (a b : Arg) : Py.Exc + Z :=
  match int a with
  | inl e => inl e
  | inr x =>
      match int b with
      | inl e => inl e
      | inr y => inr (x + y)
      end
  end.

(** The argument is the integer [n], as a JSON number or spelled out in a
    string that [int] converts: one of at most [INT_MAX_STR_DIGITS]
    characters. *)
Definition spells (a : Arg) (n : Z) : Prop :=
  a = JInt n \/
  (a = JString (Py.str_int n) /\
   (String.length (Py.str_int n) <=? Py.INT_MAX_STR_DIGITS)%nat = true).

(** The argument is no string, or a string of ASCII characters, at most
    [INT_MAX_STR_DIGITS] of them: the strings on which [Py.int_of_str] is
    [int]. *)
Definition plain (a : Arg) : bool :=
  match a with
  | JString s => Py.is_ascii s && (String.length s <=? Py.INT_MAX_STR_DIGITS)%nat
  | _ => true
  end.

End Calculator.

(** * Properties *)

(** ** Python primitives *)


Lemma keep_first_cons (m : Message) (rest : list Message) :
  keep_first (m :: rest) = inr [m].
Proof. reflexivity. Qed.

(** ** The conversation loop *)
Section LoopFacts.

Context {World Json : Type}.
Variable create : World -> list Message -> (Py.Exc + AssistantMessage) * World.
Variable json_loads : string -> Py.Exc + Json.
Variable call_tool : World -> string -> Json -> (Py.Exc + CallToolResult) * World.
Variable result_text : CallToolResult -> string.

#[local] Abbreviation for_tool_calls := (Loop.for_tool_calls json_loads call_tool result_text).
#[local] Abbreviation chat_loop := (Loop.chat_loop create json_loads call_tool result_text).
#[local] Abbreviation chat := (Loop.chat create json_loads call_tool result_text).
#[local] Abbreviation decodes := (Loop.decodes json_loads).
#[local] Abbreviation tool_message_of := Spec.tool_message_of.

Lemma tool_message_result c m : tool_message_of c m -> Spec.result_of c m = true.
Proof. intros [text ->]. simpl. apply String.eqb_refl. Qed.

(** Whatever happens, the loop has appended one message per request of
    some prefix of the requests; all of them when it fell through. *)
Lemma for_tool_calls_prefix (calls : list ToolCall) :
  forall w flow ms w',
    for_tool_calls w calls = (flow, ms, w') ->
    exists done todo,
      calls = done ++ todo /\ Forall2 tool_message_of done ms /\
      match flow with
      | None => todo = []
      | Some e => exists c rest, todo = c :: rest /\ json_loads (tc_arguments c) = inl e
      end.
Proof.
  induction calls as [|c calls IH]; intros w flow ms w' H; simpl in H.
  - inversion H; subst. exists [], []. repeat split; constructor.
  - destruct (json_loads (tc_arguments c)) as [e|args] eqn:Hd.
    + inversion H; subst. exists [], (c :: calls).
      repeat split; [constructor|]. eauto.
    + destruct (call_tool w (tc_name c) args) as [r w1].
      destruct (for_tool_calls w1 calls) as [[flow1 ms1] w2] eqn:Hrest.
      inversion H; subst.
      destruct (IH _ _ _ _ Hrest) as (done & todo & -> & HF & Hflow).
      exists (c :: done), todo. repeat split; [|exact Hflow].
      constructor; [eexists; reflexivity | exact HF].
Qed.

Lemma for_tool_calls_decoded (calls : list ToolCall) :
  forall w, forallb decodes calls = true ->
    exists ms w', for_tool_calls w calls = (None, ms, w') /\
                  Forall2 tool_message_of calls ms.
Proof.
  intros w Hdec.
  destruct (for_tool_calls w calls) as [[flow ms] w'] eqn:H.
  destruct (for_tool_calls_prefix _ _ _ _ _ H) as (done & todo & -> & HF & Hflow).
  destruct flow as [e|].
  - destruct Hflow as (c & rest & -> & Hc).
    rewrite forallb_app in Hdec. apply andb_prop in Hdec as [_ Hdec].
    simpl in Hdec. unfold Loop.decodes in Hdec. rewrite Hc in Hdec. discriminate.
  - subst todo. rewrite app_nil_r in *. eauto.
Qed.

Lemma for_tool_calls_app (pre post : list ToolCall) :
  forall w ms1 w1,
    for_tool_calls w pre = (None, ms1, w1) ->
    for_tool_calls w (pre ++ post) =
      (let '(flow, ms2, w2) := for_tool_calls w1 post in (flow, ms1 ++ ms2, w2)).
Proof.
  induction pre as [|c pre IH]; intros w ms1 w1 H; simpl in *.
  - inversion H; subst. destruct (for_tool_calls w1 post) as [[? ?] ?]. reflexivity.
  - destruct (json_loads (tc_arguments c)) as [e|args]; [discriminate|].
    destruct (call_tool w (tc_name c) args) as [r wc].
    destruct (for_tool_calls wc pre) as [[flow ms] w2] eqn:Hpre.
    inversion H; subst.
    rewrite (IH _ _ _ Hpre).
    destruct (for_tool_calls w1 post) as [[? ?] ?]. reflexivity.
Qed.

(** *** Answered histories *)

Lemma answered_by_app calls rest more :
  Spec.answered_by calls rest = true -> Spec.answered_by calls (rest ++ more) = true.
Proof.
  revert rest. induction calls as [|c calls IH]; intros [|m rest] H; simpl in *;
    try reflexivity; try discriminate.
  apply andb_prop in H as [-> H]. simpl. auto.
Qed.

Lemma answered_app h t :
  Spec.answered h = true -> Spec.answered t = true -> Spec.answered (h ++ t) = true.
Proof.
  intros Hh Ht. induction h as [|m h IH]; simpl in *; [exact Ht|].
  destruct m; auto.
  apply andb_prop in Hh as [Hby Hh].
  rewrite (answered_by_app _ _ _ Hby). simpl. auto.
Qed.

Lemma answered_by_results calls ms :
  Forall2 tool_message_of calls ms -> Spec.answered_by calls ms = true.
Proof.
  induction 1 as [|c m calls ms Hm _ IH]; simpl; [reflexivity|].
  rewrite (tool_message_result _ _ Hm). exact IH.
Qed.

Lemma answered_results calls ms :
  Forall2 tool_message_of calls ms -> Spec.answered ms = true.
Proof.
  induction 1 as [|c m calls ms [text ->] _ IH]; simpl; auto.
Qed.

Lemma answered_round h am ms :
  Spec.answered h = true ->
  Forall2 tool_message_of (default [] (am_tool_calls am)) ms ->
  Spec.answered ((h ++ [AssistantMsg am]) ++ ms) = true.
Proof.
  intros Hh HF. rewrite <- app_assoc. apply answered_app; [exact Hh|].
  simpl. rewrite (answered_by_results _ _ HF), (answered_results _ _ HF). reflexivity.
Qed.

Lemma answered_final h am :
  Spec.answered h = true ->
  Py.truthy_opt_list (am_tool_calls am) = false ->
  Spec.answered (h ++ [AssistantMsg am]) = true.
Proof.
  intros Hh Hn. apply answered_app; [exact Hh|]. simpl.
  destruct (am_tool_calls am) as [[|? ?]|]; simpl in *; try discriminate; reflexivity.
Qed.

(** Every completion of the loop is requested on an answered history, and
    a turn that returns leaves one. *)
Lemma chat_loop_answered (fuel : nat) :
  forall w h,
    Spec.answered h = true ->
    Forall (fun req => Spec.answered req = true) (Loop.requests (chat_loop fuel w h)) /\
    (forall a, Loop.outcome (chat_loop fuel w h) = Returns a ->
               Spec.answered (Loop.messages_after (chat_loop fuel w h)) = true).
Proof.
  induction fuel as [|fuel IH]; intros w h Hh; simpl.
  - split; [constructor | discriminate].
  - destruct (create w h) as [[e|am] w1]; simpl.
    + split; [repeat constructor; exact Hh | discriminate].
    + destruct (Py.truthy_opt_list (am_tool_calls am)) eqn:Htc; simpl.
      * destruct (for_tool_calls w1 (default [] (am_tool_calls am)))
          as [[[e|] ms] w2] eqn:Hfor; simpl.
        { split; [repeat constructor; exact Hh | discriminate]. }
        destruct (for_tool_calls_prefix _ _ _ _ _ Hfor) as (done & todo & Hc & HF & ->).
        rewrite app_nil_r in Hc. subst done.
        destruct (IH w2 _ (answered_round h am ms Hh HF)) as [Hreq Hret].
        split; [constructor; assumption | exact Hret].
      * split; [repeat constructor; exact Hh|].
        intros _ _. apply answered_final; [exact Hh | exact Htc].
Qed.

(** The loop only appends to [messages]. *)
Lemma chat_loop_extends (fuel : nat) :
  forall w h, exists more, Loop.messages_after (chat_loop fuel w h) = h ++ more.
Proof.
  induction fuel as [|fuel IH]; intros w h; simpl.
  - exists []. rewrite app_nil_r. reflexivity.
  - destruct (create w h) as [[e|am] w1]; simpl.
    + exists []. rewrite app_nil_r. reflexivity.
    + destruct (Py.truthy_opt_list (am_tool_calls am)); simpl.
      * destruct (for_tool_calls w1 (default [] (am_tool_calls am)))
          as [[[e|] ms] w2]; simpl.
        { exists ([AssistantMsg am] ++ ms). rewrite app_assoc. reflexivity. }
        destruct (IH w2 ((h ++ [AssistantMsg am]) ++ ms)) as [more ->].
        exists ([AssistantMsg am] ++ ms ++ more). rewrite !app_assoc. reflexivity.
      * exists [AssistantMsg am]. reflexivity.
Qed.

Lemma chat_extends fuel q w h :
  exists more, Loop.messages_after (chat fuel q w h) = h ++ UserMsg q :: more.
Proof.
  unfold Loop.chat.
  destruct (chat_loop_extends fuel w (h ++ [UserMsg q])) as [more ->].
  exists more. rewrite <- app_assoc. reflexivity.
Qed.

End LoopFacts.

(** ** Claims about the conversation loop *)
Section LoopClaims.

Context {World Json : Type}.
Variable create : World -> list Message -> (Py.Exc + AssistantMessage) * World.
Variable json_loads : string -> Py.Exc + Json.
Variable call_tool : World -> string -> Json -> (Py.Exc + CallToolResult) * World.
Variable result_text : CallToolResult -> string.

#[local] Abbreviation for_tool_calls := (Loop.for_tool_calls json_loads call_tool result_text).
#[local] Abbreviation chat_loop := (Loop.chat_loop create json_loads call_tool result_text).
#[local] Abbreviation decodes := (Loop.decodes json_loads).

(** One round of the loop whose requests all decode: the loop is re-entered
    on the history extended by the assistant message and the results. *)
Lemma chat_loop_round fuel w messages am w1 ms w2 :
  create w messages = (inr am, w1) ->
  Py.truthy_opt_list (am_tool_calls am) = true ->
  for_tool_calls w1 (default [] (am_tool_calls am)) = (None, ms, w2) ->
  chat_loop (S fuel) w messages =
    Loop.requested messages (chat_loop fuel w2 ((messages ++ [AssistantMsg am]) ++ ms)).
Proof.
  intros Hc Ht Hf. simpl. rewrite Hc, Ht. simpl. rewrite Hf. reflexivity.
Qed.

(** C1 (amended). In every round of [chat] in which the arguments of all N >= 1
    tool-call requests of the assistant message decode, the loop appends
    exactly N tool messages, the i-th keyed by the id of the i-th request,
    and only then requests the next completion, on the history so extended;
    and in every run, whether or not arguments decode, each completion is
    requested on a history without an unanswered tool call, and a turn that
    returns leaves such a history. *)
Theorem chat_answers_decoded_tool_calls :
  forall (fuel : nat) (w : World) (messages : list Message),
    (forall am w1 c rest,
        create w messages = (inr am, w1) ->
        am_tool_calls am = Some (c :: rest) ->
        forallb decodes (c :: rest) = true ->
        exists ms w2,
          for_tool_calls w1 (c :: rest) = (None, ms, w2) /\
          length ms = length (c :: rest) /\
          Forall2 Spec.tool_message_of (c :: rest) ms /\
          chat_loop (S fuel) w messages =
            Loop.requested messages
              (chat_loop fuel w2 ((messages ++ [AssistantMsg am]) ++ ms)))
    /\ (Spec.answered messages = true ->
        Forall (fun req => Spec.answered req = true)
               (Loop.requests (chat_loop fuel w messages)) /\
        forall a, Loop.outcome (chat_loop fuel w messages) = Returns a ->
                  Spec.answered (Loop.messages_after (chat_loop fuel w messages)) = true).
Proof.
  intros fuel w messages. split.
  - intros am w1 c rest Hc Htc Hdec.
    destruct (for_tool_calls_decoded json_loads call_tool result_text (c :: rest) w1 Hdec)
      as (ms & w2 & Hfor & HF).
    exists ms, w2. repeat split; try assumption.
    + symmetry. exact (Forall2_length _ _ _ HF).
    + apply chat_loop_round with (w1 := w1); rewrite ?Htc; auto.
  - intros Hh. apply chat_loop_answered. exact Hh.
Qed.

(** C2. When the invocation of a request raises, the loop appends for it the
    tool message whose content is "Error: " followed by [str(e)], goes on
    with the remaining requests and falls through to the next completion;
    if that completion carries no tool call, [chat] returns its content. *)
Theorem failed_invocation_is_folded :
  forall (fuel : nat) (w : World) (messages : list Message)
         am w1 pre c post ms_pre wc args e wc',
    create w messages = (inr am, w1) ->
    am_tool_calls am = Some (pre ++ c :: post) ->
    forallb decodes post = true ->
    for_tool_calls w1 pre = (None, ms_pre, wc) ->
    json_loads (tc_arguments c) = inr args ->
    call_tool wc (tc_name c) args = (inl e, wc') ->
    exists ms_post w2,
      let folded := ToolMsg (tc_id c) (tc_name c) ("Error: " +:+ Py.exc_str e) in
      let history := (messages ++ [AssistantMsg am]) ++ ms_pre ++ folded :: ms_post in
      for_tool_calls w1 (pre ++ c :: post) = (None, ms_pre ++ folded :: ms_post, w2) /\
      Forall2 Spec.tool_message_of post ms_post /\
      chat_loop (S fuel) w messages = Loop.requested messages (chat_loop fuel w2 history) /\
      forall final w3,
        create w2 history = (inr final, w3) ->
        Py.truthy_opt_list (am_tool_calls final) = false ->
        Loop.outcome (chat_loop (S (S fuel)) w messages)
          = Returns (default "" (am_content final)) /\
        Loop.messages_after (chat_loop (S (S fuel)) w messages)
          = history ++ [AssistantMsg final].
Proof.
  intros fuel w messages am w1 pre c post ms_pre wc args e wc' Hc Htc Hdec Hpre Hargs Hcall.
  destruct (for_tool_calls_decoded json_loads call_tool result_text post wc' Hdec)
    as (ms_post & w2 & Hpost & HF).
  exists ms_post, w2. cbv zeta.
  assert (Hfor : for_tool_calls w1 (pre ++ c :: post)
                 = (None, ms_pre ++ ToolMsg (tc_id c) (tc_name c) ("Error: " +:+ Py.exc_str e) :: ms_post, w2)).
  { rewrite (for_tool_calls_app json_loads call_tool result_text pre (c :: post) _ _ _ Hpre).
    simpl. rewrite Hargs, Hcall, Hpost. reflexivity. }
  assert (Hround : forall n, chat_loop (S n) w messages =
                   Loop.requested messages
                     (chat_loop n w2 ((messages ++ [AssistantMsg am]) ++ ms_pre
                        ++ ToolMsg (tc_id c) (tc_name c) ("Error: " +:+ Py.exc_str e) :: ms_post))).
  { intros n. apply chat_loop_round with (w1 := w1); rewrite ?Htc; auto.
    destruct pre; reflexivity. }
  split; [exact Hfor|]. split; [exact HF|]. split; [apply Hround|].
  intros final w3 Hfinal Hnone.
  rewrite (Hround (S fuel)). simpl. rewrite Hfinal, Hnone. simpl. split; reflexivity.
Qed.

(** C9. When the arguments of a request fail to decode, the exception
    leaves [chat]: the run ends raising it, no further completion is
    requested, and [messages] keeps the assistant message followed by the
    tool messages of the requests before the failing one only. *)
Theorem decode_failure_aborts_turn :
  forall (fuel : nat) (w : World) (messages : list Message) am w1 pre c post e,
    create w messages = (inr am, w1) ->
    am_tool_calls am = Some (pre ++ c :: post) ->
    forallb decodes pre = true ->
    json_loads (tc_arguments c) = inl e ->
    exists ms w2,
      chat_loop (S fuel) w messages
        = Loop.mkRun (Raises e) ((messages ++ [AssistantMsg am]) ++ ms) w2 [messages] /\
      Forall2 Spec.tool_message_of pre ms /\
      length ms = length pre.
Proof.
  intros fuel w messages am w1 pre c post e Hc Htc Hdec Hfail.
  destruct (for_tool_calls_decoded json_loads call_tool result_text pre w1 Hdec)
    as (ms & w2 & Hpre & HF).
  exists ms, w2. repeat split; [|exact HF | symmetry; exact (Forall2_length _ _ _ HF)].
  simpl. rewrite Hc, Htc.
  replace (Py.truthy_opt_list (Some (pre ++ c :: post))) with true
    by (destruct pre; reflexivity).
  simpl.
  rewrite (for_tool_calls_app json_loads call_tool result_text pre (c :: post) _ _ _ Hpre).
  simpl. rewrite Hfail, app_nil_r. reflexivity.
Qed.

End LoopClaims.

Example scenario_two_calls :
  scenario_chat_loop [Fixture.two_calls; Fixture.final_answer] 5 0 scenario_start =
    Loop.mkRun (Returns "Here are the top movies.")
      (scenario_start ++
         [AssistantMsg Fixture.two_calls;
          ToolMsg "a" "get_top_movies" (Netflix.result_text Fixture.top_movies);
          error_for_b;
          AssistantMsg Fixture.final_answer])
      2%nat
      [scenario_start;
       scenario_start ++
         [AssistantMsg Fixture.two_calls;
          ToolMsg "a" "get_top_movies" (Netflix.result_text Fixture.top_movies);
          error_for_b]].
Proof. reflexivity. Qed.

Lemma chat_answers_decoded_tool_calls_witness :
  exists ms w2,
    Loop.for_tool_calls Fixture.json_loads Fixture.call_tool Netflix.result_text 1%nat
      [mkToolCall "a" "get_top_movies" "{}"; mkToolCall "b" "add_to_favorites" "{}"]
      = (None, ms, w2) /\
    length ms = 2%nat /\
    Forall2 Spec.tool_message_of
      [mkToolCall "a" "get_top_movies" "{}"; mkToolCall "b" "add_to_favorites" "{}"] ms /\
    scenario_chat_loop [Fixture.two_calls; Fixture.final_answer] 3 0 scenario_start =
      Loop.requested scenario_start
        (scenario_chat_loop [Fixture.two_calls; Fixture.final_answer] 2 w2
           ((scenario_start ++ [AssistantMsg Fixture.two_calls]) ++ ms)).
Proof.
  exact (proj1 (chat_answers_decoded_tool_calls
                  (Fixture.create [Fixture.two_calls; Fixture.final_answer])
                  Fixture.json_loads Fixture.call_tool Netflix.result_text
                  2%nat 0%nat scenario_start)
               Fixture.two_calls 1%nat _ _ eq_refl eq_refl eq_refl).
Defined.

(** C1, as stated, fails when arguments do not decode: the assistant message
    carries two requests, one tool message follows it, and the turn ends
    with the decoding error. *)
Lemma unanswered_after_decode_failure :
  am_tool_calls Fixture.truncated_arguments
    = Some [mkToolCall "a" "get_top_movies" "{}"; mkToolCall "b" "add_to_favorites" "{"] /\
  Loop.messages_after
    (scenario_chat_loop [Fixture.truncated_arguments; Fixture.final_answer] 5 0 scenario_start)
    = scenario_start ++
        [AssistantMsg Fixture.truncated_arguments;
         ToolMsg "a" "get_top_movies" (Netflix.result_text Fixture.top_movies)] /\
  Spec.answered
    (Loop.messages_after
       (scenario_chat_loop [Fixture.truncated_arguments; Fixture.final_answer] 5 0 scenario_start))
    = false /\
  Loop.outcome
    (scenario_chat_loop [Fixture.truncated_arguments; Fixture.final_answer] 5 0 scenario_start)
    = Raises (Py.mkExc "JSONDecodeError"
                "Expecting property name enclosed in double quotes: line 1 column 2 (char 1)").
Proof. repeat split; reflexivity. Qed.

Lemma failed_invocation_is_folded_witness :
  exists ms_post w2,
    Loop.for_tool_calls Fixture.json_loads Fixture.call_tool Netflix.result_text 1%nat
      [mkToolCall "a" "get_top_movies" "{}"; mkToolCall "b" "add_to_favorites" "{}"]
      = (None,
         [ToolMsg "a" "get_top_movies" (Netflix.result_text Fixture.top_movies)]
           ++ error_for_b :: ms_post, w2) /\
    Forall2 Spec.tool_message_of [] ms_post /\
    scenario_chat_loop [Fixture.two_calls; Fixture.final_answer] 3 0 scenario_start =
      Loop.requested scenario_start
        (scenario_chat_loop [Fixture.two_calls; Fixture.final_answer] 2 w2
           ((scenario_start ++ [AssistantMsg Fixture.two_calls]) ++
              [ToolMsg "a" "get_top_movies" (Netflix.result_text Fixture.top_movies)]
                ++ error_for_b :: ms_post)) /\
    forall final w3,
      Fixture.create [Fixture.two_calls; Fixture.final_answer] w2
        ((scenario_start ++ [AssistantMsg Fixture.two_calls]) ++
           [ToolMsg "a" "get_top_movies" (Netflix.result_text Fixture.top_movies)]
             ++ error_for_b :: ms_post) = (inr final, w3) ->
      Py.truthy_opt_list (am_tool_calls final) = false ->
      Loop.outcome (scenario_chat_loop [Fixture.two_calls; Fixture.final_answer] 4 0 scenario_start)
        = Returns (default "" (am_content final)) /\
      Loop.messages_after (scenario_chat_loop [Fixture.two_calls; Fixture.final_answer] 4 0 scenario_start)
        = ((scenario_start ++ [AssistantMsg Fixture.two_calls]) ++
             [ToolMsg "a" "get_top_movies" (Netflix.result_text Fixture.top_movies)]
               ++ error_for_b :: ms_post) ++ [AssistantMsg final].
Proof.
  exact (failed_invocation_is_folded
           (Fixture.create [Fixture.two_calls; Fixture.final_answer])
           Fixture.json_loads Fixture.call_tool Netflix.result_text
           2%nat 0%nat scenario_start Fixture.two_calls 1%nat
           [mkToolCall "a" "get_top_movies" "{}"] (mkToolCall "b" "add_to_favorites" "{}") []
           [ToolMsg "a" "get_top_movies" (Netflix.result_text Fixture.top_movies)]
           1%nat tt
           (Server.ToolError "Movie not found. Use search_movies to find it first.") 1%nat
           eq_refl eq_refl eq_refl eq_refl eq_refl eq_refl).
Defined.

Lemma decode_failure_aborts_turn_witness :
  exists ms w2,
    scenario_chat_loop [Fixture.truncated_arguments; Fixture.final_answer] 3 0 scenario_start
      = Loop.mkRun
          (Raises (Py.mkExc "JSONDecodeError"
                     "Expecting property name enclosed in double quotes: line 1 column 2 (char 1)"))
          ((scenario_start ++ [AssistantMsg Fixture.truncated_arguments]) ++ ms) w2
          [scenario_start] /\
    Forall2 Spec.tool_message_of [mkToolCall "a" "get_top_movies" "{}"] ms /\
    length ms = 1%nat.
Proof.
  exact (decode_failure_aborts_turn
           (Fixture.create [Fixture.truncated_arguments; Fixture.final_answer])
           Fixture.json_loads Fixture.call_tool Netflix.result_text
           2%nat 0%nat scenario_start Fixture.truncated_arguments 1%nat
           [mkToolCall "a" "get_top_movies" "{}"] (mkToolCall "b" "add_to_favorites" "{") []
           _ eq_refl eq_refl eq_refl eq_refl).
Defined.

(** ** The text folded into a tool message *)



(** Non-text items do not contribute, and the order of the rest is kept. *)
Lemma text_items_app (xs ys : list ContentBlock) :
  Spec.text_items (xs ++ ys) = Spec.text_items xs ++ Spec.text_items ys.
Proof.
  induction xs as [|b xs IH]; [reflexivity|].
  destruct b; simpl; rewrite ?IH; reflexivity.
Qed.




(** ** The history bound of the REPLs *)

Lemma bound_history_cons {World : Type} (MAX_HISTORY : Z) sys rest (w : World) :
  bound_history MAX_HISTORY (sys :: rest) w =
    Continue (if Z.of_nat (length (sys :: rest)) >? MAX_HISTORY + 1
              then [sys] else sys :: rest) w.
Proof.
  unfold bound_history.
  destruct (Z.of_nat (length (sys :: rest)) >? MAX_HISTORY + 1); reflexivity.
Qed.

Lemma bounded_after_bound (MAX_HISTORY : Z) sys rest :
  Spec.bounded MAX_HISTORY sys
    (if Z.of_nat (length (sys :: rest)) >? MAX_HISTORY + 1 then [sys] else sys :: rest).
Proof.
  destruct (Z.of_nat (length (sys :: rest)) >? MAX_HISTORY + 1) eqn:H.
  - split; [reflexivity | right; reflexivity].
  - split; [reflexivity | left]. rewrite Z.gtb_ltb in H. apply Z.ltb_ge in H. lia.
Qed.

Lemma bounded_start (MAX_HISTORY : Z) sys : Spec.bounded MAX_HISTORY sys [sys].
Proof. split; [reflexivity | right; reflexivity]. Qed.

Section ReplFacts.

Context {World Json : Type}.
Variable create : World -> list Message -> (Py.Exc + AssistantMessage) * World.
Variable json_loads : string -> Py.Exc + Json.
Variable call_tool : World -> string -> Json -> (Py.Exc + CallToolResult) * World.
Variable str : CallToolResult -> string.
Variable MAX_HISTORY : Z.
Variable SYSTEM_PROMPT : option string.

(** A completed turn of either REPL: the bound is applied to what [chat]
    left in [messages]. *)
Lemma turn_bounded result_text fuel q w sys rest :
  let r := Loop.chat create json_loads call_tool result_text fuel q w (sys :: rest) in
  exists h,
    bound_history MAX_HISTORY (Loop.messages_after r) (Loop.world_after r)
      = Continue h (Loop.world_after r) /\
    h = (if Z.of_nat (length (Loop.messages_after r)) >? MAX_HISTORY + 1
         then [sys] else Loop.messages_after r) /\
    Spec.bounded MAX_HISTORY sys h.
Proof.
  intros r.
  destruct (chat_extends create json_loads call_tool result_text fuel q w (sys :: rest))
    as [more Hafter].
  fold r in Hafter. rewrite Hafter. simpl app.
  eexists. split; [apply bound_history_cons|]. split; [reflexivity|].
  apply bounded_after_bound.
Qed.

(** The rule of a completed turn, for either client. *)
Lemma netflix_turn_returns fuel q w sys rest a :
  let r := Netflix.chat create json_loads call_tool fuel q w (sys :: rest) in
  Loop.outcome r = Returns a ->
  Netflix.turn create json_loads call_tool MAX_HISTORY fuel q (sys :: rest) w
    = Continue
        (if Z.of_nat (length (Loop.messages_after r)) >? MAX_HISTORY + 1
         then [sys] else Loop.messages_after r)
        (Loop.world_after r).
Proof.
  intros r Hret. unfold Netflix.turn. fold r. rewrite Hret.
  destruct (turn_bounded Netflix.result_text fuel q w sys rest) as (hb & Hbound & Hh & _).
  unfold Netflix.chat in r. fold r in Hbound, Hh. rewrite Hbound, Hh. reflexivity.
Qed.

Lemma puppy_turn_returns fuel q w sys rest a :
  let r := Puppy.chat create json_loads call_tool str fuel q w (sys :: rest) in
  Loop.outcome r = Returns a ->
  Puppy.turn create json_loads call_tool str MAX_HISTORY fuel q (sys :: rest) w
    = Continue
        (if Z.of_nat (length (Loop.messages_after r)) >? MAX_HISTORY + 1
         then [sys] else Loop.messages_after r)
        (Loop.world_after r).
Proof.
  intros r Hret. unfold Puppy.turn. fold r. rewrite Hret.
  destruct (turn_bounded str fuel q w sys rest) as (hb & Hbound & Hh & _).
  unfold Puppy.chat in r. fold r in Hbound, Hh. rewrite Hbound, Hh. reflexivity.
Qed.

Lemma netflix_turn_bounded fuel q h w h' w' sys :
  Spec.bounded MAX_HISTORY sys h ->
  Netflix.turn create json_loads call_tool MAX_HISTORY fuel q h w = Continue h' w' ->
  Spec.bounded MAX_HISTORY sys h'.
Proof.
  intros Hb Hstep. pose proof Hb as [Hhd _].
  destruct h as [|m rest]; [discriminate|]. simpl in Hhd. inversion Hhd; subst m.
  destruct (turn_bounded Netflix.result_text fuel q w sys rest)
    as (hb & Hbound & _ & Hbounded).
  unfold Netflix.turn, Netflix.chat in Hstep.
  destruct (Loop.outcome _) as [a|e|]; try discriminate.
  - rewrite Hbound in Hstep. inversion Hstep; subst. exact Hbounded.
  - destruct (Py.is_keyboard_interrupt e); discriminate.
Qed.

Lemma puppy_turn_bounded fuel q h w h' w' sys :
  Spec.bounded MAX_HISTORY sys h ->
  Puppy.turn create json_loads call_tool str MAX_HISTORY fuel q h w = Continue h' w' ->
  Spec.bounded MAX_HISTORY sys h'.
Proof.
  intros Hb Hstep. pose proof Hb as [Hhd _].
  destruct h as [|m rest]; [discriminate|]. simpl in Hhd. inversion Hhd; subst m.
  destruct (turn_bounded str fuel q w sys rest) as (hb & Hbound & _ & Hbounded).
  unfold Puppy.turn, Puppy.chat in Hstep.
  destruct (Loop.outcome _) as [a|e|]; try discriminate.
  - rewrite Hbound in Hstep. inversion Hstep; subst. exact Hbounded.
  - destruct (Py.is_keyboard_interrupt e); discriminate.
Qed.

Lemma netflix_iteration_bounded fuel t h w h' w' sys :
  Spec.bounded MAX_HISTORY sys h ->
  Netflix.repl_iteration create json_loads call_tool MAX_HISTORY fuel t h w = Continue h' w' ->
  Spec.bounded MAX_HISTORY sys h'.
Proof.
  intros Hb Hstep.
  destruct t as [l|]; [|discriminate]. unfold Netflix.repl_iteration in Hstep.
  destruct (negb (Py.truthy_str (Py.strip l))).
  { inversion Hstep; subst. exact Hb. }
  destruct (existsb _ _); [discriminate|].
  destruct (String.eqb _ "clear").
  { pose proof Hb as [Hhd _].
    destruct h as [|m rest]; [discriminate|]. simpl in Hhd. inversion Hhd; subst m.
    simpl in Hstep. inversion Hstep; subst. apply bounded_start. }
  eapply netflix_turn_bounded; eassumption.
Qed.

Lemma netflix_repl_bounded fuel typed :
  forall h w sys,
    Spec.bounded MAX_HISTORY sys h ->
    Spec.bounded MAX_HISTORY sys
      (snd (fst (Netflix.repl create json_loads call_tool MAX_HISTORY fuel typed h w))).
Proof.
  induction typed as [|t typed IH]; intros h w sys Hb; simpl; [exact Hb|].
  destruct (Netflix.repl_iteration create json_loads call_tool MAX_HISTORY fuel t h w)
    as [h' w'| | |] eqn:Hstep; simpl; try exact Hb.
  apply IH. eapply netflix_iteration_bounded; eassumption.
Qed.

Lemma puppy_iteration_bounded fuel t h w h' w' sys :
  Spec.bounded MAX_HISTORY sys h ->
  Puppy.repl_iteration create json_loads call_tool str MAX_HISTORY fuel t h w = Continue h' w' ->
  Spec.bounded MAX_HISTORY sys h'.
Proof.
  intros Hb Hstep.
  destruct t as [l|]; [|discriminate]. unfold Puppy.repl_iteration in Hstep.
  eapply puppy_turn_bounded; eassumption.
Qed.

Lemma puppy_repl_bounded fuel typed :
  forall h w sys,
    Spec.bounded MAX_HISTORY sys h ->
    Spec.bounded MAX_HISTORY sys
      (snd (fst (Puppy.repl create json_loads call_tool str MAX_HISTORY fuel typed h w))).
Proof.
  induction typed as [|t typed IH]; intros h w sys Hb; simpl; [exact Hb|].
  destruct (Puppy.repl_iteration create json_loads call_tool str MAX_HISTORY fuel t h w)
    as [h' w'| | |] eqn:Hstep; simpl; try exact Hb.
  apply IH. eapply puppy_iteration_bounded; eassumption.
Qed.

(** A completed turn leaves an answered history, bounded or not. *)
Lemma turn_answered result_text fuel q w sys rest a :
  let r := Loop.chat create json_loads call_tool result_text fuel q w (sys :: rest) in
  Spec.answered [sys] = true ->
  Spec.answered (sys :: rest) = true ->
  Loop.outcome r = Returns a ->
  Spec.answered
    (if Z.of_nat (length (Loop.messages_after r)) >? MAX_HISTORY + 1
     then [sys] else Loop.messages_after r) = true.
Proof.
  intros r Hsys Hh Hret.
  destruct (Z.of_nat (length (Loop.messages_after r)) >? MAX_HISTORY + 1); [exact Hsys|].
  unfold r, Loop.chat in *.
  eapply chat_loop_answered; [|exact Hret].
  apply answered_app; [exact Hh | reflexivity].
Qed.

(** At every prompt of the Netflix REPL the history has no unanswered tool
    call: the next turn's first completion is requested on such a history. *)
Lemma netflix_prompts_answered fuel typed :
  forall h w,
    hd_error h = Some Netflix.system_message ->
    Spec.answered h = true ->
    Spec.answered
      (snd (fst (Netflix.repl create json_loads call_tool MAX_HISTORY fuel typed h w))) = true.
Proof.
  induction typed as [|t typed IH]; intros h w Hhd Hh; simpl; [exact Hh|].
  destruct (Netflix.repl_iteration create json_loads call_tool MAX_HISTORY fuel t h w)
    as [h' w'| | |] eqn:Hstep; simpl; try exact Hh.
  destruct h as [|m rest]; [discriminate|]. simpl in Hhd. inversion Hhd; subst m.
  destruct t as [l|]; [|discriminate]. unfold Netflix.repl_iteration in Hstep.
  destruct (negb (Py.truthy_str (Py.strip l))).
  { inversion Hstep; subst. apply IH; [reflexivity | exact Hh]. }
  destruct (existsb _ _); [discriminate|].
  destruct (String.eqb _ "clear").
  { simpl in Hstep. inversion Hstep; subst. apply IH; reflexivity. }
  destruct (turn_bounded Netflix.result_text fuel (Py.strip l) w Netflix.system_message rest)
    as (hb & Hbound & Hhb & Hbounded & _).
  pose proof (turn_answered Netflix.result_text fuel (Py.strip l) w
                Netflix.system_message rest) as Hans.
  unfold Netflix.turn, Netflix.chat in Hstep. cbv zeta in Hans.
  destruct (Loop.outcome _) as [a|e|] eqn:Hout; try discriminate.
  - rewrite Hbound in Hstep. inversion Hstep; subst h' w'.
    apply IH; [exact Hbounded|]. rewrite Hhb. exact (Hans a eq_refl Hh eq_refl).
  - destruct (Py.is_keyboard_interrupt e); discriminate.
Qed.

(** C3. A turn that completes is followed by the bound, in either client:
    when [messages] is longer than [MAX_HISTORY + 1] it becomes the list
    holding its first element, the system message, alone, and otherwise it
    is left as [chat] left it. A turn is what the Netflix REPL runs on a
    line that is neither blank nor a command, and the puppy REPL on every
    line (lines of ASCII characters, as the model reads them). So at every
    prompt of either REPL [messages] starts with the original system
    message and either has at most [MAX_HISTORY + 1] elements or is that
    message alone. *)
Theorem history_bound_between_turns :
  forall (fuel : nat) (w : World),
    (forall user_input sys rest a,
        let r := Netflix.chat create json_loads call_tool fuel user_input w (sys :: rest) in
        Loop.outcome r = Returns a ->
        Netflix.turn create json_loads call_tool MAX_HISTORY fuel user_input (sys :: rest) w
          = Continue
              (if Z.of_nat (length (Loop.messages_after r)) >? MAX_HISTORY + 1
               then [sys] else Loop.messages_after r)
              (Loop.world_after r)) /\
    (forall user_input sys rest a,
        let r := Puppy.chat create json_loads call_tool str fuel user_input w (sys :: rest) in
        Loop.outcome r = Returns a ->
        Puppy.turn create json_loads call_tool str MAX_HISTORY fuel user_input (sys :: rest) w
          = Continue
              (if Z.of_nat (length (Loop.messages_after r)) >? MAX_HISTORY + 1
               then [sys] else Loop.messages_after r)
              (Loop.world_after r)) /\
    (forall l messages,
        Py.is_ascii l = true ->
        Py.truthy_str (Py.strip l) = true ->
        existsb (String.eqb (Py.lower (Py.strip l))) ["quit"; "exit"; "q"] = false ->
        String.eqb (Py.lower (Py.strip l)) "clear" = false ->
        Netflix.repl_iteration create json_loads call_tool MAX_HISTORY fuel (Line l) messages w
          = Netflix.turn create json_loads call_tool MAX_HISTORY fuel (Py.strip l) messages w) /\
    (forall l messages,
        Py.is_ascii l = true ->
        Puppy.repl_iteration create json_loads call_tool str MAX_HISTORY fuel (Line l) messages w
          = Puppy.turn create json_loads call_tool str MAX_HISTORY fuel (Py.strip l) messages w) /\
    (forall typed,
        Spec.bounded MAX_HISTORY Netflix.system_message
          (snd (fst (Netflix.run_repl create json_loads call_tool MAX_HISTORY fuel typed w)))) /\
    (forall typed,
        Spec.bounded MAX_HISTORY (SystemMsg SYSTEM_PROMPT)
          (snd (fst (Puppy.run_repl create json_loads call_tool str MAX_HISTORY
                       SYSTEM_PROMPT fuel typed w)))).
Proof.
  intros fuel w. repeat split.
  - intros user_input sys rest a. apply netflix_turn_returns.
  - intros user_input sys rest a. apply puppy_turn_returns.
  - intros l messages _ Hne Hquit Hclear.
    unfold Netflix.repl_iteration. rewrite Hne, Hquit, Hclear. reflexivity.
  - apply netflix_repl_bounded, bounded_start.
  - apply netflix_repl_bounded, bounded_start.
  - apply puppy_repl_bounded, bounded_start.
  - apply puppy_repl_bounded, bounded_start.
Qed.

End ReplFacts.

Lemma history_bound_between_turns_witness :
  Netflix.turn (Fixture.create [Fixture.plain "Hi!"]) Fixture.json_loads
    Fixture.call_tool 0 3 "hello" [Netflix.system_message; UserMsg "old"] 0%nat
  = Continue
      (if Z.of_nat
            (length
               (Loop.messages_after
                  (Netflix.chat (Fixture.create [Fixture.plain "Hi!"]) Fixture.json_loads
                     Fixture.call_tool 3 "hello" 0%nat
                     [Netflix.system_message; UserMsg "old"]))) >? 0 + 1
       then [Netflix.system_message]
       else Loop.messages_after
              (Netflix.chat (Fixture.create [Fixture.plain "Hi!"]) Fixture.json_loads
                 Fixture.call_tool 3 "hello" 0%nat
                 [Netflix.system_message; UserMsg "old"]))
      (Loop.world_after
         (Netflix.chat (Fixture.create [Fixture.plain "Hi!"]) Fixture.json_loads
            Fixture.call_tool 3 "hello" 0%nat
            [Netflix.system_message; UserMsg "old"]))
  /\ Puppy.repl_iteration (Fixture.create [Fixture.plain "Hi!"]) Fixture.json_loads
       Fixture.call_tool Fixture.str_result 0 3 (Line " hello ")
       [SystemMsg None; UserMsg "old"] 0%nat
     = Puppy.turn (Fixture.create [Fixture.plain "Hi!"]) Fixture.json_loads
         Fixture.call_tool Fixture.str_result 0 3 (Py.strip " hello ")
         [SystemMsg None; UserMsg "old"] 0%nat.
Proof.
  pose proof (history_bound_between_turns
                (Fixture.create [Fixture.plain "Hi!"]) Fixture.json_loads
                Fixture.call_tool Fixture.str_result 0 None 3%nat 0%nat)
    as (Hturn & _ & _ & Hline & _).
  split.
  - exact (Hturn "hello" Netflix.system_message [UserMsg "old"] "Hi!" eq_refl).
  - exact (Hline " hello " [SystemMsg None; UserMsg "old"] eq_refl).
Defined.

(** The specification's scenario: [MAX_HISTORY = 10], six turns without tool
    calls. After five turns [messages] has 11 elements; the sixth makes it
    13, over the bound, and the seventh prompt sees the system message alone. *)
Example scenario_six_turns :
  let answers := map Fixture.plain ["1"; "2"; "3"; "4"; "5"; "6"] in
  let run n :=
    Netflix.run_repl (Fixture.create answers) Fixture.json_loads Fixture.call_tool 10 3
      (map Line (firstn n ["a"; "b"; "c"; "d"; "e"; "f"])) 0%nat in
  length (snd (fst (run 5%nat))) = 11%nat /\
  run 6%nat = (AtPrompt, [Netflix.system_message], 6%nat).
Proof. split; reflexivity. Qed.

(** ** Elicitation handlers *)

Lemma for_each_writes {A} (body : A -> IO unit) (g : A -> string) (xs : list A) :
  (forall x c, body x c = (inr tt, mkState (stdin c) (stdout c ++ [g x]))) ->
  forall c,
    for_each xs body c = (inr tt, mkState (stdin c) (stdout c ++ map g xs)).
Proof.
  intros Hbody. induction xs as [|x xs IH]; intros [i o]; simpl.
  - rewrite app_nil_r. reflexivity.
  - unfold mbind, IO_bind. rewrite Hbody, IH. simpl.
    rewrite <- app_assoc. reflexivity.
Qed.

(** The handler of the Netflix client on a request that wants data: it
    writes a blank line and the prompt, takes one line, and answers from it. *)
Lemma netflix_handler_reads_one_line message rt l rest out :
  NetflixElicitation.elicitation_handler message (Some rt) (mkState (l :: rest) out) =
    (inr (if Py.truthy_str (Py.strip l) then Instance rt (Py.strip l)
          else ElicitResult decline),
     mkState rest
       (out ++ [EmptyString +:+ Py.nl] ++
          ["[Server asks]: " +:+ message +:+ Py.nl +:+ "> Your choice: "])).
Proof.
  unfold NetflixElicitation.elicitation_handler, mbind, IO_bind, print, input. simpl.
  rewrite <- app_assoc.
  destruct (Py.truthy_str (Py.strip l)); reflexivity.
Qed.

(** The handler of the puppy guide: it always writes the menu and takes one
    line; the answer depends on that line, on the number of options and on
    whether data is wanted. *)
Lemma puppy_handler_reads_one_line message response_type schema l rest out :
  let options := PuppyElicitation.options_of schema in
  let c' := mkState rest (out ++ Spec.menu message options) in
  PuppyElicitation.elicitation_handler message response_type schema (mkState (l :: rest) out) =
    match Py.int_of_str (Py.strip l) with
    | inl _ => (inr (ElicitResult decline), c')
    | inr choice =>
        if (choice <? 1) || (choice =? Z.of_nat (length options) + 1)
        then (inr (ElicitResult decline), c')
        else
          match response_type with
          | None => (inr (ElicitResult accept), c')
          | Some rt =>
              match index options (choice - 1) with
              | inr v => (inr (Instance rt v), c')
              | inl e => (inl e, c')
              end
          end
    end.
Proof.
  intros options c'.
  unfold PuppyElicitation.elicitation_handler. fold options.
  unfold mbind, IO_bind, print, input. simpl.
  rewrite (for_each_writes _
             (fun io => ("  " +:+ Py.str_int (fst io) +:+ ". " +:+ snd io) +:+ Py.nl))
    by reflexivity.
  simpl.
  replace ((_ ++ _) ++ ["> "]) with (out ++ Spec.menu message options).
  2:{ unfold Spec.menu. rewrite <- !app_assoc. reflexivity. }
  fold c'.
  destruct (Py.int_of_str (Py.strip l)) as [e|choice]; [reflexivity|].
  destruct ((choice <? 1) || (choice =? Z.of_nat (length options) + 1)); [reflexivity|].
  destruct response_type as [rt|]; [|reflexivity].
  destruct (index options (choice - 1)); reflexivity.
Qed.

Lemma index_in_range {A} (xs : list A) (j : Z) :
  0 <= j < Z.of_nat (length xs) ->
  exists v, index xs j = inr v /\ nth_error xs (Z.to_nat j) = Some v.
Proof.
  intros Hj. unfold index.
  replace (j <? 0) with false by (symmetry; apply Z.ltb_ge; lia).
  replace (0 <=? j) with true by (symmetry; apply Z.leb_le; lia).
  replace (j <? Z.of_nat (length xs)) with true by (symmetry; apply Z.ltb_lt; lia).
  simpl.
  destruct (nth_error xs (Z.to_nat j)) as [v|] eqn:Hn; [eauto|].
  apply nth_error_None in Hn. lia.
Qed.

Lemma index_beyond {A} (xs : list A) (j : Z) :
  Z.of_nat (length xs) <= j ->
  index xs j = inl (Py.mkExc "IndexError" "list index out of range").
Proof.
  intros Hj. unfold index.
  replace (j <? 0) with false by (symmetry; apply Z.ltb_ge; lia).
  replace (j <? Z.of_nat (length xs)) with false by (symmetry; apply Z.ltb_ge; lia).
  rewrite andb_false_r. reflexivity.
Qed.

(** What the puppy-guide handler does with a line that is an integer, when
    data is wanted: it declines below 1 and at K + 1, answers with the
    chosen member from 1 to K, and raises [IndexError] beyond K + 1. *)
Lemma puppy_integer_choices message rt schema l rest out choice :
  let options := PuppyElicitation.options_of schema in
  let K := Z.of_nat (length options) in
  let c' := mkState rest (out ++ Spec.menu message options) in
  let run := PuppyElicitation.elicitation_handler message (Some rt) schema
               (mkState (l :: rest) out) in
  Py.int_of_str (Py.strip l) = inr choice ->
  (choice < 1 \/ choice = K + 1 -> run = (inr (ElicitResult decline), c')) /\
  (1 <= choice <= K ->
     exists v, nth_error options (Z.to_nat (choice - 1)) = Some v /\
               run = (inr (Instance rt v), c')) /\
  (K + 1 < choice ->
     run = (inl (Py.mkExc "IndexError" "list index out of range"), c')).
Proof.
  intros options K c' run Hint. subst run.
  rewrite puppy_handler_reads_one_line, Hint. fold options K c'.
  split; [|split].
  - intros Hc.
    replace ((choice <? 1) || (choice =? K + 1)) with true; [reflexivity|].
    symmetry. apply orb_true_iff.
    destruct Hc; [left; apply Z.ltb_lt | right; apply Z.eqb_eq]; assumption.
  - intros Hc.
    replace ((choice <? 1) || (choice =? K + 1)) with false.
    2:{ symmetry. apply orb_false_iff. split; [apply Z.ltb_ge | apply Z.eqb_neq]; lia. }
    destruct (index_in_range options (choice - 1)) as (v & Hv & Hn); [fold K; lia|].
    exists v. rewrite Hv. split; [exact Hn | reflexivity].
  - intros Hc.
    replace ((choice <? 1) || (choice =? K + 1)) with false.
    2:{ symmetry. apply orb_false_iff. split; [apply Z.ltb_ge | apply Z.eqb_neq]; lia. }
    rewrite index_beyond by (fold K; lia). reflexivity.
Qed.

(** The specification's scenario: the options labrador and poodle (K = 2);
    the line 3 declines, the line 1 answers labrador, the line x declines. *)
Example scenario_breeds :
  let ask l := fst (PuppyElicitation.elicitation_handler "Did you mean one of these?"
                      (Some (EnumShape ["labrador"; "poodle"])) Fixture.breeds
                      (Fixture.typing [l])) in
  ask "3" = inr (ElicitResult decline) /\
  ask "1" = inr (Instance (EnumShape ["labrador"; "poodle"]) "labrador") /\
  ask "x" = inr (ElicitResult decline) /\
  ask "0" = inr (ElicitResult decline) /\
  ask "-7" = inr (ElicitResult decline).
Proof. repeat split; reflexivity. Qed.

(** C5. The code at an integer beyond K + 1: with the options labrador and
    poodle (K = 2) and the line 4, the handler does not decline; indexing
    the options raises [IndexError] out of the handler. *)
Theorem puppy_choice_beyond_menu_raises :
  PuppyElicitation.elicitation_handler "Did you mean one of these?"
    (Some (EnumShape ["labrador"; "poodle"])) Fixture.breeds (Fixture.typing ["4"])
  = (inl (Py.mkExc "IndexError" "list index out of range"),
     mkState [] (Spec.menu "Did you mean one of these?" ["labrador"; "poodle"])).
Proof. reflexivity. Qed.

(** C4 (amended). The handler of the Netflix client answers a request that
    wants no data with accept, leaving the terminal untouched: nothing is
    written and no line is read. The handler of the puppy guide writes its
    menu and reads one line for such a request too, whatever the line, and
    answers accept or decline without raising; for a line of ASCII
    characters within the length [int] converts, it accepts exactly when
    the line is an integer that is at least 1 and is not K + 1. *)
Theorem acknowledgement_without_data :
  forall (message : string),
    (forall c,
        NetflixElicitation.elicitation_handler message None c
        = (inr (ElicitResult accept), c)) /\
    (forall schema l rest out,
        exists action,
          PuppyElicitation.elicitation_handler message None schema (mkState (l :: rest) out)
          = (inr (ElicitResult action),
             mkState rest (out ++ Spec.menu message (PuppyElicitation.options_of schema))) /\
          (action = accept \/ action = decline)) /\
    (forall schema l rest out,
        Py.is_ascii l = true ->
        (String.length l <=? Py.INT_MAX_STR_DIGITS)%nat = true ->
        PuppyElicitation.elicitation_handler message None schema (mkState (l :: rest) out)
        = (inr (ElicitResult
                  match Py.int_of_str (Py.strip l) with
                  | inr choice =>
                      if (choice <? 1)
                         || (choice =? Z.of_nat (length (PuppyElicitation.options_of schema)) + 1)
                      then decline else accept
                  | inl _ => decline
                  end),
           mkState rest (out ++ Spec.menu message (PuppyElicitation.options_of schema)))).
Proof.
  intros message. split; [|split].
  - intros c. reflexivity.
  - intros schema l rest out. rewrite puppy_handler_reads_one_line.
    destruct (Py.int_of_str (Py.strip l)) as [e|choice]; [eauto|].
    destruct ((choice <? 1) || _); eauto.
  - intros schema l rest out _ _. rewrite puppy_handler_reads_one_line.
    destruct (Py.int_of_str (Py.strip l)) as [e|choice]; [reflexivity|].
    destruct ((choice <? 1) || _); reflexivity.
Qed.

Lemma acknowledgement_without_data_witness :
  PuppyElicitation.elicitation_handler "Proceed?" None
    (Some (PuppyElicitation.mkSchema (Some []))) (mkState [" 2 "; "later"] [])
  = (inr (ElicitResult
            match Py.int_of_str (Py.strip " 2 ") with
            | inr choice =>
                if (choice <? 1)
                   || (choice =? Z.of_nat (length (PuppyElicitation.options_of
                                                    (Some (PuppyElicitation.mkSchema (Some []))))) + 1)
                then decline else accept
            | inl _ => decline
            end),
     mkState ["later"]
       ([] ++ Spec.menu "Proceed?"
                (PuppyElicitation.options_of (Some (PuppyElicitation.mkSchema (Some [])))))).
Proof.
  exact (proj2 (proj2 (acknowledgement_without_data "Proceed?"))
               (Some (PuppyElicitation.mkSchema (Some []))) " 2 " ["later"] []
               eq_refl eq_refl).
Defined.

(** C4, as stated, fails in the puppy guide: for a request that wants no
    data the handler writes the menu, reads the line typed, and here
    declines. *)
Lemma puppy_prompts_for_acknowledgement :
  PuppyElicitation.elicitation_handler "Proceed?" None
    (Some (PuppyElicitation.mkSchema (Some []))) (Fixture.typing ["x"; "later"])
  = (inr (ElicitResult decline), mkState ["later"] (Spec.menu "Proceed?" [])).
Proof. reflexivity. Qed.

(** C7 (amended). On a request that wants data, the handler of the Netflix
    client reads one line and, whatever the line and the expected shape,
    either declines or answers with a non-empty string wrapped in the
    response type: it does not coerce, and it does not raise. For a line of
    ASCII characters it declines when the line is empty or blank and
    otherwise answers with the stripped line itself. The handler of the
    puppy guide converts the line to an integer whatever the shape, and
    declines when that fails (for a line of ASCII characters within the
    length [int] converts). *)
Theorem elicitation_wraps_or_declines :
  forall (message : string) (rt : Shape) (l : string) (rest out : list string),
    (exists answer,
        NetflixElicitation.elicitation_handler message (Some rt) (mkState (l :: rest) out)
        = (inr answer,
           mkState rest
             (out ++ [EmptyString +:+ Py.nl] ++
                ["[Server asks]: " +:+ message +:+ Py.nl +:+ "> Your choice: "])) /\
        (answer = ElicitResult decline \/
         exists value, Py.truthy_str value = true /\ answer = Instance rt value)) /\
    (Py.is_ascii l = true ->
     NetflixElicitation.elicitation_handler message (Some rt) (mkState (l :: rest) out)
     = (inr (if Py.truthy_str (Py.strip l) then Instance rt (Py.strip l)
             else ElicitResult decline),
        mkState rest
          (out ++ [EmptyString +:+ Py.nl] ++
             ["[Server asks]: " +:+ message +:+ Py.nl +:+ "> Your choice: "]))) /\
    forall schema response_type e,
      Py.is_ascii l = true ->
      (String.length l <=? Py.INT_MAX_STR_DIGITS)%nat = true ->
      Py.int_of_str (Py.strip l) = inl e ->
      PuppyElicitation.elicitation_handler message response_type schema
        (mkState (l :: rest) out)
      = (inr (ElicitResult decline),
         mkState rest (out ++ Spec.menu message (PuppyElicitation.options_of schema))).
Proof.
  intros message rt l rest out. split; [|split].
  - rewrite netflix_handler_reads_one_line.
    destruct (Py.truthy_str (Py.strip l)) eqn:Hne.
    + eexists. split; [reflexivity|]. right. eauto.
    + eexists. split; [reflexivity|]. left. reflexivity.
  - intros _. apply netflix_handler_reads_one_line.
  - intros schema response_type e _ _ He.
    rewrite puppy_handler_reads_one_line, He. reflexivity.
Qed.

Lemma elicitation_wraps_or_declines_witness :
  NetflixElicitation.elicitation_handler "How many?" (Some IntegerShape)
    (mkState ["  two "] [])
  = (inr (if Py.truthy_str (Py.strip "  two ") then Instance IntegerShape (Py.strip "  two ")
          else ElicitResult decline),
     mkState []
       ([] ++ [EmptyString +:+ Py.nl] ++
          ["[Server asks]: " +:+ "How many?" +:+ Py.nl +:+ "> Your choice: "]))
  /\ PuppyElicitation.elicitation_handler "How many?" (Some IntegerShape) None
       (mkState ["  two "] [])
     = (inr (ElicitResult decline),
        mkState [] ([] ++ Spec.menu "How many?" (PuppyElicitation.options_of None))).
Proof.
  pose proof (elicitation_wraps_or_declines "How many?" IntegerShape "  two " [] [])
    as (_ & Hnetflix & Hpuppy).
  split.
  - exact (Hnetflix eq_refl).
  - exact (Hpuppy None (Some IntegerShape)
             (Py.mkExc "ValueError" "invalid literal for int() with base 10: 'two'")
             eq_refl eq_refl eq_refl).
Defined.

(** C7, as stated, fails in the Netflix client: asked for an integer and
    given the line abc, the handler does not decline; it answers with the
    string abc. *)
Lemma netflix_wraps_uncoerced_line :
  NetflixElicitation.elicitation_handler "Pick a number" (Some IntegerShape)
    (Fixture.typing ["abc"])
  = (inr (Instance IntegerShape "abc"),
     mkState []
       [EmptyString +:+ Py.nl;
        "[Server asks]: Pick a number" +:+ Py.nl +:+ "> Your choice: "]).
Proof. reflexivity. Qed.

(** ** Progress notifications *)

(** [format_0f] prints a nearest integer: twice the distance from the
    rounded value to [m * 2^e] is at most one. *)
Lemma round_half_even_nearest (m : positive) (e : Z) :
  e < 0 ->
  let d := 2 ^ (- e) in
  Z.abs (2 * (Py.round_half_even m e * d - Z.pos m)) <= d.
Proof.
  intros He d. unfold Py.round_half_even.
  replace (0 <=? e) with false by (symmetry; apply Z.leb_gt; exact He).
  fold d.
  assert (Hd : 0 < d) by (apply Z.pow_pos_nonneg; lia).
  pose proof (Z.div_mod (Z.pos m) d ltac:(lia)) as Hdm.
  pose proof (Z.mod_pos_bound (Z.pos m) d Hd) as Hr.
  set (q := Z.pos m / d) in *. set (r := Z.pos m mod d) in *.
  destruct (Z.compare_spec (2 * r) d) as [Heq|Hlt|Hgt].
  - destruct (Z.even q); nia.
  - nia.
  - nia.
Qed.

Lemma int_of_float_number (x : float) :
  Spec.is_number x = true -> exists n, Py.int_of_float x = inr n.
Proof.
  unfold Spec.is_number, Py.int_of_float.
  destruct (Prim2SF x); intros H; try discriminate; eauto.
Qed.

Lemma int_of_float_not_number (x : float) :
  Spec.is_number x = false -> exists e, Py.int_of_float x = inl e.
Proof.
  unfold Spec.is_number, Py.int_of_float.
  destruct (Prim2SF x); intros H; try discriminate; eauto.
Qed.

(** C8 (amended). When [total] is present and greater than 0, either sink
    writes one line with [progress / total * 100] printed with no decimals
    (rounded to nearest, ties to even) and a percent sign, and does not
    raise. Otherwise, when [progress] is a number, it writes one line with
    [progress] truncated to an integer, and does not raise; when [progress]
    is an infinity or NaN it raises and writes nothing. The Netflix sink
    puts the separator before a message only; the puppy-guide sink always
    writes it. Neither reads the terminal, and neither has a log line. *)
Theorem progress_rendering :
  forall (progress : float) (total : option float) (message : option string)
         (c : Console.State),
    let msg_part :=
      if Py.truthy_opt_str message then " - " +:+ default "" message else "" in
    let puppy_part :=
      " - " +:+ (if Py.truthy_opt_str message then default "" message else "") in
    (forall t,
        total = Some t -> PrimFloat.ltb 0%float t = true ->
        NetflixProgress.progress_handler progress total message c
        = (inr tt,
           mkState (stdin c)
             (stdout c ++
                [("[Progress] "
                  +:+ (Py.format_0f (PrimFloat.mul (PrimFloat.div progress t) 100%float) +:+ "%")
                  +:+ msg_part) +:+ Py.nl]))) /\
    (match total with Some t => PrimFloat.ltb 0%float t | None => false end = false ->
     Spec.is_number progress = true ->
     exists n,
       Py.int_of_float progress = inr n /\
       NetflixProgress.progress_handler progress total message c
       = (inr tt,
          mkState (stdin c)
            (stdout c ++ [("[Progress] " +:+ Py.str_int n +:+ msg_part) +:+ Py.nl]))) /\
    (match total with Some t => PrimFloat.ltb 0%float t | None => false end = false ->
     Spec.is_number progress = false ->
     exists e,
       Py.int_of_float progress = inl e /\
       NetflixProgress.progress_handler progress total message c = (inl e, c)) /\
    (forall t,
        total = Some t -> PrimFloat.ltb 0%float t = true ->
        PuppyProgress.progress_handler progress total message c
        = (inr tt,
           mkState (stdin c)
             (stdout c ++
                [("[Progress] "
                  +:+ (Py.format_0f (PrimFloat.mul (PrimFloat.div progress t) 100%float) +:+ "%")
                  +:+ puppy_part) +:+ Py.nl]))) /\
    (match total with Some t => PrimFloat.ltb 0%float t | None => false end = false ->
     Spec.is_number progress = true ->
     exists n,
       Py.int_of_float progress = inr n /\
       PuppyProgress.progress_handler progress total message c
       = (inr tt,
          mkState (stdin c)
            (stdout c ++ [("[Progress] " +:+ Py.str_int n +:+ puppy_part) +:+ Py.nl]))) /\
    (match total with Some t => PrimFloat.ltb 0%float t | None => false end = false ->
     Spec.is_number progress = false ->
     exists e,
       Py.int_of_float progress = inl e /\
       PuppyProgress.progress_handler progress total message c = (inl e, c)).
Proof.
  intros progress total message c msg_part puppy_part.
  unfold NetflixProgress.progress_handler, PuppyProgress.progress_handler, percent_str.
  fold msg_part. fold puppy_part.
  repeat split.
  - intros t -> Ht. rewrite Ht. reflexivity.
  - intros Hno Hnum.
    destruct (int_of_float_number progress Hnum) as [n Hn]. exists n.
    split; [exact Hn|]. rewrite Hn.
    destruct total as [t|]; [rewrite Hno|]; reflexivity.
  - intros Hno Hnan.
    destruct (int_of_float_not_number progress Hnan) as [e He]. exists e.
    split; [exact He|]. rewrite He.
    destruct total as [t|]; [rewrite Hno|]; reflexivity.
  - intros t -> Ht. rewrite Ht. reflexivity.
  - intros Hno Hnum.
    destruct (int_of_float_number progress Hnum) as [n Hn]. exists n.
    split; [exact Hn|]. rewrite Hn.
    destruct total as [t|]; [rewrite Hno|]; reflexivity.
  - intros Hno Hnan.
    destruct (int_of_float_not_number progress Hnan) as [e He]. exists e.
    split; [exact He|]. rewrite He.
    destruct total as [t|]; [rewrite Hno|]; reflexivity.
Qed.

Lemma progress_rendering_witness :
  NetflixProgress.progress_handler 3%float (Some 4%float) (Some "Processing movie 3/4")
    (Fixture.typing ["next line"])
  = (inr tt,
     mkState ["next line"]
       ([] ++
          [("[Progress] "
            +:+ (Py.format_0f (PrimFloat.mul (PrimFloat.div 3%float 4%float) 100%float) +:+ "%")
            +:+ " - " +:+ "Processing movie 3/4") +:+ Py.nl]))
  /\ PuppyProgress.progress_handler 3%float (Some 4%float) None
       (Fixture.typing ["next line"])
     = (inr tt,
        mkState ["next line"]
          ([] ++
             [("[Progress] "
               +:+ (Py.format_0f (PrimFloat.mul (PrimFloat.div 3%float 4%float) 100%float) +:+ "%")
               +:+ " - " +:+ "") +:+ Py.nl])).
Proof.
  split.
  - exact (proj1 (progress_rendering 3%float (Some 4%float) (Some "Processing movie 3/4")
                    (Fixture.typing ["next line"]))
                 4%float eq_refl eq_refl).
  - exact (proj1 (proj2 (proj2 (proj2
                    (progress_rendering 3%float (Some 4%float) None
                       (Fixture.typing ["next line"])))))
                 4%float eq_refl eq_refl).
Defined.

(** Both sinks on concrete notifications. *)
Example progress_lines :
  snd (NetflixProgress.progress_handler 3%float (Some 4%float)
         (Some "Processing movie 3/4") (Fixture.typing []))
  = mkState [] ["[Progress] 75% - Processing movie 3/4" +:+ Py.nl] /\
  snd (NetflixProgress.progress_handler 1%float (Some 3%float) None (Fixture.typing []))
  = mkState [] ["[Progress] 33%" +:+ Py.nl] /\
  snd (NetflixProgress.progress_handler 2.75%float None None (Fixture.typing []))
  = mkState [] ["[Progress] 2" +:+ Py.nl] /\
  snd (NetflixProgress.progress_handler 1%float (Some 8%float) None (Fixture.typing []))
  = mkState [] ["[Progress] 12%" +:+ Py.nl] /\
  snd (PuppyProgress.progress_handler 1%float (Some 2%float)
         (Some "Multiplier resolved") (Fixture.typing []))
  = mkState [] ["[Progress] 50% - Multiplier resolved" +:+ Py.nl] /\
  snd (PuppyProgress.progress_handler 5%float (Some 0%float) None (Fixture.typing []))
  = mkState [] ["[Progress] 5 - " +:+ Py.nl].
Proof. repeat split; reflexivity. Qed.

(** C8, as stated, fails: a notification whose [progress] is infinite and
    whose [total] is absent makes the sink raise [OverflowError], and a NaN
    makes it raise [ValueError]; nothing is written. *)
Lemma progress_handler_raises :
  NetflixProgress.progress_handler PrimFloat.infinity None None (Fixture.typing [])
  = (inl (Py.mkExc "OverflowError" "cannot convert float infinity to integer"),
     Fixture.typing []) /\
  PuppyProgress.progress_handler PrimFloat.nan (Some 0%float) (Some "Resolving breed")
    (Fixture.typing [])
  = (inl (Py.mkExc "ValueError" "cannot convert float NaN to integer"),
     Fixture.typing []).
Proof. split; reflexivity. Qed.

(** ** Favorites *)
Section FavoritesFacts.

Variable by_id : Z -> option Server.Movie.
Variable by_title : string -> option Server.Movie.

#[local] Abbreviation add_to_favorites := (Server.add_to_favorites by_id by_title).
#[local] Abbreviation target := (Spec.target by_id by_title).

Lemma listed_existsb (movie : Server.Movie) (favorites : list Server.Favorite) :
  existsb (fun fav => Server.fav_id fav =? Server.id movie) favorites = true <->
  In (Server.id movie) (map Server.fav_id favorites).
Proof.
  rewrite existsb_exists, in_map_iff. split.
  - intros (fav & Hin & Heq). apply Z.eqb_eq in Heq. eauto.
  - intros (fav & Heq & Hin). exists fav. split; [exact Hin | apply Z.eqb_eq; exact Heq].
Qed.

Lemma add_to_favorites_keeps_distinct title movie_id state :
  NoDup (map Server.fav_id (Spec.favorites_of state)) ->
  NoDup (map Server.fav_id (Spec.favorites_of (snd (add_to_favorites title movie_id state)))).
Proof.
  intros Hnd. unfold Server.add_to_favorites.
  destruct (negb (Py.truthy_opt_str title) && negb (Py.truthy_opt_int movie_id));
    [exact Hnd|].
  destruct (if Py.truthy_opt_int movie_id then _ else _) as [movie|]; [|exact Hnd].
  fold (Spec.favorites_of state).
  destruct (existsb _ (Spec.favorites_of state)) eqn:Hex; [exact Hnd|].
  simpl. unfold Spec.favorites_of at 1. rewrite lookup_insert_eq. simpl.
  rewrite map_app. simpl.
  apply NoDup_app. split; [exact Hnd|]. split.
  - intros x Hx Hx'. apply list_elem_of_In in Hx.
    apply list_elem_of_singleton in Hx'. subst x.
    apply listed_existsb in Hx. congruence.
  - apply NoDup_singleton.
Qed.

Lemma session_keeps_distinct calls :
  forall state,
    NoDup (map Server.fav_id (Spec.favorites_of state)) ->
    NoDup (map Server.fav_id
             (Spec.favorites_of (Server.session by_id by_title calls state))).
Proof.
  induction calls as [|[title movie_id] calls IH]; intros state Hnd; simpl; [exact Hnd|].
  apply IH, add_to_favorites_keeps_distinct, Hnd.
Qed.

(** C10. When the favorites of the session already hold an entry with the
    id of the movie the tool looks up, [add_to_favorites] returns the
    already-in-favorites message and leaves the session state as it is, not
    writing it; and in a session that starts without favorites, whatever
    the calls, no two entries of the favorites have the same id. *)
Theorem add_to_favorites_idempotent :
  forall (title : option string) (movie_id : option Z)
         (state : gmap string (list Server.Favorite)),
    (forall movie favorites,
        Py.truthy_opt_str title || Py.truthy_opt_int movie_id = true ->
        target title movie_id = Some movie ->
        state !! "favorites" = Some favorites ->
        In (Server.id movie) (map Server.fav_id favorites) ->
        add_to_favorites title movie_id state
        = (inr ("'" +:+ Server.title movie +:+ "' is already in your favorites"), state)) /\
    (forall calls,
        NoDup (map Server.fav_id
                 (Spec.favorites_of (Server.session by_id by_title calls ∅)))).
Proof.
  intros title movie_id state. split.
  - intros movie favorites Hargs Hmovie Hstate Hin.
    unfold Server.add_to_favorites. unfold Spec.target in Hmovie.
    replace (negb (Py.truthy_opt_str title) && negb (Py.truthy_opt_int movie_id))
      with false.
    2:{ symmetry. rewrite <- negb_orb, Hargs. reflexivity. }
    rewrite Hmovie, Hstate. simpl.
    apply listed_existsb in Hin. rewrite Hin. reflexivity.
  - intros calls. apply session_keeps_distinct. constructor.
Qed.

End FavoritesFacts.

Lemma add_to_favorites_idempotent_witness :
  Server.add_to_favorites Fixture.by_id Fixture.by_title None (Some 1)
    (<["favorites" := [Server.mkFavorite 2 "Extraction 2"; Server.mkFavorite 1 "Glass Onion"]]> ∅)
  = (inr ("'" +:+ "Glass Onion" +:+ "' is already in your favorites"),
     <["favorites" := [Server.mkFavorite 2 "Extraction 2"; Server.mkFavorite 1 "Glass Onion"]]> ∅).
Proof.
  exact (proj1 (add_to_favorites_idempotent Fixture.by_id Fixture.by_title None (Some 1)
                  (<["favorites" := [Server.mkFavorite 2 "Extraction 2";
                                     Server.mkFavorite 1 "Glass Onion"]]> ∅))
               (Server.mkMovie 1 "Glass Onion")
               [Server.mkFavorite 2 "Extraction 2"; Server.mkFavorite 1 "Glass Onion"]
               eq_refl eq_refl eq_refl (or_intror (or_introl eq_refl))).
Defined.

(** A session on the two-row table: the second request for Glass Onion, by
    title this time, changes nothing. *)
Example session_favorites :
  Server.get_favorites
    (Server.session Fixture.by_id Fixture.by_title
       [(None, Some 1); (Some "Extraction 2", None); (Some "glass onion", None); (None, Some 7)]
       ∅)
  = (2, [Server.mkFavorite 1 "Glass Onion"; Server.mkFavorite 2 "Extraction 2"]) /\
  fst (Server.add_to_favorites Fixture.by_id Fixture.by_title None (Some 2)
         (<["favorites" := [Server.mkFavorite 1 "Glass Onion"]]> ∅))
  = inr "Added 'Extraction 2' to favorites. You now have 2 favorite(s).".
Proof. split; vm_compute; reflexivity. Qed.

(** * Further properties of the code *)

(** ** The conversation loop beyond the claims *)
Section MoreLoop.

Context {World Json : Type}.
Variable create : World -> list Message -> (Py.Exc + AssistantMessage) * World.
Variable json_loads : string -> Py.Exc + Json.
Variable call_tool : World -> string -> Json -> (Py.Exc + CallToolResult) * World.
Variable result_text : CallToolResult -> string.

#[local] Abbreviation for_tool_calls := (Loop.for_tool_calls json_loads call_tool result_text).
#[local] Abbreviation chat_loop := (Loop.chat_loop create json_loads call_tool result_text).
#[local] Abbreviation chat := (Loop.chat create json_loads call_tool result_text).
#[local] Abbreviation decodes := (Loop.decodes json_loads).

Lemma for_tool_calls_tool_messages calls :
  forall w flow ms w',
    for_tool_calls w calls = (flow, ms, w') ->
    Forall (fun m => More.loop_message m = true) ms.
Proof.
  intros w flow ms w' H.
  destruct (for_tool_calls_prefix json_loads call_tool result_text calls _ _ _ _ H)
    as (done & todo & _ & HF & _).
  clear H. induction HF as [|c m done ms [text ->] _ IH]; constructor; auto.
Qed.

Lemma chat_loop_appends (fuel : nat) :
  forall w h,
    exists more,
      Loop.messages_after (chat_loop fuel w h) = h ++ more /\
      Forall (fun m => More.loop_message m = true) more.
Proof.
  induction fuel as [|fuel IH]; intros w h; simpl.
  - exists []. rewrite app_nil_r. split; [reflexivity | constructor].
  - destruct (create w h) as [[e|am] w1]; simpl.
    + exists []. rewrite app_nil_r. split; [reflexivity | constructor].
    + destruct (Py.truthy_opt_list (am_tool_calls am)); simpl.
      * destruct (for_tool_calls w1 (default [] (am_tool_calls am)))
          as [[flow ms] w2] eqn:Hfor.
        pose proof (for_tool_calls_tool_messages _ _ _ _ _ Hfor) as Hms.
        destruct flow as [e|]; simpl.
        { exists ([AssistantMsg am] ++ ms). rewrite app_assoc. split; [reflexivity|].
          constructor; [reflexivity | exact Hms]. }
        destruct (IH w2 ((h ++ [AssistantMsg am]) ++ ms)) as (more & -> & Hmore).
        exists ([AssistantMsg am] ++ ms ++ more). rewrite !app_assoc. split; [reflexivity|].
        rewrite <- app_assoc. constructor; [reflexivity|].
        apply Forall_app. split; assumption.
      * exists [AssistantMsg am]. split; [reflexivity | repeat constructor].
Qed.

(** X1. [chat] only appends: whatever the LLM and the tools do, and however
    the call ends, [messages] afterwards is the list it was given, then the
    user's question, then assistant and tool messages only. *)
Theorem chat_only_appends :
  forall (fuel : nat) (user_question : string) (w : World) (messages : list Message),
    exists more,
      Loop.messages_after (chat fuel user_question w messages)
        = messages ++ UserMsg user_question :: more /\
      Forall (fun m => More.loop_message m = true) more.
Proof.
  intros fuel q w h. unfold Loop.chat.
  destruct (chat_loop_appends fuel w (h ++ [UserMsg q])) as (more & -> & Hmore).
  exists more. rewrite <- app_assoc. split; [reflexivity | exact Hmore].
Qed.

Lemma chat_loop_insistent (fuel : nat) :
  (forall w h, exists am w1 c rest,
      create w h = (inr am, w1) /\ am_tool_calls am = Some (c :: rest) /\
      forallb decodes (c :: rest) = true) ->
  forall w h,
    Loop.outcome (chat_loop fuel w h) = Diverges /\
    length (Loop.requests (chat_loop fuel w h)) = fuel.
Proof.
  intros Hllm. induction fuel as [|fuel IH]; intros w h; [split; reflexivity|].
  destruct (Hllm w h) as (am & w1 & c & rest & Hc & Htc & Hdec).
  destruct (for_tool_calls_decoded json_loads call_tool result_text (c :: rest) w1 Hdec)
    as (ms & w2 & Hfor & _).
  rewrite (chat_loop_round create json_loads call_tool result_text fuel w h am w1 ms w2);
    [| exact Hc | rewrite Htc; reflexivity | rewrite Htc; exact Hfor].
  destruct (IH w2 ((h ++ [AssistantMsg am]) ++ ms)) as [Ho Hn].
  simpl. rewrite Ho, Hn. split; reflexivity.
Qed.

(** X2. The loop has no cap on the rounds of tool calls: with an LLM that
    answers every completion with tool-call requests whose arguments
    decode, [chat] never returns and never raises; however many rounds it
    is given, it has used them all requesting completions. *)
Theorem chat_has_no_round_limit :
  (forall w h, exists am w1 c rest,
      create w h = (inr am, w1) /\ am_tool_calls am = Some (c :: rest) /\
      forallb decodes (c :: rest) = true) ->
  forall (fuel : nat) (user_question : string) (w : World) (messages : list Message),
    Loop.outcome (chat fuel user_question w messages) = Diverges /\
    length (Loop.requests (chat fuel user_question w messages)) = fuel.
Proof.
  intros Hllm fuel q w h. unfold Loop.chat. apply chat_loop_insistent. exact Hllm.
Qed.

End MoreLoop.

Lemma chat_has_no_round_limit_witness :
  Loop.outcome (Netflix.chat More.insistent Fixture.json_loads Fixture.call_tool 7
                  "top movies" 0%nat [Netflix.system_message]) = Diverges /\
  length (Loop.requests (Netflix.chat More.insistent Fixture.json_loads Fixture.call_tool 7
                           "top movies" 0%nat [Netflix.system_message])) = 7%nat.
Proof.
  exact (chat_has_no_round_limit More.insistent Fixture.json_loads Fixture.call_tool
           Netflix.result_text
           (fun w h => ex_intro _ Fixture.two_calls
              (ex_intro _ (S w)
                 (ex_intro _ (mkToolCall "a" "get_top_movies" "{}")
                    (ex_intro _ [mkToolCall "b" "add_to_favorites" "{}"]
                       (conj eq_refl (conj eq_refl eq_refl))))))
           7%nat "top movies" 0%nat [Netflix.system_message]).
Defined.

(** ** The REPLs beyond the claims *)
Section MoreRepl.

Context {World Json : Type}.
Variable create : World -> list Message -> (Py.Exc + AssistantMessage) * World.
Variable json_loads : string -> Py.Exc + Json.
Variable call_tool : World -> string -> Json -> (Py.Exc + CallToolResult) * World.
Variable str : CallToolResult -> string.
Variable MAX_HISTORY : Z.

#[local] Abbreviation netflix_repl := (Netflix.repl create json_loads call_tool MAX_HISTORY).
#[local] Abbreviation netflix_iteration :=
  (Netflix.repl_iteration create json_loads call_tool MAX_HISTORY).
#[local] Abbreviation puppy_repl := (Puppy.repl create json_loads call_tool str MAX_HISTORY).
#[local] Abbreviation puppy_iteration :=
  (Puppy.repl_iteration create json_loads call_tool str MAX_HISTORY).

Lemma netflix_repl_app fuel pre post :
  forall h w,
    netflix_repl fuel (pre ++ post) h w =
      match netflix_repl fuel pre h w with
      | (AtPrompt, h', w') => netflix_repl fuel post h' w'
      | stopped => stopped
      end.
Proof.
  induction pre as [|t pre IH]; intros h w; simpl; [reflexivity|].
  destruct (netflix_iteration fuel t h w); try reflexivity. apply IH.
Qed.

(** X3. In the Netflix REPL a line that is empty or blank changes nothing
    and asks the LLM nothing: dropping it from what is typed, wherever it
    stands, gives the same run. *)
Theorem netflix_blank_line_is_skipped :
  forall (fuel : nat) (pre post : list Typed) (l : string)
         (messages : list Message) (w : World),
    Py.strip l = EmptyString ->
    netflix_repl fuel (pre ++ Line l :: post) messages w
      = netflix_repl fuel (pre ++ post) messages w.
Proof.
  intros fuel pre post l h w Hblank.
  rewrite !netflix_repl_app.
  destruct (netflix_repl fuel pre h w) as [[[] h'] w']; try reflexivity.
  simpl. unfold Netflix.repl_iteration. rewrite Hblank. reflexivity.
Qed.

(** X4. In the Netflix REPL the command clear, in any letter case and with
    blanks around it, replaces [messages] by the list of its first element
    and goes on with the next line, without a completion. *)
Theorem netflix_clear_resets :
  forall (fuel : nat) (l : string) (rest : list Typed)
         (first : Message) (others : list Message) (w : World),
    Py.lower (Py.strip l) = "clear" ->
    netflix_repl fuel (Line l :: rest) (first :: others) w
      = netflix_repl fuel rest [first] w.
Proof.
  intros fuel l rest first others w Hclear.
  simpl. unfold Netflix.repl_iteration. rewrite Hclear.
  destruct (Py.strip l) as [|c s]; [discriminate|]. reflexivity.
Qed.

(** X5. In the Netflix REPL the commands quit, exit and q, in any letter
    case and with blanks around them, end the loop at once: no completion
    is requested and the lines after them are not read. *)
Theorem netflix_quit_stops :
  forall (fuel : nat) (l : string) (rest : list Typed)
         (messages : list Message) (w : World),
    In (Py.lower (Py.strip l)) ["quit"; "exit"; "q"] ->
    netflix_repl fuel (Line l :: rest) messages w = (Exited, messages, w).
Proof.
  intros fuel l rest h w Hin.
  assert (Hstep : netflix_iteration fuel (Line l) h w = Break).
  { unfold Netflix.repl_iteration.
    assert (Hne : Py.truthy_str (Py.strip l) = true).
    { destruct (Py.strip l); [|reflexivity].
      simpl in Hin. destruct Hin as [H|[H|[H|[]]]]; discriminate. }
    assert (Hex : existsb (String.eqb (Py.lower (Py.strip l))) ["quit"; "exit"; "q"] = true).
    { apply existsb_exists. exists (Py.lower (Py.strip l)).
      split; [exact Hin | apply String.eqb_refl]. }
    rewrite Hne, Hex. reflexivity. }
  cbn [Netflix.repl]. rewrite Hstep. reflexivity.
Qed.

(** X6. An exception out of [chat] ends either REPL, whatever was typed
    after the line: a [KeyboardInterrupt] as the normal exit, any other
    exception (a failed completion request, arguments that do not decode)
    by leaving [run_repl] with it. The line is one of ASCII characters. *)
Theorem exception_ends_the_repl :
  forall (fuel : nat) (l : string) (rest : list Typed)
         (messages : list Message) (w : World) (e : Py.Exc),
    Py.is_ascii l = true ->
    (Py.truthy_str (Py.strip l) = true ->
     existsb (String.eqb (Py.lower (Py.strip l))) ["quit"; "exit"; "q"] = false ->
     String.eqb (Py.lower (Py.strip l)) "clear" = false ->
     Loop.outcome (Netflix.chat create json_loads call_tool fuel (Py.strip l) w messages)
       = Raises e ->
     fst (fst (netflix_repl fuel (Line l :: rest) messages w))
       = if Py.is_keyboard_interrupt e then Exited else Crashed e) /\
    (Loop.outcome (Puppy.chat create json_loads call_tool str fuel (Py.strip l) w messages)
       = Raises e ->
     fst (fst (puppy_repl fuel (Line l :: rest) messages w))
       = if Py.is_keyboard_interrupt e then Exited else Crashed e).
Proof.
  intros fuel l rest h w e _. split.
  - intros Hne Hquit Hclear Hraise. cbn [Netflix.repl].
    unfold Netflix.repl_iteration, Netflix.turn.
    rewrite Hne, Hquit, Hclear. simpl negb. cbv iota. rewrite Hraise.
    destruct (Py.is_keyboard_interrupt e); reflexivity.
  - intros Hraise. cbn [Puppy.repl]. unfold Puppy.repl_iteration, Puppy.turn.
    rewrite Hraise. destruct (Py.is_keyboard_interrupt e); reflexivity.
Qed.

Lemma chat_loop_first_request result_text fuel w h :
  hd_error (Loop.requests
              (Loop.chat_loop create json_loads call_tool result_text (S fuel) w h))
  = Some h.
Proof.
  simpl. destruct (create w h) as [[e|am] w1]; [reflexivity|].
  destruct (negb _); [reflexivity|].
  destruct (Loop.for_tool_calls _ _ _ _ _) as [[[e|] ms] w2]; reflexivity.
Qed.

(** X7. The puppy-guide REPL has no commands: whatever line of ASCII
    characters is typed, be it quit, exit or an empty line, the iteration is
    a call of [chat] on the stripped line, whose first completion request
    is [messages] followed by that line as a user message. The iteration
    goes on to the next prompt exactly when the call returns, with the world
    the call left and with what it left in [messages] or the first element
    of that alone; it leaves the loop only on a [KeyboardInterrupt] out of
    the call. *)
Theorem puppy_repl_has_no_commands :
  forall (fuel : nat) (l : string) (messages : list Message) (w : World),
    Py.is_ascii l = true ->
    hd_error (Loop.requests
                (Puppy.chat create json_loads call_tool str (S fuel) (Py.strip l) w messages))
      = Some (messages ++ [UserMsg (Py.strip l)]) /\
    match puppy_iteration (S fuel) (Line l) messages w with
    | Continue messages' w' =>
        (exists a,
            Loop.outcome
              (Puppy.chat create json_loads call_tool str (S fuel) (Py.strip l) w messages)
            = Returns a) /\
        w' = Loop.world_after
               (Puppy.chat create json_loads call_tool str (S fuel) (Py.strip l) w messages) /\
        (messages' = Loop.messages_after
                       (Puppy.chat create json_loads call_tool str (S fuel) (Py.strip l) w
                          messages) \/
         messages' = firstn 1 (Loop.messages_after
                                 (Puppy.chat create json_loads call_tool str (S fuel)
                                    (Py.strip l) w messages)))
    | Break =>
        exists e,
          Loop.outcome
            (Puppy.chat create json_loads call_tool str (S fuel) (Py.strip l) w messages)
          = Raises e /\
          Py.is_keyboard_interrupt e = true
    | Propagates e =>
        Loop.outcome
          (Puppy.chat create json_loads call_tool str (S fuel) (Py.strip l) w messages)
        = Raises e /\
        Py.is_keyboard_interrupt e = false
    | Hangs =>
        Loop.outcome
          (Puppy.chat create json_loads call_tool str (S fuel) (Py.strip l) w messages)
        = Diverges
    end.
Proof.
  intros fuel l h w _. split; [apply chat_loop_first_request|].
  unfold Puppy.repl_iteration, Puppy.turn.
  destruct (chat_extends create json_loads call_tool str (S fuel) (Py.strip l) w h)
    as [more Hafter].
  unfold Puppy.chat.
  destruct (Loop.outcome _) as [a|e|] eqn:Hout.
  - unfold bound_history. rewrite Hafter.
    destruct (_ >? _).
    + destruct h as [|m ms]; simpl;
        (split; [exists a; reflexivity | split; [reflexivity | right; reflexivity]]).
    + split; [exists a; reflexivity | split; [reflexivity | left; reflexivity]].
  - destruct (Py.is_keyboard_interrupt e) eqn:Hki.
    + exists e. split; [reflexivity | exact Hki].
    + split; [reflexivity | exact Hki].
  - reflexivity.
Qed.

End MoreRepl.

Lemma netflix_blank_line_is_skipped_witness :
  Netflix.repl (Fixture.create [Fixture.plain "Hi!"; Fixture.plain "Bye!"])
    Fixture.json_loads Fixture.call_tool 10 3
    ([Line "hello"] ++ Line "   " :: [Line "bye"]) [Netflix.system_message] 0%nat
  = Netflix.repl (Fixture.create [Fixture.plain "Hi!"; Fixture.plain "Bye!"])
      Fixture.json_loads Fixture.call_tool 10 3
      ([Line "hello"] ++ [Line "bye"]) [Netflix.system_message] 0%nat.
Proof.
  exact (netflix_blank_line_is_skipped
           (Fixture.create [Fixture.plain "Hi!"; Fixture.plain "Bye!"])
           Fixture.json_loads Fixture.call_tool 10 3%nat
           [Line "hello"] [Line "bye"] "   " [Netflix.system_message] 0%nat eq_refl).
Defined.

Lemma netflix_clear_resets_witness :
  Netflix.repl (Fixture.create [Fixture.plain "Hi!"]) Fixture.json_loads Fixture.call_tool
    10 3 (Line "  CLEAR " :: [Line "hello"])
    (Netflix.system_message :: [UserMsg "old"; AssistantMsg (Fixture.plain "older")]) 0%nat
  = Netflix.repl (Fixture.create [Fixture.plain "Hi!"]) Fixture.json_loads Fixture.call_tool
      10 3 [Line "hello"] [Netflix.system_message] 0%nat.
Proof.
  exact (netflix_clear_resets (Fixture.create [Fixture.plain "Hi!"]) Fixture.json_loads
           Fixture.call_tool 10 3%nat "  CLEAR " [Line "hello"] Netflix.system_message
           [UserMsg "old"; AssistantMsg (Fixture.plain "older")] 0%nat eq_refl).
Defined.

Lemma netflix_quit_stops_witness :
  Netflix.repl (Fixture.create [Fixture.plain "Hi!"]) Fixture.json_loads Fixture.call_tool
    10 3 (Line " Exit" :: [Line "hello"]) [Netflix.system_message] 0%nat
  = (Exited, [Netflix.system_message], 0%nat).
Proof.
  exact (netflix_quit_stops (Fixture.create [Fixture.plain "Hi!"]) Fixture.json_loads
           Fixture.call_tool 10 3%nat " Exit" [Line "hello"] [Netflix.system_message] 0%nat
           (or_intror (or_introl eq_refl))).
Defined.

Lemma exception_ends_the_repl_witness :
  fst (fst (Netflix.repl (Fixture.create [Fixture.truncated_arguments]) Fixture.json_loads
              Fixture.call_tool 10 3 (Line "add it" :: [Line "hello"])
              [Netflix.system_message] 0%nat))
  = Crashed (Py.mkExc "JSONDecodeError"
               "Expecting property name enclosed in double quotes: line 1 column 2 (char 1)").
Proof.
  exact (proj1 (exception_ends_the_repl (Fixture.create [Fixture.truncated_arguments])
                  Fixture.json_loads Fixture.call_tool Fixture.str_result 10 3%nat
                  "add it" [Line "hello"] [Netflix.system_message] 0%nat
                  (Py.mkExc "JSONDecodeError"
                     "Expecting property name enclosed in double quotes: line 1 column 2 (char 1)")
                  eq_refl)
               eq_refl eq_refl eq_refl eq_refl).
Defined.

Lemma puppy_repl_has_no_commands_witness :
  hd_error (Loop.requests
              (Puppy.chat (Fixture.create [Fixture.plain "Hi!"]) Fixture.json_loads
                 Fixture.call_tool Fixture.str_result 3 (Py.strip " quit") 0%nat
                 [SystemMsg None]))
    = Some ([SystemMsg None] ++ [UserMsg (Py.strip " quit")]) /\
  ((exists a,
       Loop.outcome
         (Puppy.chat (Fixture.create [Fixture.plain "Hi!"]) Fixture.json_loads
            Fixture.call_tool Fixture.str_result 3 (Py.strip " quit") 0%nat
            [SystemMsg None])
       = Returns a) /\
   1%nat = Loop.world_after
             (Puppy.chat (Fixture.create [Fixture.plain "Hi!"]) Fixture.json_loads
                Fixture.call_tool Fixture.str_result 3 (Py.strip " quit") 0%nat
                [SystemMsg None]) /\
   ([SystemMsg None; UserMsg "quit"; AssistantMsg (Fixture.plain "Hi!")]
    = Loop.messages_after
        (Puppy.chat (Fixture.create [Fixture.plain "Hi!"]) Fixture.json_loads
           Fixture.call_tool Fixture.str_result 3 (Py.strip " quit") 0%nat
           [SystemMsg None]) \/
    [SystemMsg None; UserMsg "quit"; AssistantMsg (Fixture.plain "Hi!")]
    = firstn 1 (Loop.messages_after
                  (Puppy.chat (Fixture.create [Fixture.plain "Hi!"]) Fixture.json_loads
                     Fixture.call_tool Fixture.str_result 3 (Py.strip " quit") 0%nat
                     [SystemMsg None])))).
Proof.
  exact (puppy_repl_has_no_commands (Fixture.create [Fixture.plain "Hi!"])
           Fixture.json_loads Fixture.call_tool Fixture.str_result 10 2%nat
           " quit" [SystemMsg None] 0%nat eq_refl).
Defined.

(** ** Favorites beyond the claim *)
Section MoreFavorites.

Variable by_id : Z -> option Server.Movie.
Variable by_title : string -> option Server.Movie.

#[local] Abbreviation add_to_favorites := (Server.add_to_favorites by_id by_title).
#[local] Abbreviation target := (Spec.target by_id by_title).

Lemma not_listed_existsb (movie : Server.Movie) (favorites : list Server.Favorite) :
  ~ In (Server.id movie) (map Server.fav_id favorites) ->
  existsb (fun fav => Server.fav_id fav =? Server.id movie) favorites = false.
Proof.
  intros Hnot.
  destruct (existsb _ favorites) eqn:Hex; [|reflexivity].
  apply listed_existsb in Hex. contradiction.
Qed.

(** X8. Adding a movie that is not yet a favorite and reading the list
    back: [add_to_favorites] reports the new count, and [get_favorites]
    then gives the former list followed by the entry of that movie, one
    longer; the other keys of the session state are untouched. *)
Theorem add_then_get_favorites :
  forall (title : option string) (movie_id : option Z)
         (state : gmap string (list Server.Favorite)) (movie : Server.Movie),
    Py.truthy_opt_str title || Py.truthy_opt_int movie_id = true ->
    target title movie_id = Some movie ->
    ~ In (Server.id movie) (map Server.fav_id (Spec.favorites_of state)) ->
    let old := Spec.favorites_of state in
    let new := old ++ [Server.mkFavorite (Server.id movie) (Server.title movie)] in
    fst (add_to_favorites title movie_id state)
      = inr ("Added '" +:+ Server.title movie +:+ "' to favorites. You now have "
             +:+ Py.str_int (Z.of_nat (length old) + 1) +:+ " favorite(s).") /\
    Server.get_favorites (snd (add_to_favorites title movie_id state))
      = (Z.of_nat (length old) + 1, new) /\
    forall key, key <> "favorites" ->
      snd (add_to_favorites title movie_id state) !! key = state !! key.
Proof.
  intros title movie_id state movie Hargs Hmovie Hnot old new.
  unfold Server.add_to_favorites. unfold Spec.target in Hmovie.
  replace (negb (Py.truthy_opt_str title) && negb (Py.truthy_opt_int movie_id))
    with false by (symmetry; rewrite <- negb_orb, Hargs; reflexivity).
  rewrite Hmovie. fold (Spec.favorites_of state). fold old.
  rewrite (not_listed_existsb movie old Hnot). simpl.
  assert (Hlen : Z.of_nat (length new) = Z.of_nat (length old) + 1).
  { unfold new. rewrite length_app. simpl. lia. }
  fold new. rewrite Hlen. split; [reflexivity|]. split.
  - unfold Server.get_favorites. rewrite lookup_insert_eq. simpl. rewrite Hlen. reflexivity.
  - intros key Hkey. apply lookup_insert_ne. congruence.
Qed.

(** X9. Without a title (absent or empty) and without a movie id, the tool
    raises its usage error before any lookup and leaves the state alone;
    the id 0 counts as no id. *)
Theorem add_to_favorites_needs_an_argument :
  forall (title : option string) (movie_id : option Z)
         (state : gmap string (list Server.Favorite)),
    Py.truthy_opt_str title = false ->
    movie_id = None \/ movie_id = Some 0 ->
    add_to_favorites title movie_id state
      = (inl (Server.ToolError "Must provide either 'title' or 'movie_id'"), state).
Proof.
  intros title movie_id state Htitle Hid.
  unfold Server.add_to_favorites. rewrite Htitle.
  destruct Hid as [-> | ->]; reflexivity.
Qed.

(** X10. A call of [add_to_favorites] that raises has not written the
    session state. *)
Theorem failed_add_leaves_state :
  forall (title : option string) (movie_id : option Z)
         (state : gmap string (list Server.Favorite)) (e : Py.Exc),
    fst (add_to_favorites title movie_id state) = inl e ->
    snd (add_to_favorites title movie_id state) = state.
Proof.
  intros title movie_id state e. unfold Server.add_to_favorites.
  destruct (negb (Py.truthy_opt_str title) && negb (Py.truthy_opt_int movie_id));
    [reflexivity|].
  destruct (if Py.truthy_opt_int movie_id then _ else _) as [movie|]; [|reflexivity].
  destruct (existsb _ _); simpl; [reflexivity | discriminate].
Qed.

Lemma add_to_favorites_extends title movie_id state :
  exists added,
    Spec.favorites_of (snd (add_to_favorites title movie_id state))
      = Spec.favorites_of state ++ added.
Proof.
  unfold Server.add_to_favorites.
  destruct (negb (Py.truthy_opt_str title) && negb (Py.truthy_opt_int movie_id)).
  { exists []. rewrite app_nil_r. reflexivity. }
  destruct (if Py.truthy_opt_int movie_id then _ else _) as [movie|].
  2:{ exists []. rewrite app_nil_r. reflexivity. }
  destruct (existsb _ _); simpl.
  { exists []. rewrite app_nil_r. reflexivity. }
  eexists. unfold Spec.favorites_of at 1. rewrite lookup_insert_eq. reflexivity.
Qed.

(** X11. No call of [add_to_favorites] removes or reorders favorites:
    after any sequence of calls the favorites are the former ones, in their
    order, followed by the added ones. *)
Theorem favorites_only_grow :
  forall (calls : list (option string * option Z))
         (state : gmap string (list Server.Favorite)),
    exists added,
      Spec.favorites_of (Server.session by_id by_title calls state)
        = Spec.favorites_of state ++ added.
Proof.
  induction calls as [|[title movie_id] calls IH]; intros state; simpl.
  - exists []. rewrite app_nil_r. reflexivity.
  - destruct (IH (snd (add_to_favorites title movie_id state))) as [added2 ->].
    destruct (add_to_favorites_extends title movie_id state) as [added1 ->].
    exists (added1 ++ added2). rewrite app_assoc. reflexivity.
Qed.

End MoreFavorites.

Lemma add_then_get_favorites_witness :
  fst (Server.add_to_favorites Fixture.by_id Fixture.by_title (Some "extraction 2") None
         (<["favorites" := [Server.mkFavorite 1 "Glass Onion"]]> ∅))
    = inr ("Added '" +:+ "Extraction 2" +:+ "' to favorites. You now have "
           +:+ Py.str_int (Z.of_nat 1 + 1) +:+ " favorite(s).") /\
  Server.get_favorites
    (snd (Server.add_to_favorites Fixture.by_id Fixture.by_title (Some "extraction 2") None
            (<["favorites" := [Server.mkFavorite 1 "Glass Onion"]]> ∅)))
    = (Z.of_nat 1 + 1,
       [Server.mkFavorite 1 "Glass Onion"] ++ [Server.mkFavorite 2 "Extraction 2"]) /\
  forall key, key <> "favorites" ->
    snd (Server.add_to_favorites Fixture.by_id Fixture.by_title (Some "extraction 2") None
           (<["favorites" := [Server.mkFavorite 1 "Glass Onion"]]> ∅)) !! key
    = (<["favorites" := [Server.mkFavorite 1 "Glass Onion"]]> ∅ : gmap string (list Server.Favorite)) !! key.
Proof.
  refine (add_then_get_favorites Fixture.by_id Fixture.by_title (Some "extraction 2") None
            (<["favorites" := [Server.mkFavorite 1 "Glass Onion"]]> ∅)
            (Server.mkMovie 2 "Extraction 2") eq_refl eq_refl _).
  intros [H|[]]. discriminate H.
Defined.

Lemma add_to_favorites_needs_an_argument_witness :
  Server.add_to_favorites Fixture.by_id Fixture.by_title (Some "") (Some 0) ∅
  = (inl (Server.ToolError "Must provide either 'title' or 'movie_id'"), ∅).
Proof.
  exact (add_to_favorites_needs_an_argument Fixture.by_id Fixture.by_title
           (Some "") (Some 0) ∅ eq_refl (or_intror eq_refl)).
Defined.

Lemma failed_add_leaves_state_witness :
  snd (Server.add_to_favorites Fixture.by_id Fixture.by_title None (Some 7)
         (<["favorites" := [Server.mkFavorite 1 "Glass Onion"]]> ∅))
  = <["favorites" := [Server.mkFavorite 1 "Glass Onion"]]> ∅.
Proof.
  exact (failed_add_leaves_state Fixture.by_id Fixture.by_title None (Some 7)
           (<["favorites" := [Server.mkFavorite 1 "Glass Onion"]]> ∅)
           (Server.ToolError "Movie not found. Use search_movies to find it first.")
           eq_refl).
Defined.

(** ** The schema bridge *)

Lemma get_tools_for_openai_acc {Schema : Type} (tools : list (@Bridge.Tool Schema)) :
  forall acc,
    fold_left
      (fun openai_tools tool =>
         openai_tools ++
           [Bridge.mkOpenAITool "function"
              (Bridge.mkFunction (Bridge.name tool) (Bridge.description tool)
                 (Bridge.inputSchema tool))])
      tools acc
    = acc ++ Bridge.tools_of_comprehension tools.
Proof.
  induction tools as [|t tools IH]; intros acc; simpl.
  - rewrite app_nil_r. reflexivity.
  - rewrite IH, <- app_assoc. reflexivity.
Qed.

(** X12. [get_tools_for_openai] gives one function schema per tool, in the
    order of the tools: the i-th one carries the name, description and
    input schema of the i-th tool under the type function; the loop of the
    two FastMCP clients and the comprehension of [mcp-client] build the
    same list. *)
Theorem get_tools_for_openai_keeps_order :
  forall {Schema : Type} (mcp_tools : list (@Bridge.Tool Schema)),
    Bridge.get_tools_for_openai mcp_tools = Bridge.tools_of_comprehension mcp_tools /\
    length (Bridge.get_tools_for_openai mcp_tools) = length mcp_tools /\
    map (fun t => Bridge.fn_name (Bridge.function t)) (Bridge.get_tools_for_openai mcp_tools)
      = map Bridge.name mcp_tools /\
    forall (i : nat) (tool : Bridge.Tool),
      nth_error mcp_tools i = Some tool ->
      nth_error (Bridge.get_tools_for_openai mcp_tools) i
        = Some (Bridge.mkOpenAITool "function"
                  (Bridge.mkFunction (Bridge.name tool) (Bridge.description tool)
                     (Bridge.inputSchema tool))).
Proof.
  intros Schema tools.
  assert (H : Bridge.get_tools_for_openai tools = Bridge.tools_of_comprehension tools).
  { unfold Bridge.get_tools_for_openai. rewrite get_tools_for_openai_acc. reflexivity. }
  rewrite H. unfold Bridge.tools_of_comprehension.
  split; [reflexivity|]. split; [apply length_map|]. split.
  - rewrite map_map. reflexivity.
  - intros i tool Hi. rewrite nth_error_map, Hi. reflexivity.
Qed.

Lemma get_tools_for_openai_keeps_order_witness :
  nth_error
    (Bridge.get_tools_for_openai
       [Bridge.mkTool "search_movies" (Some "Find a movie by title") "{}";
        Bridge.mkTool "get_favorites" None "{}"]) 1
  = Some (Bridge.mkOpenAITool "function" (Bridge.mkFunction "get_favorites" None "{}")).
Proof.
  exact (proj2 (proj2 (proj2 (get_tools_for_openai_keeps_order
           [Bridge.mkTool "search_movies" (Some "Find a movie by title") "{}";
            Bridge.mkTool "get_favorites" None "{}"])))
         1%nat (Bridge.mkTool "get_favorites" None "{}") eq_refl).
Defined.

(** ** [dog_to_human_age] *)
Section DogAge.

Context {World : Type}.
Variable get_close_matches : string -> list string -> list string.
Variable elicit : World -> string -> list string -> Context.Elicited string * World.
Variable sample : World -> string -> string -> (Py.Exc + option string) * World.
Variable repr : list string -> string.

#[local] Abbreviation resolve_multiplier :=
  (PuppyServer.resolve_multiplier get_close_matches elicit repr).
#[local] Abbreviation dog_to_human_age :=
  (PuppyServer.dog_to_human_age get_close_matches elicit sample repr).

(** Settling the breed sends no progress report and writes no state. *)
Lemma resolve_multiplier_quiet breed c w :
  Context.reports (snd (fst (resolve_multiplier breed c w))) = Context.reports c /\
  Context.state (snd (fst (resolve_multiplier breed c w))) = Context.state c.
Proof.
  unfold PuppyServer.resolve_multiplier.
  destruct (PuppyServer.get_breed_multiplier breed); [split; reflexivity|].
  destruct (get_close_matches _ _) as [|s ss]; [split; reflexivity|].
  destruct (elicit _ _ _) as [[data| |] w']; try (split; reflexivity).
  destruct (dict_get PuppyServer.BREED_MULTIPLIERS data); split; reflexivity.
Qed.

Lemma dog_known_breed :
  forall (age : Z) (breed : string) (name : option string)
         (c : Context.Ctx) (w : World) (multiplier : Z),
    PuppyServer.get_breed_multiplier breed = Some multiplier ->
    let who := if Py.truthy_opt_str name then name
               else Context.state c !! "dog_name" in
    let asked := sample w ("A " +:+ breed +:+ " dog is " +:+ Py.str_int age +:+ " years old")
                   PuppyServer.system_prompt in
    exists tip,
      fst (fst (dog_to_human_age age breed name c w))
        = inr (if Py.truthy_opt_str who
               then default "" who +:+ " is a " +:+ Py.str_int age +:+ "-year-old " +:+ breed
                    +:+ " and is approximately " +:+ Py.str_int (age * multiplier)
                    +:+ " years old in human years. " +:+ "Health tip: " +:+ tip
               else "A " +:+ Py.str_int age +:+ "-year-old " +:+ breed
                    +:+ " is approximately " +:+ Py.str_int (age * multiplier)
                    +:+ " years old in human years. " +:+ "Health tip: " +:+ tip) /\
      snd (dog_to_human_age age breed name c w) = snd asked /\
      (forall e, fst asked = inl e -> tip = "") /\
      (forall text, fst asked = inr (Some text) -> tip = text).
Proof.
  intros age breed name c w multiplier Hknown who asked.
  unfold PuppyServer.dog_to_human_age, PuppyServer.resolve_multiplier.
  rewrite Hknown. subst who asked.
  destruct (Py.truthy_opt_str (Context.state c !! "dog_name")) eqn:Hstored;
    destruct (Py.truthy_opt_str name) eqn:Hname;
    destruct (sample w _ PuppyServer.system_prompt) as [[e|text] w'] eqn:Hs;
    cbn [fst snd]; rewrite ?Hname, ?Hstored;
    first [ exists (if Py.truthy_opt_str text then default "" text else "") | exists "" ];
    (split; [reflexivity|]);
    (split; [reflexivity|]);
    split; intros; try discriminate; try reflexivity;
    match goal with
    | H : inr _ = inr (Some ?t) |- _ => inversion H; subst; destruct t; reflexivity
    end.
Qed.


(** X13. For a breed of the table, whatever its letter case,
    [dog_to_human_age] returns: the answer gives [age] times the breed's
    multiplier, [ctx.elicit] is not consulted, and a sampling request that
    raises only leaves the health tip empty. *)
Theorem known_breed_always_answers :
  forall (age : Z) (breed : string) (name : option string)
         (c : Context.Ctx) (w : World) (multiplier : Z),
    PuppyServer.get_breed_multiplier breed = Some multiplier ->
    let who := if Py.truthy_opt_str name then name
               else Context.state c !! "dog_name" in
    let asked := sample w ("A " +:+ breed +:+ " dog is " +:+ Py.str_int age +:+ " years old")
                   PuppyServer.system_prompt in
    exists tip,
      fst (fst (dog_to_human_age age breed name c w))
        = inr (if Py.truthy_opt_str who
               then default "" who +:+ " is a " +:+ Py.str_int age +:+ "-year-old " +:+ breed
                    +:+ " and is approximately " +:+ Py.str_int (age * multiplier)
                    +:+ " years old in human years. " +:+ "Health tip: " +:+ tip
               else "A " +:+ Py.str_int age +:+ "-year-old " +:+ breed
                    +:+ " is approximately " +:+ Py.str_int (age * multiplier)
                    +:+ " years old in human years. " +:+ "Health tip: " +:+ tip) /\
      snd (dog_to_human_age age breed name c w) = snd asked /\
      (forall e, fst asked = inl e -> tip = "") /\
      (forall text, fst asked = inr (Some text) -> tip = text).
Proof. exact dog_known_breed. Qed.

Lemma dog_state_after age breed name c w :
  Context.state (snd (fst (dog_to_human_age age breed name c w)))
  = if Py.truthy_opt_str name
    then <["dog_name" := default "" name]> (Context.state c)
    else Context.state c.
Proof.
  unfold PuppyServer.dog_to_human_age.
  destruct (Py.truthy_opt_str name) eqn:Hname.
  - match goal with
    | |- context [resolve_multiplier breed ?c0 w] =>
        pose proof (resolve_multiplier_quiet breed c0 w) as [_ Hst];
        destruct (resolve_multiplier breed c0 w) as [[[e|[b m]] c1] w1]
    end; cbn [fst snd] in *; [exact Hst|].
    destruct (sample w1 _ _) as [[e|text] w2]; rewrite Hname; cbn; exact Hst.
  - match goal with
    | |- context [resolve_multiplier breed ?c0 w] =>
        pose proof (resolve_multiplier_quiet breed c0 w) as [_ Hst];
        destruct (resolve_multiplier breed c0 w) as [[[e|[b m]] c1] w1]
    end; cbn [fst snd] in *; [exact Hst|].
    destruct (sample w1 _ _) as [[e|text] w2];
      destruct (Py.truthy_opt_str (Context.state c !! "dog_name")); cbn; exact Hst.
Qed.

(** X14. A name given to [dog_to_human_age] is stored under dog_name in the
    session state whether the call then returns or raises; without a name
    (absent or empty) the call leaves the state as it was. *)
Theorem given_name_is_stored :
  forall (age : Z) (breed : string) (name : option string)
         (c : Context.Ctx) (w : World),
    Context.state (snd (fst (dog_to_human_age age breed name c w)))
    = if Py.truthy_opt_str name
      then <["dog_name" := default "" name]> (Context.state c)
      else Context.state c.
Proof. exact dog_state_after. Qed.

(** X15. The name is remembered across calls of one session: after a call
    that gave a name, even one that failed, a later call without a name on
    a breed of the table answers with that name. *)
Theorem name_is_remembered :
  forall (age1 age2 : Z) (breed1 breed2 : string) (n : string) (name2 : option string)
         (c : Context.Ctx) (w : World) (multiplier : Z),
    Py.truthy_str n = true ->
    Py.truthy_opt_str name2 = false ->
    PuppyServer.get_breed_multiplier breed2 = Some multiplier ->
    let first := dog_to_human_age age1 breed1 (Some n) c w in
    exists tip,
      fst (fst (dog_to_human_age age2 breed2 name2 (snd (fst first)) (snd first)))
      = inr (n +:+ " is a " +:+ Py.str_int age2 +:+ "-year-old " +:+ breed2
             +:+ " and is approximately " +:+ Py.str_int (age2 * multiplier)
             +:+ " years old in human years. " +:+ "Health tip: " +:+ tip).
Proof.
  intros age1 age2 breed1 breed2 n name2 c w multiplier Hn Hname2 Hknown first.
  destruct (dog_known_breed age2 breed2 name2 (snd (fst first)) (snd first) multiplier Hknown)
    as (tip & Htext & _).
  assert (Hst : Context.state (snd (fst first)) !! "dog_name" = Some n).
  { unfold first. rewrite dog_state_after. cbn [Py.truthy_opt_str]. rewrite Hn.
    apply lookup_insert_eq. }
  exists tip. rewrite Htext, Hname2, Hst. cbn [Py.truthy_opt_str]. rewrite Hn. reflexivity.
Qed.

(** X16. Every call sends the report 0 of 4 first; a call that returns has
    then sent 1, 2 and 4 of 4, in this order, and nothing else (there is no
    report 3 of 4); a call that raises has sent no further report. *)
Theorem progress_reports_of_a_call :
  forall (age : Z) (breed : string) (name : option string)
         (c : Context.Ctx) (w : World),
    map shown (Context.reports (snd (fst (dog_to_human_age age breed name c w))))
    = map shown (Context.reports c) ++
        match fst (fst (dog_to_human_age age breed name c w)) with
        | inr _ => [(0, 4); (1, 4); (2, 4); (4, 4)]
        | inl _ => [(0, 4)]
        end.
Proof.
  intros age breed name c w.
  unfold PuppyServer.dog_to_human_age.
  destruct (Py.truthy_opt_str name) eqn:Hname;
    match goal with
    | |- context [resolve_multiplier breed ?c0 w] =>
        pose proof (resolve_multiplier_quiet breed c0 w) as [Hrep _];
        destruct (resolve_multiplier breed c0 w) as [[[e|[b m]] c1] w1]
    end; cbn [fst snd] in *.
  - rewrite Hrep. cbn. rewrite map_app. reflexivity.
  - destruct (sample w1 _ _) as [[e|text] w2]; rewrite Hname; cbn; rewrite Hrep; cbn;
      rewrite !map_app, <- !app_assoc; reflexivity.
  - rewrite Hrep. cbn. rewrite map_app. reflexivity.
  - destruct (sample w1 _ _) as [[e|text] w2];
      destruct (Py.truthy_opt_str (Context.state c !! "dog_name"));
      cbn; rewrite Hrep; cbn; rewrite !map_app, <- !app_assoc; reflexivity.
Qed.


(** X17. For a breed outside the table, the call raises [ToolError] when
    there is no close match, without consulting the user, and when the
    user declines or cancels the suggestion; in each case before any
    sampling request. *)
Theorem unknown_breed_is_refused :
  forall (age : Z) (breed : string) (name : option string)
         (c : Context.Ctx) (w : World),
    PuppyServer.get_breed_multiplier breed = None ->
    let suggestions :=
      get_close_matches (Py.lower breed) (map fst PuppyServer.BREED_MULTIPLIERS) in
    let asked :=
      elicit w ("Breed '" +:+ breed +:+ "' not found. Did you mean one of these: "
                +:+ Py.join ", " suggestions +:+ "?") suggestions in
    (suggestions = [] ->
     fst (fst (dog_to_human_age age breed name c w))
       = inl (Server.ToolError
                ("Breed '" +:+ breed +:+ "' not found and no similar breeds found.")) /\
     snd (dog_to_human_age age breed name c w) = w) /\
    (suggestions <> [] -> fst asked = Context.Declined ->
     fst (fst (dog_to_human_age age breed name c w))
       = inl (Server.ToolError
                ("Breed '" +:+ breed +:+ "' not found. User declined to select a suggestion.")) /\
     snd (dog_to_human_age age breed name c w) = snd asked) /\
    (suggestions <> [] -> fst asked = Context.Cancelled ->
     fst (fst (dog_to_human_age age breed name c w))
       = inl (Server.ToolError
                ("Breed '" +:+ breed +:+ "' not found. Operation cancelled by user.")) /\
     snd (dog_to_human_age age breed name c w) = snd asked).
Proof.
  intros age breed name c w Hnone suggestions asked.
  unfold PuppyServer.dog_to_human_age, PuppyServer.resolve_multiplier.
  rewrite Hnone. fold suggestions.
  destruct (Py.truthy_opt_str name); (split; [|split]).
  all: try (intros ->; split; reflexivity).
  all: intros Hsome Hanswer; destruct suggestions as [|s ss] eqn:Hs; [congruence|];
       fold asked; destruct asked as [answer w1]; cbn [fst snd] in Hanswer; subst answer;
       split; reflexivity.
Qed.

(** X18. When the user accepts a suggestion that is in the table, the call
    goes on with the accepted breed: the answer names it and gives [age]
    times its multiplier, not the breed the call was made with. *)
Theorem accepted_suggestion_replaces_breed :
  forall (age : Z) (breed : string) (name : option string)
         (c : Context.Ctx) (w : World) (data : string) (multiplier : Z),
    PuppyServer.get_breed_multiplier breed = None ->
    let suggestions :=
      get_close_matches (Py.lower breed) (map fst PuppyServer.BREED_MULTIPLIERS) in
    let asked :=
      elicit w ("Breed '" +:+ breed +:+ "' not found. Did you mean one of these: "
                +:+ Py.join ", " suggestions +:+ "?") suggestions in
    suggestions <> [] ->
    fst asked = Context.Accepted data ->
    dict_get PuppyServer.BREED_MULTIPLIERS data = Some multiplier ->
    let who := if Py.truthy_opt_str name then name
               else Context.state c !! "dog_name" in
    exists tip,
      fst (fst (dog_to_human_age age breed name c w))
      = inr (if Py.truthy_opt_str who
             then default "" who +:+ " is a " +:+ Py.str_int age +:+ "-year-old " +:+ data
                  +:+ " and is approximately " +:+ Py.str_int (age * multiplier)
                  +:+ " years old in human years. " +:+ "Health tip: " +:+ tip
             else "A " +:+ Py.str_int age +:+ "-year-old " +:+ data
                  +:+ " is approximately " +:+ Py.str_int (age * multiplier)
                  +:+ " years old in human years. " +:+ "Health tip: " +:+ tip).
Proof.
  intros age breed name c w data multiplier Hnone suggestions asked Hsome Hanswer Hm who.
  unfold PuppyServer.dog_to_human_age, PuppyServer.resolve_multiplier.
  rewrite Hnone. fold suggestions. subst who.
  destruct suggestions as [|s ss] eqn:Hs; [congruence|].
  fold asked. destruct asked as [answer w1]. cbn [fst snd] in Hanswer. subst answer.
  destruct (Py.truthy_opt_str (Context.state c !! "dog_name")) eqn:Hstored;
    destruct (Py.truthy_opt_str name) eqn:Hname;
    rewrite Hm;
    destruct (sample w1 _ PuppyServer.system_prompt) as [[e|text] w2];
    cbn [fst snd]; rewrite ?Hname, ?Hstored;
    eexists; reflexivity.
Qed.

End DogAge.

Lemma known_breed_always_answers_witness :
  exists tip,
    fst (fst (PuppyServer.dog_to_human_age PuppyFixture.get_close_matches
                PuppyFixture.elicit_accept PuppyFixture.sample_fails PuppyFixture.repr
                5 "Labrador" (Some "Rex") PuppyFixture.fresh 0%nat))
      = inr ("Rex" +:+ " is a " +:+ Py.str_int 5 +:+ "-year-old " +:+ "Labrador"
             +:+ " and is approximately " +:+ Py.str_int (5 * 7)
             +:+ " years old in human years. " +:+ "Health tip: " +:+ tip) /\
    snd (PuppyServer.dog_to_human_age PuppyFixture.get_close_matches
           PuppyFixture.elicit_accept PuppyFixture.sample_fails PuppyFixture.repr
           5 "Labrador" (Some "Rex") PuppyFixture.fresh 0%nat)
      = 1%nat /\
    (forall e,
        fst (PuppyFixture.sample_fails 0%nat
               ("A " +:+ "Labrador" +:+ " dog is " +:+ Py.str_int 5 +:+ " years old")
               PuppyServer.system_prompt) = inl e -> tip = "") /\
    (forall text,
        fst (PuppyFixture.sample_fails 0%nat
               ("A " +:+ "Labrador" +:+ " dog is " +:+ Py.str_int 5 +:+ " years old")
               PuppyServer.system_prompt) = inr (Some text) -> tip = text).
Proof.
  exact (known_breed_always_answers PuppyFixture.get_close_matches
           PuppyFixture.elicit_accept PuppyFixture.sample_fails PuppyFixture.repr
           5 "Labrador" (Some "Rex") PuppyFixture.fresh 0%nat 7 eq_refl).
Defined.

Lemma name_is_remembered_witness :
  exists tip,
    fst (fst (PuppyServer.dog_to_human_age PuppyFixture.get_close_matches
                PuppyFixture.elicit_decline PuppyFixture.sample PuppyFixture.repr
                3 "bulldog" None
                (snd (fst (PuppyServer.dog_to_human_age PuppyFixture.get_close_matches
                             PuppyFixture.elicit_decline PuppyFixture.sample PuppyFixture.repr
                             5 "labrado" (Some "Rex") PuppyFixture.fresh 0%nat)))
                (snd (PuppyServer.dog_to_human_age PuppyFixture.get_close_matches
                        PuppyFixture.elicit_decline PuppyFixture.sample PuppyFixture.repr
                        5 "labrado" (Some "Rex") PuppyFixture.fresh 0%nat))))
    = inr ("Rex" +:+ " is a " +:+ Py.str_int 3 +:+ "-year-old " +:+ "bulldog"
           +:+ " and is approximately " +:+ Py.str_int (3 * 6)
           +:+ " years old in human years. " +:+ "Health tip: " +:+ tip).
Proof.
  exact (name_is_remembered PuppyFixture.get_close_matches
           PuppyFixture.elicit_decline PuppyFixture.sample PuppyFixture.repr
           5 3 "labrado" "bulldog" "Rex" None PuppyFixture.fresh 0%nat 6
           eq_refl eq_refl eq_refl).
Defined.

Lemma unknown_breed_is_refused_witness :
  fst (fst (PuppyServer.dog_to_human_age PuppyFixture.get_close_matches
              PuppyFixture.elicit_accept PuppyFixture.sample PuppyFixture.repr
              5 "poodle" None PuppyFixture.fresh 0%nat))
    = inl (Server.ToolError
             ("Breed '" +:+ "poodle" +:+ "' not found and no similar breeds found.")) /\
  snd (PuppyServer.dog_to_human_age PuppyFixture.get_close_matches
         PuppyFixture.elicit_accept PuppyFixture.sample PuppyFixture.repr
         5 "poodle" None PuppyFixture.fresh 0%nat) = 0%nat.
Proof.
  exact (proj1 (unknown_breed_is_refused PuppyFixture.get_close_matches
                  PuppyFixture.elicit_accept PuppyFixture.sample PuppyFixture.repr
                  5 "poodle" None PuppyFixture.fresh 0%nat eq_refl) eq_refl).
Defined.

Lemma accepted_suggestion_replaces_breed_witness :
  exists tip,
    fst (fst (PuppyServer.dog_to_human_age PuppyFixture.get_close_matches
                PuppyFixture.elicit_accept PuppyFixture.sample PuppyFixture.repr
                5 "Labrado" None PuppyFixture.fresh 0%nat))
    = inr ("A " +:+ Py.str_int 5 +:+ "-year-old " +:+ "labrador"
           +:+ " is approximately " +:+ Py.str_int (5 * 7)
           +:+ " years old in human years. " +:+ "Health tip: " +:+ tip).
Proof.
  refine (accepted_suggestion_replaces_breed PuppyFixture.get_close_matches
            PuppyFixture.elicit_accept PuppyFixture.sample PuppyFixture.repr
            5 "Labrado" None PuppyFixture.fresh 0%nat "labrador" 7
            eq_refl _ eq_refl eq_refl).
  discriminate.
Defined.

(** The test of the repository: labrador at 5 answers 35; poodle fails. *)
Example puppy_server_test :
  fst (fst (PuppyServer.dog_to_human_age PuppyFixture.get_close_matches
              PuppyFixture.elicit_accept PuppyFixture.sample PuppyFixture.repr
              5 "labrador" None PuppyFixture.fresh 0%nat))
  = inr ("A 5-year-old labrador is approximately 35 years old in human years. "
         +:+ "Health tip: Keep walks short and regular.") /\
  fst (fst (PuppyServer.dog_to_human_age PuppyFixture.get_close_matches
              PuppyFixture.elicit_accept PuppyFixture.sample PuppyFixture.repr
              5 "poodle" None PuppyFixture.fresh 0%nat))
  = inl (Server.ToolError "Breed 'poodle' not found and no similar breeds found.").
Proof. split; reflexivity. Qed.

(** ** [search_movies] and [get_top_movies] *)
Section MoreSearch.

Context {World : Type}.
Variable query_ilike : string -> list NetflixTools.Row.
Variable elicit_bool : World -> string -> (Py.Exc + Context.Elicited bool) * World.
Variable elicit_int : World -> string -> (Py.Exc + Context.Elicited Z) * World.

#[local] Abbreviation search_movies :=
  (NetflixTools.search_movies query_ilike elicit_bool elicit_int).
#[local] Abbreviation matches := (NetflixTools.matches query_ilike).

(** X19. Whatever the user answers, [search_movies] either returns the
    data of one of the rows it matched (the exact matches, or the partial
    ones when there is no exact match), or raises [ToolError], or fails with
    the exception its call of [ctx.elicit] raised; a number that is not on
    the list never makes it index outside the rows. *)
Theorem search_movies_returns_a_match :
  forall (title : string) (w : World),
    match fst (search_movies title w) with
    | inr found =>
        exists movie, In movie (matches title) /\ found = NetflixTools.found_of movie
    | inl e =>
        Py.exc_type e = "ToolError" \/
        exists message,
          fst (elicit_bool w message) = inl e \/ fst (elicit_int w message) = inl e
    end.
Proof.
  intros title w. unfold NetflixTools.search_movies.
  destruct (matches title) as [|m1 [|m2 rest]] eqn:Hm.
  - left. reflexivity.
  - match goal with
    | |- context [elicit_bool w ?msg] =>
        destruct (elicit_bool w msg) as [[e|[[|]| |]] w1] eqn:Hask
    end; cbn [fst]; try (left; reflexivity).
    + right. eexists. left. rewrite Hask. reflexivity.
    + exists m1. split; [left; reflexivity | reflexivity].
  - match goal with
    | |- context [elicit_int w ?msg] =>
        destruct (elicit_int w msg) as [[e|[choice| |]] w1] eqn:Hask
    end; cbn [fst]; try (left; reflexivity).
    + right. eexists. right. rewrite Hask. reflexivity.
    + destruct ((1 <=? choice) && (choice <=? Z.of_nat (length (m1 :: m2 :: rest)))) eqn:Hr;
        [|left; reflexivity].
      apply andb_prop in Hr as [H1 H2]. apply Z.leb_le in H1, H2.
      destruct (index_in_range (m1 :: m2 :: rest) (choice - 1)) as (movie & Hi & Hn); [lia|].
      rewrite Hi. cbn [fst]. exists movie. split; [|reflexivity].
      eapply nth_error_In. exact Hn.
Qed.

(** X20. With several matches, the number the user enters selects by
    position, counting from 1: a number from 1 to the number of matches
    returns the data of the match at that position, any other number raises
    the invalid-choice error. *)
Theorem search_movies_choice :
  forall (title : string) (w : World) (first second : NetflixTools.Row)
         (others : list NetflixTools.Row) (choice : Z),
    matches title = first :: second :: others ->
    (forall message, fst (elicit_int w message) = inr (Context.Accepted choice)) ->
    let n := Z.of_nat (length (first :: second :: others)) in
    (1 <= choice <= n ->
     exists movie,
       nth_error (first :: second :: others) (Z.to_nat (choice - 1)) = Some movie /\
       fst (search_movies title w) = inr (NetflixTools.found_of movie)) /\
    (choice < 1 \/ n < choice ->
     fst (search_movies title w)
       = inl (Server.ToolError ("Invalid choice. Enter 1-" +:+ Py.str_int n +:+ "."))).
Proof.
  intros title w first second others choice Hm Hpick n.
  unfold NetflixTools.search_movies. rewrite Hm.
  match goal with
  | |- context [elicit_int w ?msg] =>
      pose proof (Hpick msg) as Hp; destruct (elicit_int w msg) as [answer w1]
  end.
  cbn [fst] in Hp. subst answer. fold n. split.
  - intros Hin.
    replace ((1 <=? choice) && (choice <=? n)) with true
      by (symmetry; apply andb_true_intro; split; apply Z.leb_le; lia).
    destruct (index_in_range (first :: second :: others) (choice - 1))
      as (movie & Hi & Hn); [fold n; lia|].
    rewrite Hi. exists movie. split; [exact Hn | reflexivity].
  - intros Hout.
    replace ((1 <=? choice) && (choice <=? n)) with false; [reflexivity|].
    symmetry. apply andb_false_iff.
    destruct Hout; [left; apply Z.leb_gt | right; apply Z.leb_gt]; lia.
Qed.

End MoreSearch.

Lemma search_movies_choice_witness :
  exists movie,
    nth_error [NetflixFixture.extraction; NetflixFixture.extraction_2] (Z.to_nat (2 - 1))
      = Some movie /\
    fst (NetflixTools.search_movies NetflixFixture.query_ilike (NetflixFixture.says true)
           (NetflixFixture.picks 2) "extraction" 0%nat)
      = inr (NetflixTools.found_of movie).
Proof.
  refine (proj1 (search_movies_choice NetflixFixture.query_ilike (NetflixFixture.says true)
                   (NetflixFixture.picks 2) "extraction" 0%nat
                   NetflixFixture.extraction NetflixFixture.extraction_2 [] 2
                   eq_refl (fun _ => eq_refl)) _).
  simpl. lia.
Defined.

(** Searches on the example table. *)
Example search_examples :
  fst (NetflixTools.search_movies NetflixFixture.query_ilike (NetflixFixture.says true)
         (NetflixFixture.picks 1) "Glass Onion" 0%nat)
  = inr (NetflixTools.mkFound 1 "Glass Onion" (Some "2022-12-23") (Some 139)) /\
  fst (NetflixTools.search_movies NetflixFixture.query_ilike (NetflixFixture.says false)
         (NetflixFixture.picks 1) "Glass Onion" 0%nat)
  = inl NetflixTools.cancelled /\
  fst (NetflixTools.search_movies NetflixFixture.query_ilike (NetflixFixture.says true)
         (NetflixFixture.picks 3) "extraction" 0%nat)
  = inl (Server.ToolError "Invalid choice. Enter 1-2.") /\
  fst (NetflixTools.search_movies NetflixFixture.query_ilike (NetflixFixture.says true)
         (NetflixFixture.picks 1) "zzz" 0%nat)
  = inl (Server.ToolError "No movies found matching 'zzz'.") /\
  fst (NetflixTools.search_movies NetflixFixture.query_ilike (NetflixFixture.says true)
         NetflixFixture.garbles "extraction" 0%nat)
  = inl NetflixFixture.not_a_number.
Proof. repeat split; reflexivity. Qed.

Section MoreRanking.

Variable query_top : bool -> Z -> list NetflixTools.Ranked.

Lemma ranking_loop (metric : string) (n : Z) (rows : list NetflixTools.Ranked) :
  forall (start : Z) (results : list NetflixTools.Entry) (c : Context.Ctx),
    let out :=
      fold_left
        (fun acc ir =>
           let '(results, c) := acc in
           let '(i, r) := ir in
           let c := Context.report_progress i n
                      ("Processing movie " +:+ Py.str_int i +:+ "/" +:+ Py.str_int n) c in
           (results ++
              [NetflixTools.mkEntry (NetflixTools.r_id r) (NetflixTools.r_title r)
                 (NetflixTools.isoformat <$> NetflixTools.r_release_date r)
                 metric (NetflixTools.r_total r)],
            c))
        (enumerate rows start) (results, c) in
    map NetflixTools.e_id (fst out) = map NetflixTools.e_id results ++ map NetflixTools.r_id rows /\
    map NetflixTools.e_metric (fst out)
      = map NetflixTools.e_metric results ++ map (fun _ => metric) rows /\
    map shown (Context.reports (snd out))
      = map shown (Context.reports c)
        ++ map (fun i => (start + Z.of_nat i, n)) (seq 0 (length rows)) /\
    Context.state (snd out) = Context.state c.
Proof.
  induction rows as [|r rows IH]; intros start results c; simpl.
  - rewrite !app_nil_r. repeat split; reflexivity.
  - specialize (IH (start + 1)
        (results ++
           [NetflixTools.mkEntry (NetflixTools.r_id r) (NetflixTools.r_title r)
              (NetflixTools.isoformat <$> NetflixTools.r_release_date r)
              metric (NetflixTools.r_total r)])
        (Context.report_progress start n
           ("Processing movie " +:+ Py.str_int start +:+ "/" +:+ Py.str_int n) c)).
    cbv zeta in IH. destruct IH as (Hid & Hmet & Hrep & Hst).
    rewrite Hid, Hmet, Hrep, Hst. simpl.
    rewrite !map_app, <- !app_assoc. simpl.
    repeat split; try reflexivity.
    f_equal. f_equal.
    + unfold shown. simpl. f_equal. lia.
    + rewrite <- seq_shift, map_map. apply map_ext. intros i. f_equal. lia.
Qed.

(** X21. [get_top_movies] returns one entry per row of the ranking query,
    in the query's order and under the metric asked for, and reports its
    progress as 0 of n, then 1 of n up to k of n, where k is the number of
    rows: when the table has fewer than n ranked movies the last report
    stays below n of n. The session state is not written. *)
Theorem get_top_movies_follows_the_query :
  forall (metric : string) (n : Z) (c : Context.Ctx),
    let rows := query_top (String.eqb metric "hours_viewed") n in
    let out := NetflixTools.get_top_movies query_top metric n c in
    map NetflixTools.e_id (fst out) = map NetflixTools.r_id rows /\
    Forall (fun e => NetflixTools.e_metric e = metric) (fst out) /\
    map shown (Context.reports (snd out))
      = map shown (Context.reports c)
        ++ (0, n) :: map (fun i => (Z.of_nat i, n)) (seq 1 (length rows)) /\
    Context.state (snd out) = Context.state c.
Proof.
  intros metric n c rows out. subst out. unfold NetflixTools.get_top_movies. fold rows.
  pose proof (ranking_loop metric n rows 1 []
                (Context.report_progress 0 n
                   ("Fetching top " +:+ Py.str_int n +:+ " by " +:+ metric +:+ "...") c))
    as (Hid & Hmet & Hrep & Hst).
  cbv zeta in *. split; [exact Hid|]. split; [|split; [|exact Hst]].
  - simpl in Hmet. apply Forall_forall. intros e He. apply list_elem_of_In in He.
    apply (in_map NetflixTools.e_metric) in He. rewrite Hmet in He.
    apply in_map_iff in He as (r & Hr & _). symmetry. exact Hr.
  - rewrite Hrep. simpl. rewrite map_app, <- app_assoc. simpl.
    do 2 f_equal. rewrite <- seq_shift, map_map. apply map_ext. intros i. f_equal. lia.
Qed.

End MoreRanking.

(** Asking for the top 5 of a table with two ranked movies. *)
Example top_movies_example :
  let out := NetflixTools.get_top_movies NetflixFixture.query_top "views" 5
               PuppyFixture.fresh in
  fst out
  = [NetflixTools.mkEntry 1 "Glass Onion" (Some "2022-12-23") "views" (Some 35000000);
     NetflixTools.mkEntry 2 "Extraction 2" None "views" None] /\
  map shown (Context.reports (snd out)) = [(0, 5); (1, 5); (2, 5)].
Proof. split; reflexivity. Qed.

(** ** Log handlers *)

Lemma level_of_one_of_four (message : Logs.LogMessage) :
  In (Logs.level_of message) [Logs.DEBUG; Logs.INFO; Logs.WARNING; Logs.ERROR].
Proof.
  unfold Logs.level_of, Logs.level_map. cbn [dict_get].
  destruct (String.eqb "debug" _); [left; reflexivity|].
  destruct (String.eqb "info" _); [right; left; reflexivity|].
  destruct (String.eqb "warning" _); [right; right; left; reflexivity|].
  destruct (String.eqb "error" _); [right; right; right; left; reflexivity|].
  right; left; reflexivity.
Qed.

Lemma level_of_unknown (message : Logs.LogMessage) :
  ~ In (Py.lower (Logs.level message)) ["debug"; "info"; "warning"; "error"] ->
  Logs.level_of message = Logs.INFO.
Proof.
  intros Hnot. unfold Logs.level_of, Logs.level_map. cbn [dict_get].
  destruct (String.eqb_spec "debug" (Py.lower (Logs.level message))) as [H|_];
    [exfalso; apply Hnot; rewrite <- H; simpl; auto|].
  destruct (String.eqb_spec "info" (Py.lower (Logs.level message))) as [H|_];
    [exfalso; apply Hnot; rewrite <- H; simpl; auto|].
  destruct (String.eqb_spec "warning" (Py.lower (Logs.level message))) as [H|_];
    [exfalso; apply Hnot; rewrite <- H; simpl; auto|].
  destruct (String.eqb_spec "error" (Py.lower (Logs.level message))) as [H|_];
    [exfalso; apply Hnot; rewrite <- H; simpl; auto|].
  reflexivity.
Qed.

Lemma level_of_lower (message other : Logs.LogMessage) :
  Py.lower (Logs.level other) = Py.lower (Logs.level message) ->
  Logs.level_of other = Logs.level_of message.
Proof. unfold Logs.level_of. intros ->. reflexivity. Qed.

Lemma netflix_log_level (message : Logs.LogMessage) (call : Logs.LogCall) :
  Logs.netflix_log_handler message = inr call ->
  Logs.levelno call = Logs.level_of message.
Proof.
  unfold Logs.netflix_log_handler.
  destruct (Logs.data message); intros H; inversion H. reflexivity.
Qed.

(** X22. What the log handlers log, they log at one of the four levels
    DEBUG, INFO, WARNING and ERROR, chosen by the message's level whatever
    its letter case; every level that is none of debug, info, warning and
    error (notice, critical, alert, emergency) is logged at INFO. The
    handler of the puppy guide logs every message; the handler of the
    Netflix client logs when it does not raise. *)
Theorem log_level_is_one_of_four :
  forall (message : Logs.LogMessage),
    (exists call,
        Logs.puppy_log_handler message = inr call /\
        In (Logs.levelno call) [Logs.DEBUG; Logs.INFO; Logs.WARNING; Logs.ERROR] /\
        (forall other,
            Py.lower (Logs.level other) = Py.lower (Logs.level message) ->
            exists call',
              Logs.puppy_log_handler other = inr call' /\
              Logs.levelno call' = Logs.levelno call) /\
        (~ In (Py.lower (Logs.level message)) ["debug"; "info"; "warning"; "error"] ->
         Logs.levelno call = Logs.INFO)) /\
    (forall call,
        Logs.netflix_log_handler message = inr call ->
        In (Logs.levelno call) [Logs.DEBUG; Logs.INFO; Logs.WARNING; Logs.ERROR] /\
        (forall other call',
            Py.lower (Logs.level other) = Py.lower (Logs.level message) ->
            Logs.netflix_log_handler other = inr call' ->
            Logs.levelno call' = Logs.levelno call) /\
        (~ In (Py.lower (Logs.level message)) ["debug"; "info"; "warning"; "error"] ->
         Logs.levelno call = Logs.INFO)).
Proof.
  intros message. split.
  - eexists. split; [reflexivity|]. cbn [Logs.levelno]. split; [|split].
    + apply level_of_one_of_four.
    + intros other Hsame. eexists. split; [reflexivity|].
      cbn [Logs.levelno]. apply level_of_lower. exact Hsame.
    + apply level_of_unknown.
  - intros call Hcall. rewrite (netflix_log_level _ _ Hcall). split; [|split].
    + apply level_of_one_of_four.
    + intros other call' Hsame Hcall'. rewrite (netflix_log_level _ _ Hcall').
      apply level_of_lower. exact Hsame.
    + apply level_of_unknown.
Qed.

Lemma log_level_is_one_of_four_witness :
  (exists call,
      Logs.puppy_log_handler (Logs.mkLogMessage "CRITICAL" (Logs.OtherData "str" "disk full"))
      = inr call /\
      Logs.levelno call = Logs.INFO) /\
  Logs.levelno (Logs.mkLogCall Logs.INFO ("[SERVER] " +:+ "")) = Logs.INFO.
Proof.
  assert (Hnot : ~ In (Py.lower "CRITICAL") ["debug"; "info"; "warning"; "error"])
    by (simpl; intros [H|[H|[H|[H|[]]]]]; discriminate H).
  split.
  - destruct (proj1 (log_level_is_one_of_four
                       (Logs.mkLogMessage "CRITICAL" (Logs.OtherData "str" "disk full"))))
      as (call & Hcall & _ & _ & Hinfo).
    exists call. split; [exact Hcall | exact (Hinfo Hnot)].
  - exact (proj2 (proj2 (proj2 (log_level_is_one_of_four
                                  (Logs.mkLogMessage "CRITICAL" (Logs.DictData ∅)))
                           (Logs.mkLogCall Logs.INFO ("[SERVER] " +:+ "")) eq_refl))
                 Hnot).
Defined.

(** X23. On a message whose data is a dict both handlers log the entry msg,
    or the empty text when the dict has no such entry, at the same level,
    each behind its own prefix. On data that is not a dict the handler of
    the Netflix client raises [AttributeError], where the handler of the
    puppy guide logs the printed data. *)
Theorem log_handlers_on_data :
  forall (message : Logs.LogMessage),
    match Logs.data message with
    | Logs.DictData entries =>
        Logs.netflix_log_handler message
          = inr (Logs.mkLogCall (Logs.level_of message)
                   ("[SERVER] " +:+ default "" (entries !! "msg"))) /\
        Logs.puppy_log_handler message
          = inr (Logs.mkLogCall (Logs.level_of message)
                   ("[Server Log] " +:+ default "" (entries !! "msg")))
    | Logs.OtherData type_name printed =>
        Logs.netflix_log_handler message
          = inl (Py.mkExc "AttributeError"
                   ("'" +:+ type_name +:+ "' object has no attribute 'get'")) /\
        Logs.puppy_log_handler message
          = inr (Logs.mkLogCall (Logs.level_of message) ("[Server Log] " +:+ printed))
    end.
Proof.
  intros [lvl [entries|ty printed]]; split; reflexivity.
Qed.

(** ** Approvals of the LangChain agent *)

Lemma approvals_loop (requests : list Approvals.ActionRequest) :
  forall (lines rest out : list string),
    length lines = length requests ->
    for_each requests
      (fun tool_call =>
         _ ← print ("Tool requested: " +:+ Approvals.name tool_call);
         _ ← input "Press Enter to approve... ";
         mret tt)
      (mkState (lines ++ rest) out)
    = (inr tt,
       mkState rest
         (out ++ flat_map
                   (fun tool_call =>
                      [("Tool requested: " +:+ Approvals.name tool_call) +:+ Py.nl;
                       "Press Enter to approve... "])
                   requests)).
Proof.
  induction requests as [|r requests IH]; intros lines rest out Hlen.
  - destruct lines; [|discriminate]. simpl. rewrite app_nil_r. reflexivity.
  - destruct lines as [|l lines]; [discriminate|]. simpl in Hlen.
    cbn [for_each]. unfold mbind at 1, IO_bind at 1.
    unfold mbind at 1, IO_bind at 1, print, input, mbind, IO_bind, mret, IO_ret.
    cbn [stdin stdout app].
    rewrite IH by lia. cbn [flat_map app]. rewrite <- !app_assoc. reflexivity.
Qed.

Lemma approvals_loop_short (requests : list Approvals.ActionRequest) :
  forall (lines out : list string),
    (length lines < length requests)%nat ->
    fst (for_each requests
           (fun tool_call =>
              _ ← print ("Tool requested: " +:+ Approvals.name tool_call);
              _ ← input "Press Enter to approve... ";
              mret tt)
           (mkState lines out))
    = inl (Py.mkExc "EOFError" "EOF when reading a line").
Proof.
  induction requests as [|r requests IH]; intros lines out Hlen; [simpl in Hlen; lia|].
  destruct lines as [|l lines].
  - reflexivity.
  - simpl in Hlen. cbn [for_each]. unfold mbind at 1, IO_bind at 1.
    unfold mbind at 1, IO_bind at 1, print, input, mbind, IO_bind, mret, IO_ret.
    cbn [stdin stdout app]. apply IH. lia.
Qed.

(** X24. [_approve_tool_calls] approves every pending tool call whatever
    the user types: given one line per call it reads exactly those lines,
    announces each call before its prompt and returns one approve decision
    per call; with fewer lines than calls the end of input raises
    [EOFError]. *)
Theorem every_tool_call_is_approved :
  forall (requests : list Approvals.ActionRequest) (lines rest out : list string),
    (length lines = length requests ->
     Approvals._approve_tool_calls requests (mkState (lines ++ rest) out)
     = (inr (repeat Approvals.approve (length requests)),
        mkState rest
          (out ++ flat_map
                    (fun tool_call =>
                       [("Tool requested: " +:+ Approvals.name tool_call) +:+ Py.nl;
                        "Press Enter to approve... "])
                    requests))) /\
    ((length lines < length requests)%nat ->
     fst (Approvals._approve_tool_calls requests (mkState lines out))
     = inl (Py.mkExc "EOFError" "EOF when reading a line")).
Proof.
  intros requests lines rest out. split.
  - intros Hlen. unfold Approvals._approve_tool_calls.
    unfold mbind at 1, IO_bind at 1. rewrite approvals_loop by exact Hlen. reflexivity.
  - intros Hlen. unfold Approvals._approve_tool_calls.
    unfold mbind at 1, IO_bind at 1.
    pose proof (approvals_loop_short requests lines out Hlen) as H.
    destruct (for_each requests _ (mkState lines out)) as [[e|[]] c'];
      cbn [fst] in H; [cbn; inversion H; reflexivity | discriminate].
Qed.

Lemma every_tool_call_is_approved_witness :
  Approvals._approve_tool_calls
    [Approvals.mkActionRequest "get_air_quality"; Approvals.mkActionRequest "get_temperature"]
    (mkState (["no"; "stop"] ++ ["later"]) [])
  = (inr (repeat Approvals.approve 2),
     mkState ["later"]
       ([] ++ flat_map
                (fun tool_call =>
                   [("Tool requested: " +:+ Approvals.name tool_call) +:+ Py.nl;
                    "Press Enter to approve... "])
                [Approvals.mkActionRequest "get_air_quality";
                 Approvals.mkActionRequest "get_temperature"])).
Proof.
  exact (proj1 (every_tool_call_is_approved
                  [Approvals.mkActionRequest "get_air_quality";
                   Approvals.mkActionRequest "get_temperature"]
                  ["no"; "stop"] ["later"] []) eq_refl).
Defined.

(** ** The loop of [mcp-client] *)
Section MoreMcpClient.

Context {World Json : Type}.
Variable create : World -> list McpClient.Msg -> (Py.Exc + AssistantMessage) * World.
Variable json_loads : string -> Py.Exc + Json.
Variable call_tool : World -> string -> Json -> (Py.Exc + CallToolResult) * World.
Variable str : list ContentBlock -> string.

#[local] Abbreviation mcp_for := (McpClient.for_tool_calls json_loads call_tool str).
#[local] Abbreviation tool_loop := (McpClient.tool_loop create json_loads call_tool str).
#[local] Abbreviation main := (McpClient.main create json_loads call_tool str).

Lemma mcp_for_app (pre post : list ToolCall) :
  forall w ms1 w1,
    mcp_for w pre = (None, ms1, w1) ->
    mcp_for w (pre ++ post) =
      (let '(flow, ms2, w2) := mcp_for w1 post in (flow, ms1 ++ ms2, w2)).
Proof.
  induction pre as [|c pre IH]; intros w ms1 w1 H; simpl in *.
  - inversion H; subst. destruct (mcp_for w1 post) as [[? ?] ?]. reflexivity.
  - destruct (json_loads (tc_arguments c)) as [e|args]; [discriminate|].
    destruct (call_tool w (tc_name c) args) as [[e|r] wc]; [discriminate|].
    destruct (mcp_for wc pre) as [[flow ms] w2] eqn:Hpre.
    inversion H; subst. rewrite (IH _ _ _ Hpre).
    destruct (mcp_for w1 post) as [[? ?] ?]. reflexivity.
Qed.

(** X25. The loop of [mcp-client] folds no failure: when the invocation of
    a request raises, the exception leaves the loop; [messages] keeps the
    assistant message and the results of the earlier requests, and no
    further completion is requested. *)
Theorem mcp_client_propagates_failures :
  forall (fuel : nat) (w : World) (messages : list McpClient.Msg)
         (response : AssistantMessage) pre c post ms_pre wc args e wc',
    am_tool_calls response = Some (pre ++ c :: post) ->
    mcp_for w pre = (None, ms_pre, wc) ->
    json_loads (tc_arguments c) = inr args ->
    call_tool wc (tc_name c) args = (inl e, wc') ->
    tool_loop (S fuel) w messages response
      = (Raises e, (messages ++ [McpClient.Assistant response]) ++ ms_pre, wc').
Proof.
  intros fuel w messages response pre c post ms_pre wc args e wc' Htc Hpre Hargs Hcall.
  cbn [McpClient.tool_loop]. rewrite Htc.
  replace (Py.truthy_opt_list (Some (pre ++ c :: post))) with true
    by (destruct pre; reflexivity).
  change (default [] (Some (pre ++ c :: post))) with (pre ++ c :: post).
  cbv iota. rewrite (mcp_for_app pre (c :: post) _ _ _ Hpre).
  cbn [McpClient.for_tool_calls]. rewrite Hargs, Hcall, app_nil_r. reflexivity.
Qed.

Lemma mcp_for_results (calls : list ToolCall) :
  forall w ms w',
    mcp_for w calls = (None, ms, w') ->
    calls <> [] ->
    exists before i text, ms = before ++ [McpClient.Tool i text].
Proof.
  induction calls as [|c calls IH]; intros w ms w' H Hne; [congruence|].
  simpl in H.
  destruct (json_loads (tc_arguments c)) as [e|args]; [discriminate|].
  destruct (call_tool w (tc_name c) args) as [[e|r] wc]; [discriminate|].
  destruct (mcp_for wc calls) as [[flow ms1] w2] eqn:Hrest.
  inversion H; subst.
  destruct calls as [|c2 calls].
  - simpl in Hrest. inversion Hrest; subst. exists [], (tc_id c), (str (content r)).
    reflexivity.
  - destruct (IH _ _ _ Hrest ltac:(discriminate)) as (before & i & text & ->).
    exists (McpClient.Tool (tc_id c) (str (content r)) :: before), i, text. reflexivity.
Qed.

Lemma tool_loop_returns (fuel : nat) :
  forall w messages response answer ms w',
    tool_loop fuel w messages response = (Returns answer, ms, w') ->
    ms = messages \/ exists before i text, ms = before ++ [McpClient.Tool i text].
Proof.
  induction fuel as [|fuel IH]; intros w messages response answer ms w' H;
    [discriminate|].
  cbn [McpClient.tool_loop] in H.
  destruct (Py.truthy_opt_list (am_tool_calls response)) eqn:Ht.
  - destruct (mcp_for w (default [] (am_tool_calls response)))
      as [[[e|] ms1] w1] eqn:Hfor; [discriminate|].
    destruct (mcp_for_results _ _ _ _ Hfor) as (before & i & text & ->).
    { destruct (am_tool_calls response) as [[|? ?]|]; simpl in *; congruence. }
    destruct (create w1 _) as [[e|next] w2]; [discriminate|].
    right. destruct (IH _ _ _ _ _ _ H) as [-> | Hend]; [|exact Hend].
    exists ((messages ++ [McpClient.Assistant response]) ++ before), i, text.
    rewrite app_assoc. reflexivity.
  - inversion H; subst. left. reflexivity.
Qed.

(** X26. When [mcp-client] gets its final answer, that answer is not in
    [messages]: the list is the question alone, or ends with a tool
    result. *)
Theorem mcp_client_keeps_no_final_answer :
  forall (fuel : nat) (query : string) (w : World) answer ms w',
    main fuel query w = (Returns answer, ms, w') ->
    ms = [McpClient.User query] \/
    exists before i text, ms = before ++ [McpClient.Tool i text].
Proof.
  intros fuel query w answer ms w' H. unfold McpClient.main in H.
  destruct (create w [McpClient.User query]) as [[e|response] w1]; [discriminate|].
  exact (tool_loop_returns fuel _ _ _ _ _ _ H).
Qed.

End MoreMcpClient.

Lemma mcp_client_propagates_failures_witness :
  McpClient.tool_loop (McpFixture.create []) Fixture.json_loads McpFixture.call_tool
    McpFixture.str 3 1%nat [McpClient.User "3 + 5, then 3 * 5"] McpFixture.asks_two
  = (Raises (Py.mkExc "McpError" "Connection closed"),
     ([McpClient.User "3 + 5, then 3 * 5"] ++ [McpClient.Assistant McpFixture.asks_two])
       ++ [McpClient.Tool "call_1" (McpFixture.str [TextContent "8"])],
     1%nat).
Proof.
  exact (mcp_client_propagates_failures (McpFixture.create []) Fixture.json_loads
           McpFixture.call_tool McpFixture.str 2%nat 1%nat
           [McpClient.User "3 + 5, then 3 * 5"] McpFixture.asks_two
           [mkToolCall "call_1" "sum" "{}"] (mkToolCall "call_2" "product" "{}") []
           [McpClient.Tool "call_1" (McpFixture.str [TextContent "8"])] 1%nat tt
           (Py.mkExc "McpError" "Connection closed") 1%nat
           eq_refl eq_refl eq_refl eq_refl).
Defined.

Lemma mcp_client_keeps_no_final_answer_witness :
  [McpClient.User "3 + 5"; McpClient.Assistant McpFixture.asks_sum;
   McpClient.Tool "call_1" (McpFixture.str [TextContent "8"])]
    = [McpClient.User "3 + 5"] \/
  exists before i text,
    [McpClient.User "3 + 5"; McpClient.Assistant McpFixture.asks_sum;
     McpClient.Tool "call_1" (McpFixture.str [TextContent "8"])]
    = before ++ [McpClient.Tool i text].
Proof.
  exact (mcp_client_keeps_no_final_answer
           (McpFixture.create [McpFixture.asks_sum; Fixture.plain "3 + 5 = 8"])
           Fixture.json_loads McpFixture.call_tool McpFixture.str
           3%nat "3 + 5" 0%nat (Some "3 + 5 = 8")
           [McpClient.User "3 + 5"; McpClient.Assistant McpFixture.asks_sum;
            McpClient.Tool "call_1" (McpFixture.str [TextContent "8"])]
           2%nat eq_refl).
Defined.

(** ** Numbers printed and read back *)

From Stdlib Require Import DecimalPos.

Ltac digit_step :=
  match goal with
  | |- context [Py.is_digit ?c] =>
      change (Py.is_digit c) with true; cbv iota;
      let v := eval vm_compute in (Py.digit_val c) in
      change (Py.digit_val c) with v
  end.

Lemma int_digits_acc (d : Decimal.uint) :
  forall acc : positive,
    Py.int_digits (NilEmpty.string_of_uint d) (Z.pos acc) true
    = Some (Z.pos (Pos.of_uint_acc d acc)).
Proof.
  induction d; intros acc;
    cbn [NilEmpty.string_of_uint Py.int_digits Pos.of_uint_acc];
    [reflexivity | ..];
    digit_step; rewrite <- IHd; f_equal; lia.
Qed.

Lemma int_digits_uint (d : Decimal.uint) :
  Py.int_digits (NilEmpty.string_of_uint d) 0 true = Some (Z.of_N (Pos.of_uint d)).
Proof.
  induction d; cbn [NilEmpty.string_of_uint Py.int_digits Pos.of_uint];
    [reflexivity | digit_step; exact IHd | ..];
    digit_step; apply int_digits_acc.
Qed.

Lemma int_digits_first (d : Decimal.uint) (prev : bool) :
  d <> Decimal.Nil ->
  Py.int_digits (NilEmpty.string_of_uint d) 0 prev
  = Py.int_digits (NilEmpty.string_of_uint d) 0 true.
Proof. destruct d; intros H; [congruence | reflexivity..]. Qed.

Lemma rstrip_uint (d : Decimal.uint) :
  Py.rstrip (NilEmpty.string_of_uint d) = NilEmpty.string_of_uint d.
Proof.
  induction d; cbn [NilEmpty.string_of_uint Py.rstrip]; [reflexivity | ..];
    rewrite IHd; destruct (NilEmpty.string_of_uint d); reflexivity.
Qed.

Lemma strip_uint (d : Decimal.uint) :
  Py.strip (NilEmpty.string_of_uint d) = NilEmpty.string_of_uint d.
Proof.
  unfold Py.strip.
  replace (Py.lstrip (NilEmpty.string_of_uint d)) with (NilEmpty.string_of_uint d)
    by (destruct d; reflexivity).
  apply rstrip_uint.
Qed.

(** [int(str(n))] is [n], also through [strip]. *)
Lemma int_of_str_int (n : Z) : Py.int_of_str (Py.strip (Py.str_int n)) = inr n.
Proof.
  unfold Py.str_int. destruct n as [|p|p]; [reflexivity | ..]; cbn [Z.to_int NilZero.string_of_int].
  - unfold NilZero.string_of_uint.
    pose proof (Unsigned.to_uint_nonnil p) as Hnn.
    pose proof (DecimalPos.Unsigned.of_to p) as Hof.
    assert (Hs : NilEmpty.string_of_uint (Pos.to_uint p)
                 = match Pos.to_uint p with
                   | Decimal.Nil => "0"
                   | _ => NilEmpty.string_of_uint (Pos.to_uint p)
                   end) by (destruct (Pos.to_uint p); [congruence | reflexivity..]).
    rewrite <- Hs. rewrite strip_uint. unfold Py.int_of_str. rewrite strip_uint.
    assert (Hbody : match NilEmpty.string_of_uint (Pos.to_uint p) with
                    | String "-" r => Z.opp <$> Py.int_digits r 0 false
                    | String "+" r => Py.int_digits r 0 false
                    | t => Py.int_digits t 0 false
                    end = Some (Z.pos p)).
    { transitivity (Py.int_digits (NilEmpty.string_of_uint (Pos.to_uint p)) 0 false).
      - destruct (Pos.to_uint p); reflexivity.
      - rewrite int_digits_first by exact Hnn. rewrite int_digits_uint, Hof. reflexivity. }
    rewrite Hbody. reflexivity.
  - unfold NilZero.string_of_uint.
    pose proof (Unsigned.to_uint_nonnil p) as Hnn.
    pose proof (DecimalPos.Unsigned.of_to p) as Hof.
    assert (Hs : NilEmpty.string_of_uint (Pos.to_uint p)
                 = match Pos.to_uint p with
                   | Decimal.Nil => "0"
                   | _ => NilEmpty.string_of_uint (Pos.to_uint p)
                   end) by (destruct (Pos.to_uint p); [congruence | reflexivity..]).
    rewrite <- Hs.
    assert (Hstrip : Py.strip (String "-" (NilEmpty.string_of_uint (Pos.to_uint p)))
                     = String "-" (NilEmpty.string_of_uint (Pos.to_uint p))).
    { unfold Py.strip. cbn [Py.lstrip]. change (Py.is_space "-") with false.
      cbv iota. cbn [Py.rstrip]. rewrite rstrip_uint.
      destruct (Pos.to_uint p); [congruence | reflexivity..]. }
    rewrite Hstrip. unfold Py.int_of_str. rewrite Hstrip.
    rewrite int_digits_first by exact Hnn. rewrite int_digits_uint, Hof. reflexivity.
Qed.

(** X27. The menu of the puppy-guide handler and its reading agree: for
    every option, the menu shows a line with its number and the option, and
    typing that number answers with this option. *)
Theorem puppy_menu_number_selects_its_option :
  forall (message : string) (rt : Shape) (schema : option PuppyElicitation.Schema)
         (rest out : list string) (i : nat) (option : string),
    nth_error (PuppyElicitation.options_of schema) i = Some option ->
    let number := Py.str_int (Z.of_nat i + 1) in
    In (("  " +:+ number +:+ ". " +:+ option) +:+ Py.nl)
       (Spec.menu message (PuppyElicitation.options_of schema)) /\
    PuppyElicitation.elicitation_handler message (Some rt) schema (mkState (number :: rest) out)
    = (inr (Instance rt option),
       mkState rest (out ++ Spec.menu message (PuppyElicitation.options_of schema))).
Proof.
  intros message rt schema rest out i option Hi number. split.
  - unfold Spec.menu. apply in_or_app. right. apply in_or_app. left.
    apply in_map_iff. exists (Z.of_nat i + 1, option). split; [reflexivity|].
    clear - Hi. generalize 1 as start. revert i Hi.
    induction (PuppyElicitation.options_of schema) as [|o os IH]; intros i Hi start.
    + destruct i; discriminate.
    + destruct i as [|i]; simpl in Hi.
      * inversion Hi; subst. left. reflexivity.
      * right. replace (Z.of_nat (S i) + start) with (Z.of_nat i + (start + 1)) by lia.
        apply IH. exact Hi.
  - pose proof (puppy_integer_choices message rt schema number rest out (Z.of_nat i + 1)
                  (int_of_str_int _)) as (_ & Hin & _).
    assert (Hlt : (i < length (PuppyElicitation.options_of schema))%nat)
      by (apply nth_error_Some; congruence).
    destruct Hin as (v & Hv & Hrun); [lia|].
    replace (Z.to_nat (Z.of_nat i + 1 - 1)) with i in Hv by lia.
    rewrite Hi in Hv. inversion Hv; subst. exact Hrun.
Qed.

Lemma puppy_menu_number_selects_its_option_witness :
  In (("  " +:+ Py.str_int (Z.of_nat 1 + 1) +:+ ". " +:+ "poodle") +:+ Py.nl)
     (Spec.menu "Which one?" (PuppyElicitation.options_of Fixture.breeds)) /\
  PuppyElicitation.elicitation_handler "Which one?" (Some StringShape) Fixture.breeds
    (mkState (Py.str_int (Z.of_nat 1 + 1) :: []) [])
  = (inr (Instance StringShape "poodle"),
     mkState [] ([] ++ Spec.menu "Which one?" (PuppyElicitation.options_of Fixture.breeds))).
Proof.
  exact (puppy_menu_number_selects_its_option "Which one?" StringShape Fixture.breeds
           [] [] 1%nat "poodle" eq_refl).
Defined.

(** ** The calculator server *)

Lemma strip_str_int (n : Z) : Py.strip (Py.str_int n) = Py.str_int n.
Proof.
  unfold Py.str_int. destruct n as [|p|p]; [reflexivity | ..];
    cbn [Z.to_int NilZero.string_of_int]; unfold NilZero.string_of_uint;
    pose proof (Unsigned.to_uint_nonnil p) as Hnn.
  - replace (match Pos.to_uint p with
             | Decimal.Nil => "0"
             | _ => NilEmpty.string_of_uint (Pos.to_uint p)
             end) with (NilEmpty.string_of_uint (Pos.to_uint p))
      by (destruct (Pos.to_uint p); [congruence | reflexivity..]).
    apply strip_uint.
  - replace (match Pos.to_uint p with
             | Decimal.Nil => "0"
             | _ => NilEmpty.string_of_uint (Pos.to_uint p)
             end) with (NilEmpty.string_of_uint (Pos.to_uint p))
      by (destruct (Pos.to_uint p); [congruence | reflexivity..]).
    unfold Py.strip. cbn [Py.lstrip]. change (Py.is_space "-") with false.
    cbv iota. cbn [Py.rstrip]. rewrite rstrip_uint.
    destruct (Pos.to_uint p); [congruence | reflexivity..].
Qed.

Lemma calculator_int_spelled (a : Calculator.Arg) (n : Z) :
  Calculator.spells a n -> Calculator.int a = inr n.
Proof.
  intros [-> | [-> _]]; [reflexivity|]. simpl.
  rewrite <- strip_str_int. apply int_of_str_int.
Qed.

(** X28. The calculator's [sum] adds integers however they are written:
    given each of two integers as a JSON number or as the string of its
    decimal digits (of at most [INT_MAX_STR_DIGITS] characters), it returns
    their sum; and when the first argument, no string or a string of that
    length in ASCII characters, has no integer value, the error is the one
    of the first argument, whatever the second is. *)
Theorem calculator_sum_adds :
  forall (a b : Calculator.Arg) (x y : Z),
    (Calculator.spells a x -> Calculator.spells b y ->
     Calculator.sum a b = inr (x + y)) /\
    (forall e,
        Calculator.plain a = true ->
        Calculator.int a = inl e ->
        Calculator.sum a b = inl e).
Proof.
  intros a b x y. split.
  - intros Ha Hb. unfold Calculator.sum.
    rewrite (calculator_int_spelled a x Ha), (calculator_int_spelled b y Hb). reflexivity.
  - intros e _ He. unfold Calculator.sum. rewrite He. reflexivity.
Qed.

Lemma calculator_sum_adds_witness :
  Calculator.sum (Calculator.JString (Py.str_int (-12))) (Calculator.JInt 30) = inr (-12 + 30)
  /\ Calculator.sum (Calculator.JString "seven") (Calculator.JString "1")
     = inl (Py.mkExc "ValueError" "invalid literal for int() with base 10: 'seven'").
Proof.
  split.
  - exact (proj1 (calculator_sum_adds (Calculator.JString (Py.str_int (-12)))
                    (Calculator.JInt 30) (-12) 30)
                 (or_intror (conj eq_refl eq_refl)) (or_introl eq_refl)).
  - exact (proj2 (calculator_sum_adds (Calculator.JString "seven")
                    (Calculator.JString "1") 0 0)
                 (Py.mkExc "ValueError" "invalid literal for int() with base 10: 'seven'")
                 eq_refl eq_refl).
Defined.

(** The calculator on other arguments: floats lose their fraction before
    the addition, blanks around digits are accepted, words are not. *)
Example calculator_examples :
  Calculator.sum (Calculator.JFloat 1.75%float) (Calculator.JFloat 1.75%float) = inr 2 /\
  Calculator.sum (Calculator.JString " 7 ") (Calculator.JBool true) = inr 8 /\
  Calculator.sum (Calculator.JString "seven") (Calculator.JInt 1)
  = inl (Py.mkExc "ValueError" "invalid literal for int() with base 10: 'seven'") /\
  Calculator.sum (Calculator.JInt 1) Calculator.JNull
  = inl (Py.mkExc "TypeError"
           "int() argument must be a string, a bytes-like object or a real number, not 'NoneType'").
Proof. repeat split; reflexivity. Qed.
